(** * notion-tool: schema lookups, filter construction and value normalization

    A shallow embedding of the decision logic of the [notion_kanban_cli]
    package: [transform.py] (the value normalizer), [schema.py] (the schema
    model with its two memo fields, and the process-wide schema cache) and
    the parts of [cli.py] that consult them (the filter built by [query] and
    the validation done by [update_status]).

    Python values are modelled dynamically, as the code receives them: every
    payload is a JSON value, every attribute access can raise, and a
    function of the package returns a [result].  Objects that the code
    mutates ([DatabaseSchema] instances and the module-level cache) live in
    an explicit store. *)

From Stdlib Require Import String Ascii ZArith NArith List Bool Lia SpecFloat.
From stdpp Require Import base option list list_monad gmap strings pretty.
Import ListNotations.
Local Open Scope string_scope.

(** ** Python values and the built-ins the package uses *)
Module Py.

(** A decoded JSON document, that is the Python value [response.json()]
    yields: [None], [bool], a number, [str], [list] or [dict].  A [dict]
    keeps its insertion order, which the schema scans depend on, so it is an
    association list; a Python [dict] has no repeated key, and [dict_lookup]
    reads the first binding.  A number is an [int] or a [float] (a binary
    floating-point datum); the package only ever tests a number for truth or
    hands it on.  A [str] is a
    [string] whose characters are the code points below 256. *)
#[local] Unset Elimination Schemes.
Inductive json : Type :=
| JNull
| JBool (b : bool)
| JNum (n : Z)
| JFloat (x : spec_float)
| JStr (s : string)
| JArr (items : list json)
| JObj (fields : list (string * json)).
#[local] Set Elimination Schemes.

(** The exceptions that can travel through the package; each carries the
    text [str(e)] gives.  [NotionAPIError] is the one [client.py] declares,
    with its [status_code]; [TransportError] stands for whatever the HTTP
    library raises by itself. *)
Inductive exn : Type :=
| AttributeError (message : string)
| TypeError (message : string)
| ValueError (message : string)
| NotionAPIError (message : string) (status_code : option Z)
| TransportError (message : string).

Inductive result (A : Type) : Type :=
| Ok (a : A)
| Raise (e : exn).
Arguments Ok {A} a.
Arguments Raise {A} e.

#[global] Instance result_ret : MRet result := fun A a => Ok a.
#[global] Instance result_bind : MBind result :=
  fun A B f m => match m with Ok a => f a | Raise e => Raise e end.
#[global] Instance result_fmap : FMap result :=
  fun A B f m => match m with Ok a => Ok (f a) | Raise e => Raise e end.

Definition is_ok {A} (r : result A) : bool :=
  match r with Ok _ => true | Raise _ => false end.

Definition str_of_exn (e : exn) : string :=
  match e with
  | AttributeError m | TypeError m | ValueError m
  | NotionAPIError m _ | TransportError m => m
  end.

(** [type(v).__name__], as it appears in the interpreter's messages. *)
Definition type_name (v : json) : string :=
  match v with
  | JNull => "NoneType"
  | JBool _ => "bool"
  | JNum _ => "int"
  | JFloat _ => "float"
  | JStr _ => "str"
  | JArr _ => "list"
  | JObj _ => "dict"
  end.

Definition no_attribute (v : json) (attr : string) : exn :=
  AttributeError ("'" ++ type_name v ++ "' object has no attribute '" ++ attr ++ "'").

Definition not_iterable (v : json) : exn :=
  TypeError ("'" ++ type_name v ++ "' object is not iterable").

(** Truth value testing: [if v:]. *)
Definition truthy (v : json) : bool :=
  match v with
  | JNull => false
  | JBool b => b
  | JNum n => negb (n =? 0)%Z
  | JFloat x => match x with S754_zero _ => false | _ => true end
  | JStr s => negb (String.eqb s "")
  | JArr l => match l with [] => false | _ => true end
  | JObj m => match m with [] => false | _ => true end
  end.

(** [v == "literal"] for a [str] literal. *)
Definition py_eq_str (v : json) (s : string) : bool :=
  match v with JStr t => String.eqb t s | _ => false end.

(** *** Dictionaries *)

Fixpoint dict_lookup (m : list (string * json)) (k : string) : option json :=
  match m with
  | [] => None
  | (k', v) :: m' => if String.eqb k' k then Some v else dict_lookup m' k
  end.

(** [m.get(k)] and [m.get(k, d)] on a [dict]. *)
Definition dict_get (m : list (string * json)) (k : string) : json :=
  default JNull (dict_lookup m k).
Definition dict_get_default (m : list (string * json)) (k : string) (d : json) : json :=
  default d (dict_lookup m k).

(** [v.get(k)] and [v.get(k, d)] on any value: only a [dict] has [get]. *)
Definition py_get (v : json) (k : string) : result json :=
  match v with
  | JObj m => Ok (dict_get m k)
  | _ => Raise (no_attribute v "get")
  end.
Definition py_get_default (v : json) (k : string) (d : json) : result json :=
  match v with
  | JObj m => Ok (dict_get_default m k d)
  | _ => Raise (no_attribute v "get")
  end.

(** [v.items()]. *)
Definition py_items (v : json) : result (list (string * json)) :=
  match v with
  | JObj m => Ok m
  | _ => Raise (no_attribute v "items")
  end.

(** [f(m.get(k, d))] for a [dict] [m], where [fd] is [f d].  Written as a
    local fixpoint over the bindings so that a recursive [f] is applied to a
    component of [m] only. *)
Definition on_key {A : Type} (k : string) (f : json -> A) (fd : A)
  : list (string * json) -> A :=
  fix go (m : list (string * json)) : A :=
    match m with
    | [] => fd
    | (k', v) :: m' => if String.eqb k' k then f v else go m'
    end.

(** *** Iteration *)

(** The elements [for x in v] visits: the items of a [list], the keys of a
    [dict], the characters of a [str]; nothing else is iterable. *)
Definition py_iter (v : json) : result (list json) :=
  match v with
  | JArr l => Ok l
  | JObj m => Ok (map (fun kv => JStr (fst kv)) m)
  | JStr s => Ok (map (fun c => JStr (String c "")) (list_ascii_of_string s))
  | _ => Raise (not_iterable v)
  end.

(** [[x.get(k) for x in xs]] and [[x.get(k, d) for x in xs]]. *)
Definition get_each (k : string) (xs : list json) : result (list json) :=
  mapM (fun x => py_get x k) xs.
Definition get_default_each (k : string) (d : json) (xs : list json) : result (list json) :=
  mapM (fun x => py_get_default x k d) xs.

(** ["".join(parts)]: every part has to be a [str]. *)
Fixpoint join_from (i : nat) (parts : list json) : result string :=
  match parts with
  | [] => Ok ""
  | JStr s :: rest => t ← join_from (S i) rest; Ok (s ++ t)
  | v :: _ =>
      Raise (TypeError ("sequence item " ++ pretty i ++ ": expected str instance, "
                        ++ type_name v ++ " found"))
  end.
Definition py_join (parts : list json) : result string := join_from 0 parts.

(** *** Strings *)

(** [c.isspace()] for a code point below 256. *)
Definition is_space (c : ascii) : bool :=
  let n := N_of_ascii c in
  ((9 <=? n) && (n <=? 13) || (28 <=? n) && (n <=? 32) || (n =? 133) || (n =? 160))%N.

Fixpoint lstrip (s : string) : string :=
  match s with
  | "" => ""
  | String c s' => if is_space c then lstrip s' else s
  end.

Fixpoint rstrip (s : string) : string :=
  match s with
  | "" => ""
  | String c s' =>
      match rstrip s' with
      | "" => if is_space c then "" else String c ""
      | t => String c t
      end
  end.

(** [s.strip()]. *)
Definition strip (s : string) : string := rstrip (lstrip s).

(** [c.lower()] for a code point below 256: A-Z, and the capital letters of
    Latin-1 (U+00C0 to U+00DE but the multiplication sign U+00D7). *)
Definition lower_char (c : ascii) : ascii :=
  let n := N_of_ascii c in
  if ((65 <=? n) && (n <=? 90) || (192 <=? n) && (n <=? 222) && negb (n =? 215))%N
  then ascii_of_N (n + 32) else c.

(** [s.lower()]. *)
Fixpoint lower (s : string) : string :=
  match s with
  | "" => ""
  | String c s' => String (lower_char c) (lower s')
  end.

(** [sep in s] for a one-character [sep]. *)
Fixpoint contains_char (sep : ascii) (s : string) : bool :=
  match s with
  | "" => false
  | String c s' => Ascii.eqb c sep || contains_char sep s'
  end.

(** [s.split(sep)] for a one-character [sep]. *)
Fixpoint split (sep : ascii) (s : string) : list string :=
  match s with
  | "" => [""]
  | String c s' =>
      if Ascii.eqb c sep then "" :: split sep s'
      else match split sep s' with
           | t :: ts => String c t :: ts
           | [] => [String c ""]
           end
  end.

(** [s.split(sep, 1)] for a one-character [sep]: at most one cut, at the
    first [sep]. *)
Fixpoint split_once (sep : ascii) (s : string) : list string :=
  match s with
  | "" => [""]
  | String c s' =>
      if Ascii.eqb c sep then [""; s']
      else match split_once sep s' with
           | t :: ts => String c t :: ts
           | [] => [String c ""]
           end
  end.

End Py.
Import Py.

(** ** transform.py *)
Module Transform.

Section transform.

(** [datetime.fromisoformat(start).isoformat()] of the standard library, for
    a [str] argument: the re-serialized text, or [None] where
    [fromisoformat] raises [ValueError]. *)
Variable isoformat : string -> option string.

(** The [date] arm, lines 33 to 42. *)
Definition transform_date (date_data : json) : result json :=
  if truthy date_data then
    start ← py_get date_data "start";
    if truthy start then
      match start with
      | JStr s =>
          match isoformat s with
          | Some iso => Ok (JStr iso)
          | None => Ok start
          end
      | _ => Raise (TypeError "fromisoformat: argument must be str")
      end
    else Ok JNull
  else Ok JNull.

(** The [select] and [status] arms: [data.get("name") if data else None]. *)
Definition name_or_none (data : json) : result json :=
  if truthy data then py_get data "name" else Ok JNull.

(** The [title] and [rich_text] arms:
    ["".join(t.get("plain_text", "") for t in texts)]. *)
Definition plain_text (texts : json) : result json :=
  runs ← py_iter texts;
  parts ← get_default_each "plain_text" (JStr "") runs;
  JStr <$> py_join parts.

(** The list arms: [[x.get(k) for x in values]]. *)
Definition collect (k : string) (values : json) : result json :=
  xs ← py_iter values;
  JArr <$> get_each k xs.

(** [transform_property_value(prop_data)].  In the [formula] arm the call is
    on [prop_data.get("formula", {})]; for a missing key that is the call on
    [{}], which has no [type] and is returned as it is. *)
Fixpoint transform_property_value (prop_data : json) : result json :=
  match prop_data with
  | JObj m =>
      let prop_type := dict_get m "type" in
      if py_eq_str prop_type "title" then
        plain_text (dict_get_default m "title" (JArr []))
      else if py_eq_str prop_type "rich_text" then
        plain_text (dict_get_default m "rich_text" (JArr []))
      else if py_eq_str prop_type "number" then
        Ok (dict_get m "number")
      else if py_eq_str prop_type "select" then
        name_or_none (dict_get m "select")
      else if py_eq_str prop_type "multi_select" then
        collect "name" (dict_get_default m "multi_select" (JArr []))
      else if py_eq_str prop_type "status" then
        name_or_none (dict_get m "status")
      else if py_eq_str prop_type "date" then
        transform_date (dict_get m "date")
      else if py_eq_str prop_type "checkbox" then
        Ok (dict_get m "checkbox")
      else if py_eq_str prop_type "url" then
        Ok (dict_get m "url")
      else if py_eq_str prop_type "email" then
        Ok (dict_get m "email")
      else if py_eq_str prop_type "phone_number" then
        Ok (dict_get m "phone_number")
      else if py_eq_str prop_type "formula" then
        on_key "formula" transform_property_value (Ok (JObj [])) m
      else if py_eq_str prop_type "relation" then
        collect "id" (dict_get_default m "relation" (JArr []))
      else if py_eq_str prop_type "people" then
        collect "id" (dict_get_default m "people" (JArr []))
      else if py_eq_str prop_type "files" then
        collect "name" (dict_get_default m "files" (JArr []))
      else if py_eq_str prop_type "created_time" then
        Ok (dict_get m "created_time")
      else if py_eq_str prop_type "created_by" then
        Ok (dict_get m "created_by")
      else if py_eq_str prop_type "last_edited_time" then
        Ok (dict_get m "last_edited_time")
      else if py_eq_str prop_type "last_edited_by" then
        Ok (dict_get m "last_edited_by")
      else Ok prop_data
  | _ => Raise (no_attribute prop_data "get")
  end.

End transform.

(** *** Payloads as the API documents them

    The shape of a property value object: what each arm reads has the type
    the API gives it. *)

Definition is_dict (v : json) : bool :=
  match v with JObj _ => true | _ => false end.

Definition is_str_or_none (v : json) : bool :=
  match v with JStr _ | JNull => true | _ => false end.

(** A rich-text run: an object whose [plain_text], when present, is text. *)
Definition is_text_run (v : json) : bool :=
  match v with
  | JObj m => match dict_get_default m "plain_text" (JStr "") with JStr _ => true | _ => false end
  | _ => false
  end.

Definition is_list_of (p : json -> bool) (v : json) : bool :=
  match v with JArr l => forallb p l | _ => false end.

(** [null], or an object. *)
Definition is_dict_or_none (v : json) : bool :=
  match v with JNull | JObj _ => true | _ => false end.

(** A date value: [null], or an object whose [start] is text or [null]. *)
Definition is_date (v : json) : bool :=
  match v with
  | JNull => true
  | JObj m => is_str_or_none (dict_get m "start")
  | _ => false
  end.

Fixpoint well_formed (prop_data : json) : bool :=
  match prop_data with
  | JObj m =>
      let prop_type := dict_get m "type" in
      if py_eq_str prop_type "title" then
        is_list_of is_text_run (dict_get_default m "title" (JArr []))
      else if py_eq_str prop_type "rich_text" then
        is_list_of is_text_run (dict_get_default m "rich_text" (JArr []))
      else if py_eq_str prop_type "select" then
        is_dict_or_none (dict_get m "select")
      else if py_eq_str prop_type "multi_select" then
        is_list_of is_dict (dict_get_default m "multi_select" (JArr []))
      else if py_eq_str prop_type "status" then
        is_dict_or_none (dict_get m "status")
      else if py_eq_str prop_type "date" then
        is_date (dict_get m "date")
      else if py_eq_str prop_type "formula" then
        on_key "formula" well_formed true m
      else if py_eq_str prop_type "relation" then
        is_list_of is_dict (dict_get_default m "relation" (JArr []))
      else if py_eq_str prop_type "people" then
        is_list_of is_dict (dict_get_default m "people" (JArr []))
      else if py_eq_str prop_type "files" then
        is_list_of is_dict (dict_get_default m "files" (JArr []))
      else true
  | _ => false
  end.

(** A stand-in for [isoformat] on calendar dates, used where a concrete
    parser is needed: it accepts [YYYY-MM-DD] for a date that exists and
    gives midnight of that day, as the standard library does, and rejects
    every other text (the standard library accepts more, never less; it
    rejects the empty text too). *)
Definition digit (c : ascii) : option N :=
  let n := N_of_ascii c in
  if ((48 <=? n) && (n <=? 57))%N then Some (n - 48)%N else None.

Definition days_in_month (y mo : N) : N :=
  if (mo =? 2)%N then
    if ((y mod 4 =? 0) && (negb (y mod 100 =? 0) || (y mod 400 =? 0)))%N then 29%N else 28%N
  else if ((mo =? 4) || (mo =? 6) || (mo =? 9) || (mo =? 11))%N then 30%N
  else 31%N.

Definition isoformat_date (s : string) : option string :=
  match list_ascii_of_string s with
  | [y1; y2; y3; y4; d1; m1; m2; d2; a1; a2] =>
      y1 ← digit y1; y2 ← digit y2; y3 ← digit y3; y4 ← digit y4;
      m1 ← digit m1; m2 ← digit m2; a1 ← digit a1; a2 ← digit a2;
      let y := (1000 * y1 + 100 * y2 + 10 * y3 + y4)%N in
      let mo := (10 * m1 + m2)%N in
      let d := (10 * a1 + a2)%N in
      if (Ascii.eqb d1 "-" && Ascii.eqb d2 "-" && (1 <=? y) && (1 <=? mo) && (mo <=? 12)
          && (1 <=? d) && (d <=? days_in_month y mo))%N%bool
      then Some (s ++ "T00:00:00") else None
  | _ => None
  end.

End Transform.
Import Transform.

(** ** Programs over a mutable state

    A method of an object, or a command over the process state: it runs on
    a state and leaves a state, also when it raises. *)
Module Prog.

Definition prog (S A : Type) : Type := S -> result A * S.

#[global] Instance prog_ret {S} : MRet (prog S) := fun A a s => (Ok a, s).
#[global] Instance prog_bind {S} : MBind (prog S) :=
  fun A B f m s =>
    match m s with
    | (Ok a, s') => f a s'
    | (Raise e, s') => (Raise e, s')
    end.

(** A computation that reads the state and leaves it as it is. *)
Definition read {S A} (f : S -> result A) : prog S A := fun s => (f s, s).

(** [try: body except Exception as e: handler(e)]. *)
Definition try_except {S A} (body : prog S A) (handler : exn -> prog S A) : prog S A :=
  fun s =>
    match body s with
    | (Ok a, s') => (Ok a, s')
    | (Raise e, s') => handler e s'
    end.

End Prog.
Import Prog.

(** ** schema.py *)
Module Schema.

(** An instance of [DatabaseSchema], with the two fields its lookups write. *)
Record DatabaseSchema : Type := mkDatabaseSchema {
  database_id : string;
  schema_data : json;
  _status_property_name : option string;
  _tag_property_names : list string
}.

(** [DatabaseSchema(database_id, schema_data)]. *)
Definition new_schema (database_id : string) (schema_data : json) : DatabaseSchema :=
  mkDatabaseSchema database_id schema_data None [].

Definition set_status_property_name (self : DatabaseSchema) (name : string) : DatabaseSchema :=
  mkDatabaseSchema (database_id self) (schema_data self) (Some name) (_tag_property_names self).

Definition set_tag_property_names (self : DatabaseSchema) (names : list string) : DatabaseSchema :=
  mkDatabaseSchema (database_id self) (schema_data self) (_status_property_name self) names.

(** [self.schema_data = data], an assignment the class does not make itself
    but its public attribute allows; it is what lets one observe whether a
    lookup reads the properties again. *)
Definition set_schema_data (self : DatabaseSchema) (data : json) : DatabaseSchema :=
  mkDatabaseSchema (database_id self) data (_status_property_name self) (_tag_property_names self).

(** The [properties] property. *)
Definition properties (self : DatabaseSchema) : result json :=
  py_get_default (schema_data self) "properties" (JObj []).

(** [self.properties.items()]. *)
Definition property_items (self : DatabaseSchema) : result (list (string * json)) :=
  props ← properties self; py_items props.

(** The loop of [get_status_property_name]: the first property whose
    definition has the type [ty]. *)
Fixpoint first_of_type (ty : string) (items : list (string * json)) : result (option string) :=
  match items with
  | [] => Ok None
  | (prop_name, prop_def) :: rest =>
      t ← py_get prop_def "type";
      if py_eq_str t ty then Ok (Some prop_name) else first_of_type ty rest
  end.

(** The loop of [get_tag_property_names]: every property whose definition
    has the type [ty], in order. *)
Fixpoint all_of_type (ty : string) (items : list (string * json)) : result (list string) :=
  match items with
  | [] => Ok []
  | (prop_name, prop_def) :: rest =>
      t ← py_get prop_def "type";
      names ← all_of_type ty rest;
      Ok (if py_eq_str t ty then prop_name :: names else names)
  end.

(** The two scans over [self.properties.items()]. *)
Definition scan_status (self : DatabaseSchema) : result (option string) :=
  items ← property_items self; first_of_type "status" items.

Definition scan_tags (self : DatabaseSchema) : result (list string) :=
  items ← property_items self; all_of_type "multi_select" items.

(** [get_status_property_name]: the stored name when it [is not None];
    otherwise the scan, which stores the name it finds and stores nothing
    when it finds none. *)
Definition get_status_property_name : prog DatabaseSchema (option string) :=
  fun self =>
    match _status_property_name self with
    | Some name => (Ok (Some name), self)
    | None =>
        match scan_status self with
        | Ok (Some prop_name) => (Ok (Some prop_name), set_status_property_name self prop_name)
        | Ok None => (Ok None, self)
        | Raise e => (Raise e, self)
        end
    end.

(** [get_tag_property_names]: the stored list when it is true, that is not
    empty; otherwise the scan, whose list is stored. *)
Definition get_tag_property_names : prog DatabaseSchema (list string) :=
  fun self =>
    match _tag_property_names self with
    | _ :: _ => (Ok (_tag_property_names self), self)
    | [] =>
        match scan_tags self with
        | Ok tag_names => (Ok tag_names, set_tag_property_names self tag_names)
        | Raise e => (Raise e, self)
        end
    end.

(** [[opt.get("name", "") for opt in options if opt.get("name")]]. *)
Fixpoint names_of_options (options : list json) : result (list json) :=
  match options with
  | [] => Ok []
  | opt :: rest =>
      name ← py_get opt "name";
      if truthy name then
        n ← py_get_default opt "name" (JStr "");
        ns ← names_of_options rest;
        Ok (n :: ns)
      else names_of_options rest
  end.

(** [prop_def.get(kind, {}).get("options", [])], then the comprehension. *)
Definition option_names (kind : string) (prop_def : json) : result (list json) :=
  k ← py_get_default prop_def kind (JObj []);
  options ← py_get_default k "options" (JArr []);
  opts ← py_iter options;
  names_of_options opts.

(** [if not status_prop] for [str | None]. *)
Definition name_truthy (name : option string) : bool :=
  match name with
  | Some n => negb (String.eqb n "")
  | None => false
  end.

(** [self.properties.get(name, {})], then the options of that kind. *)
Definition declared_options (kind name : string) (self : DatabaseSchema) : result (list json) :=
  props ← properties self;
  prop_def ← py_get_default props name (JObj []);
  option_names kind prop_def.

Definition get_status_options : prog DatabaseSchema (list json) :=
  status_prop ← get_status_property_name;
  match status_prop with
  | Some name =>
      if name_truthy status_prop then read (declared_options "status" name)
      else mret []
  | None => mret []
  end.

Definition get_tag_options (tag_property : string) (self : DatabaseSchema) : result (list json) :=
  declared_options "multi_select" tag_property self.

(** The loop of [find_property_by_name]. *)
Fixpoint first_named (name_lower : string) (items : list (string * json)) : option json :=
  match items with
  | [] => None
  | (prop_name, prop_def) :: rest =>
      if String.eqb (lower prop_name) name_lower then Some prop_def
      else first_named name_lower rest
  end.

Definition find_property_by_name (name : string) (self : DatabaseSchema) : result (option json) :=
  let name_lower := lower name in
  items ← property_items self;
  Ok (first_named name_lower items).

(** *** The process: the objects, the cache and the service *)

(** What the client sends, in order. *)
Inductive request : Type :=
| GetDatabase (database_id : string)
| UpdatePage (page_id : string) (properties : json).

Section process.

(** The remote service, at the boundary of [NotionClient]: a state of its
    own and the two calls used here, each giving the decoded answer or the
    exception [_request] raises. *)
Variable service : Type.
Variable get_database : string -> service -> result json * service.
Variable update_page : string -> json -> service -> result json * service.

(** The state of one process: the [DatabaseSchema] objects made so far, by
    address; the module-level [_schema_cache], whose [_schemas] holds
    references to them; the service; and the requests sent. *)
Record world : Type := mkWorld {
  heap : list DatabaseSchema;
  _schemas : gmap string nat;
  remote : service;
  requests : list request
}.

(** The process as it starts: no object, an empty cache, nothing sent. *)
Definition start (s : service) : world := mkWorld [] ∅ s [].

#[global] Instance DatabaseSchema_inhabited : Inhabited DatabaseSchema :=
  populate (new_schema "" JNull).

(** A method call on the object at an address; the object is updated in
    place, so every holder of the address sees the call's writes. *)
Definition on_object {A} (a : nat) (method : prog DatabaseSchema A) : prog world A :=
  fun w =>
    let '(r, self') := method (heap w !!! a) in
    (r, mkWorld (<[a := self']> (heap w)) (_schemas w) (remote w) (requests w)).

(** [await client.get_database(database_id)]. *)
Definition client_get_database (database_id : string) : prog world json :=
  fun w =>
    let '(r, s') := get_database database_id (remote w) in
    (r, mkWorld (heap w) (_schemas w) s' (requests w ++ [GetDatabase database_id])).

(** [await client.update_page(page_id, properties)]. *)
Definition client_update_page (page_id : string) (props : json) : prog world json :=
  fun w =>
    let '(r, s') := update_page page_id props (remote w) in
    (r, mkWorld (heap w) (_schemas w) s' (requests w ++ [UpdatePage page_id props])).

(** [SchemaCache.get], [SchemaCache.set] and [SchemaCache.clear] on
    [_schema_cache]. *)
Definition cache_get (database_id : string) (w : world) : option nat :=
  _schemas w !! database_id.

Definition cache_set (database_id : string) (schema : nat) : prog world unit :=
  fun w => (Ok tt, mkWorld (heap w) (<[database_id := schema]> (_schemas w)) (remote w) (requests w)).

Definition cache_clear : prog world unit :=
  fun w => (Ok tt, mkWorld (heap w) ∅ (remote w) (requests w)).

(** The constructor call: a new object, at a new address. *)
Definition construct (database_id : string) (schema_data : json) : prog world nat :=
  fun w =>
    (Ok (length (heap w)),
     mkWorld (heap w ++ [new_schema database_id schema_data]) (_schemas w) (remote w) (requests w)).

(** [get_database_schema(client, database_id)].  An instance of
    [DatabaseSchema] is always true, so [if cached:] asks whether the cache
    holds the identifier. *)
Definition get_database_schema (database_id : string) : prog world nat :=
  fun w =>
    match cache_get database_id w with
    | Some cached => (Ok cached, w)
    | None =>
        (schema_data ← client_get_database database_id;
         schema ← construct database_id schema_data;
         _ ← cache_set database_id schema;
         mret schema) w
    end.

End process.

End Schema.
Import Schema.

(** ** cli.py *)
Module Cli.

(** *** The filter [query] builds, lines 207 to 252 *)

(** The four predicates the command writes. *)
Definition status_equals (property value : string) : json :=
  JObj [("property", JStr property); ("status", JObj [("equals", JStr value)])].
Definition select_equals (property value : string) : json :=
  JObj [("property", JStr property); ("select", JObj [("equals", JStr value)])].
Definition multi_select_contains (property value : string) : json :=
  JObj [("property", JStr property); ("multi_select", JObj [("contains", JStr value)])].
Definition title_equals (property value : string) : json :=
  JObj [("property", JStr property); ("title", JObj [("equals", JStr value)])].

(** [if status:] and its body; [filter_obj] is the variable of that name,
    [None] being [JNull]. *)
Definition filter_by_status (status : option string) (filter_obj : json)
  : prog DatabaseSchema json :=
  match status with
  | Some st =>
      if name_truthy status then
        status_prop_name ← get_status_property_name;
        match status_prop_name with
        | Some name =>
            if name_truthy status_prop_name then mret (status_equals name st)
            else mret filter_obj
        | None => mret filter_obj
        end
      else mret filter_obj
  | None => mret filter_obj
  end.

(** [if tags:] and its body. *)
Definition filter_by_tags (tags : option string) (filter_obj : json)
  : prog DatabaseSchema json :=
  match tags with
  | Some ts =>
      if name_truthy tags then
        tag_props ← get_tag_property_names;
        match tag_props with
        | tag_prop_name :: _ =>
            let tag_list := map strip (split "," ts) in
            match tag_list with
            | [tag] => mret (multi_select_contains tag_prop_name tag)
            | _ => mret (JObj [("and", JArr (map (multi_select_contains tag_prop_name) tag_list))])
            end
        | [] => mret filter_obj
        end
      else mret filter_obj
  | None => mret filter_obj
  end.

(** The choice of predicate by the type of the property. *)
Definition predicate_for (prop_type : json) (prop_name value : string) : json :=
  if py_eq_str prop_type "status" then status_equals prop_name value
  else if py_eq_str prop_type "select" then select_equals prop_name value
  else if py_eq_str prop_type "multi_select" then multi_select_contains prop_name value
  else title_equals prop_name value.

(** [if filter:] and its body. *)
Definition filter_by_custom (filter : option string) (filter_obj : json)
  (schema : DatabaseSchema) : result json :=
  match filter with
  | Some f =>
      if name_truthy filter then
        if contains_char "=" f then
          match split_once "=" f with
          | [prop_name; value] =>
              let prop_name := strip prop_name in
              let value := strip value in
              prop_def ← find_property_by_name prop_name schema;
              match prop_def with
              | Some def =>
                  if truthy def then
                    prop_type ← py_get def "type";
                    Ok (predicate_for prop_type prop_name value)
                  else Ok filter_obj
              | None => Ok filter_obj
              end
          | _ => Raise (ValueError "not enough values to unpack (expected 2, got 1)")
          end
        else Ok filter_obj
      else Ok filter_obj
  | None => Ok filter_obj
  end.

(** The three statements in sequence, from [filter_obj = None]. *)
Definition build_filter (status tags filter : option string) : prog DatabaseSchema json :=
  by_status ← filter_by_status status JNull;
  by_tags ← filter_by_tags tags by_status;
  read (filter_by_custom filter by_tags).

(** *** [update_status] *)

(** The response [output_json] prints. *)
Definition output_json (success : bool) (data error : json) : json :=
  JObj [("success", JBool success); ("data", data); ("error", error)].

(** [status in status_options]. *)
Definition str_in (s : string) (l : list json) : bool :=
  existsb (fun v => py_eq_str v s) l.

Definition list_truthy {A} (l : list A) : bool :=
  match l with [] => false | _ => true end.

Definition status_code_json (code : option Z) : json :=
  match code with Some c => JNum c | None => JNull end.

(** The two [except] clauses every command ends with. *)
Definition report_error (e : exn) : json :=
  match e with
  | NotionAPIError message status_code =>
      output_json false JNull
        (JObj [("message", JStr message); ("status_code", status_code_json status_code)])
  | _ => output_json false JNull (JObj [("message", JStr (str_of_exn e))])
  end.

Definition no_status_property : json :=
  output_json false JNull (JObj [("message", JStr "No status property found in database")]).

Definition invalid_status (status : string) (status_options : list json) : json :=
  output_json false JNull
    (JObj [("message", JStr ("Invalid status '" ++ status ++ "'"));
           ("available_options", JArr status_options)]).

Definition status_updated (item_id status status_prop_name : string) : json :=
  output_json true
    (JObj [("id", JStr item_id); ("status", JStr status); ("property", JStr status_prop_name)])
    JNull.

Section commands.

Variable service : Type.
Variable get_database : string -> service -> result json * service.
Variable update_page : string -> json -> service -> result json * service.

(** The body of [_update_status], with the client already made; the value
    is the response printed. *)
Definition update_status (database item_id status : string) : prog (world service) json :=
  try_except
    (schema ← get_database_schema service get_database database;
     status_prop_name ← on_object service schema get_status_property_name;
     match status_prop_name with
     | Some name =>
         if name_truthy status_prop_name then
           status_options ← on_object service schema get_status_options;
           if list_truthy status_options && negb (str_in status status_options) then
             mret (invalid_status status status_options)
           else
             _ ← client_update_page service update_page item_id
                   (JObj [(name, JObj [("status", JObj [("name", JStr status)])])]);
             mret (status_updated item_id status name)
         else mret no_status_property
     | None => mret no_status_property
     end)
    (fun e => mret (report_error e)).

End commands.

End Cli.
Import Cli.

(** ** The rest of cli.py, and what it uses of client.py and config.py *)
Module Commands.

(** [d[k] = v] on a [dict]: the value of a key already there is replaced
    where it stands, a new key goes to the end. *)
Fixpoint dict_set (m : list (string * json)) (k : string) (v : json) : list (string * json) :=
  match m with
  | [] => [(k, v)]
  | (k', x) :: m' =>
      if String.eqb k' k then (k', v) :: m' else (k', x) :: dict_set m' k v
  end.

(** An [int | None] argument as a value. *)
Definition int_json (n : option Z) : json :=
  match n with Some i => JNum i | None => JNull end.

(** A result that has nothing to do with the state. *)
Definition finish {S A} (r : result A) : prog S A := fun s => (r, s).

(** *** config.py and the constructor of [NotionClient] *)

Definition key_not_set : string :=
  "NOTION_API_KEY environment variable not set. Please set it in your shell configuration.".

(** [get_api_key()], on the value [os.getenv("NOTION_API_KEY")] gives. *)
Definition get_api_key (env : option string) : result string :=
  match env with
  | Some api_key => if name_truthy env then Ok api_key else Raise (ValueError key_not_set)
  | None => Raise (ValueError key_not_set)
  end.

(** [self.api_key = api_key or get_api_key()]. *)
Definition client_api_key (api_key env : option string) : result string :=
  match api_key with
  | Some given => if name_truthy api_key then Ok given else get_api_key env
  | None => get_api_key env
  end.

(** *** The body [NotionClient.query_database] posts, lines 123 to 131 *)

(** [if v is not None: body[k] = v]. *)
Definition set_unless_none (k : string) (v : json) (body : list (string * json))
  : list (string * json) :=
  match v with
  | JNull => body
  | _ => dict_set body k v
  end.

Definition query_body (filter_obj sorts start_cursor page_size : json) : json :=
  JObj (set_unless_none "page_size" page_size
          (set_unless_none "start_cursor" start_cursor
             (set_unless_none "sorts" sorts
                (set_unless_none "filter" filter_obj [])))).

(** *** The properties part of the [schema] command, lines 391 to 406 *)

(** [[opt.get("name") for opt in prop_def.get(kind, {}).get("options", [])]]. *)
Definition listed_options (kind : string) (prop_def : json) : result json :=
  k ← py_get_default prop_def kind (JObj []);
  options ← py_get_default k "options" (JArr []);
  opts ← py_iter options;
  JArr <$> get_each "name" opts.

(** The entry written for one property: its type, and its options when it
    is a [select], a [multi_select] or a [status]. *)
Definition simplify_property (prop_def : json) : result json :=
  prop_type ← py_get prop_def "type";
  let entry := [("type", prop_type)] in
  if py_eq_str prop_type "select" then
    names ← listed_options "select" prop_def; Ok (JObj (dict_set entry "options" names))
  else if py_eq_str prop_type "multi_select" then
    names ← listed_options "multi_select" prop_def; Ok (JObj (dict_set entry "options" names))
  else if py_eq_str prop_type "status" then
    names ← listed_options "status" prop_def; Ok (JObj (dict_set entry "options" names))
  else Ok (JObj entry).

Fixpoint simplify_into (properties : list (string * json)) (items : list (string * json))
  : result (list (string * json)) :=
  match items with
  | [] => Ok properties
  | (prop_name, prop_def) :: rest =>
      entry ← simplify_property prop_def;
      simplify_into (dict_set properties prop_name entry) rest
  end.

Definition simplify_properties (schema_data : json) : result json :=
  props ← py_get_default schema_data "properties" (JObj []);
  items ← py_items props;
  JObj <$> simplify_into [] items.

Section views.

Variable isoformat : string -> option string.

(** *** The view of a page, built alike by [read] and [query] *)

(** The loop [properties[prop_name] = transform_property_value(prop_data)]. *)
Fixpoint transform_into (properties : list (string * json)) (items : list (string * json))
  : result (list (string * json)) :=
  match items with
  | [] => Ok properties
  | (prop_name, prop_data) :: rest =>
      value ← transform_property_value isoformat prop_data;
      transform_into (dict_set properties prop_name value) rest
  end.

Definition page_view (page : json) : result json :=
  props ← py_get_default page "properties" (JObj []);
  items ← py_items props;
  properties ← transform_into [] items;
  id ← py_get page "id";
  created_time ← py_get page "created_time";
  last_edited_time ← py_get page "last_edited_time";
  archived ← py_get page "archived";
  url ← py_get page "url";
  Ok (JObj [("id", id); ("created_time", created_time);
            ("last_edited_time", last_edited_time); ("archived", archived);
            ("properties", JObj properties); ("url", url)]).

(** What [query] makes of the answer of the service, lines 257 to 282. *)
Definition query_data (answer : json) : result json :=
  results ← py_get_default answer "results" (JArr []);
  pages ← py_iter results;
  items ← mapM page_view pages;
  next_cursor ← py_get answer "next_cursor";
  has_more ← py_get answer "has_more";
  Ok (JObj [("items", JArr items); ("next_cursor", next_cursor); ("has_more", has_more)]).

Section commands.

(** The service, with the two calls of [NotionClient] that [read] and
    [query] add; [query_database] is given the body posted.  These two calls
    are seen through the service only: [requests] keeps the schema fetches
    and the updates. *)
Variable service : Type.
Variable get_database : string -> service -> result json * service.
Variable get_page : string -> service -> result json * service.
Variable query_database : string -> json -> service -> result json * service.

Definition with_remote (w : world service) (s : service) : world service :=
  mkWorld service (heap service w) (_schemas service w) s (requests service w).

(** [await client.get_page(page_id)]. *)
Definition client_get_page (page_id : string) : prog (world service) json :=
  fun w => let '(r, s') := get_page page_id (remote service w) in (r, with_remote w s').

(** [await client.query_database(database_id, filter_obj=..., page_size=...)]. *)
Definition client_query_database (database_id : string) (filter_obj page_size : json)
  : prog (world service) json :=
  fun w =>
    let '(r, s') :=
      query_database database_id (query_body filter_obj JNull JNull page_size)
        (remote service w) in
    (r, with_remote w s').

(** The body of [_read]. *)
Definition read (database item_id : string) : prog (world service) json :=
  try_except
    (page ← client_get_page item_id;
     data ← finish (page_view page);
     mret (output_json true data JNull))
    (fun e => mret (report_error e)).

(** The body of [_query]; [limit] is [None] or an [int]. *)
Definition query (database : string) (status tags filter : option string) (limit : option Z)
  : prog (world service) json :=
  try_except
    (schema ← get_database_schema service get_database database;
     filter_obj ← on_object service schema (build_filter status tags filter);
     answer ← client_query_database database filter_obj (int_json limit);
     data ← finish (query_data answer);
     mret (output_json true data JNull))
    (fun e => mret (report_error e)).

Definition name_json (name : option string) : json :=
  match name with Some n => JStr n | None => JNull end.

(** The body of [_list_status]. *)
Definition list_status (database : string) : prog (world service) json :=
  try_except
    (schema ← get_database_schema service get_database database;
     status_options ← on_object service schema get_status_options;
     if list_truthy status_options then
       property_name ← on_object service schema get_status_property_name;
       mret (output_json true
               (JObj [("property_name", name_json property_name);
                      ("options", JArr status_options)])
               JNull)
     else mret no_status_property)
    (fun e => mret (report_error e)).

(** The loop [tags_by_property[tag_prop] = schema.get_tag_options(tag_prop)]. *)
Fixpoint tags_into (tags_by_property : list (string * json)) (tag_props : list string)
    (schema : DatabaseSchema) : result (list (string * json)) :=
  match tag_props with
  | [] => Ok tags_by_property
  | tag_prop :: rest =>
      options ← get_tag_options tag_prop schema;
      tags_into (dict_set tags_by_property tag_prop (JArr options)) rest schema
  end.

Definition no_tag_properties : json :=
  output_json false JNull (JObj [("message", JStr "No tag properties found in database")]).

(** The body of [_list_tags]. *)
Definition list_tags (database : string) : prog (world service) json :=
  try_except
    (schema ← get_database_schema service get_database database;
     tag_props ← on_object service schema get_tag_property_names;
     if list_truthy tag_props then
       tags_by_property ← on_object service schema (Prog.read (tags_into [] tag_props));
       mret (output_json true
               (JObj [("properties", JArr (map JStr tag_props));
                      ("tags_by_property", JObj tags_by_property)])
               JNull)
     else mret no_tag_properties)
    (fun e => mret (report_error e)).

End commands.

End views.

End Commands.

(** ** Notions used to state the further properties *)

(** The type tags [transform_property_value] has an arm for. *)
Definition recognized_types : list string :=
  ["title"; "rich_text"; "number"; "select"; "multi_select"; "status"; "date";
   "checkbox"; "url"; "email"; "phone_number"; "formula"; "relation"; "people";
   "files"; "created_time"; "created_by"; "last_edited_time"; "last_edited_by"].

Definition recognized (prop_type : json) : bool :=
  existsb (py_eq_str prop_type) recognized_types.

(** The arms that iterate over their value, with what each gives for no
    element at all. *)
Inductive iterating_arm : string -> json -> Prop :=
| iterates_title : iterating_arm "title" (JStr "")
| iterates_rich_text : iterating_arm "rich_text" (JStr "")
| iterates_multi_select : iterating_arm "multi_select" (JArr [])
| iterates_relation : iterating_arm "relation" (JArr [])
| iterates_people : iterating_arm "people" (JArr [])
| iterates_files : iterating_arm "files" (JArr []).

(** Every cached identifier leads to an object of that identifier. *)
Definition cache_sound {service : Type} (w : world service) : Prop :=
  forall id a, cache_get service id w = Some a ->
               exists self, heap service w !! a = Some self /\ database_id self = id.

(** The process with one object replaced. *)
Definition put_object {service : Type} (w : world service) (a : nat) (self : DatabaseSchema)
  : world service :=
  mkWorld service (<[a := self]> (heap service w)) (_schemas service w)
    (remote service w) (requests service w).

(** The requests a command has added to those sent before it. *)
Definition sent_by {service : Type} (w w' : world service) (sent : list request) : Prop :=
  requests service w' = (requests service w ++ sent)%list.

(** The envelope every command prints: [success] with [data] and no
    [error], or no [success] with no [data] and an [error] that has a
    [message]. *)
Definition envelope (response : json) : Prop :=
  (exists data, response = output_json true data JNull)
  \/ (exists fields message,
        response = output_json false JNull (JObj fields)
        /\ dict_lookup fields "message" = Some (JStr message)).

(** A service for the examples that knows the page [p1] only, and one that
    answers every query with the pages given and reports the body it got. *)
Definition serve_page (page : json) (page_id : string) (served : nat) : result json * nat :=
  if String.eqb page_id "p1" then (Ok page, S served)
  else (Raise (NotionAPIError "Could not find page" (Some 404%Z)), S served).

Definition serve_query (pages : list json) (database_id : string) (body : json) (served : nat)
  : result json * nat :=
  (Ok (JObj [("results", JArr pages); ("next_cursor", JNull); ("has_more", JBool false);
             ("request", body)]), S served).

(** ** Notions used to state the properties *)

(** The arms that give what the payload holds under its type's name. *)
Definition scalar_types : list string :=
  ["number"; "checkbox"; "url"; "email"; "phone_number"; "created_time"; "created_by";
   "last_edited_time"; "last_edited_by"].

(** A value under [k] formula wrappers. *)
Fixpoint nest (k : nat) (inner : json) : json :=
  match k with
  | 0 => inner
  | S k' => JObj [("type", JStr "formula"); ("formula", nest k' inner)]
  end.

(** What a caller of a method typed [dict | None] holds: the definition
    found, or [None]; a definition that is [None] is the same value. *)
Definition returned (found : option json) : json :=
  match found with
  | Some prop_def => prop_def
  | None => JNull
  end.

(** The normalizer's arms that give a list, with the key each one reads
    from an element. *)
Inductive list_arm : string -> string -> Prop :=
| arm_multi_select : list_arm "multi_select" "name"
| arm_relation : list_arm "relation" "id"
| arm_people : list_arm "people" "id"
| arm_files : list_arm "files" "name".

(** The two stored answers of a schema object agree with its data: a stored
    status name is what the scan finds, and a stored list of tag names, when
    it is not empty, is what the scan gives.  A new object is in that state,
    and the lookups keep it. *)
Definition consistent (self : DatabaseSchema) : bool :=
  match _status_property_name self with
  | Some name =>
      match scan_status self with
      | Ok (Some found) => String.eqb found name
      | _ => false
      end
  | None => true
  end
  &&
  match _tag_property_names self with
  | [] => true
  | names =>
      match scan_tags self with
      | Ok found => bool_decide (found = names)
      | Raise _ => false
      end
  end.

(** The names of the properties of a type, in the schema's order, for
    property definitions that are objects; [as_items] is the view of such
    properties that [items()] gives. *)
Definition typed (ty : string) (defs : list (string * list (string * json)))
  : list string :=
  map fst (List.filter (fun nd => py_eq_str (dict_get (snd nd) "type") ty) defs).

Definition as_items (defs : list (string * list (string * json))) : list (string * json) :=
  map (fun nd => (fst nd, JObj (snd nd))) defs.

(** The key and the value of a custom filter [key=value]: the text before
    the first [=] and the text after it, both stripped. *)
Definition filter_key (f : string) : string :=
  strip (hd "" (split_once "=" f)).
Definition filter_value (f : string) : string :=
  strip (hd "" (tl (split_once "=" f))).

(** [sep.join(pieces)] for pieces of text, the inverse of [split]. *)
Fixpoint join_with (sep : ascii) (pieces : list string) : string :=
  match pieces with
  | [] => ""
  | [p] => p
  | p :: rest => p ++ String sep (join_with sep rest)
  end.

(** A run of schema resolutions in one process, one after the other, each
    with its outcome. *)
Fixpoint resolve_each {service : Type}
    (get_database : string -> service -> result json * service)
    (ids : list string) (w : world service) : list (result nat) * world service :=
  match ids with
  | [] => ([], w)
  | database_id :: rest =>
      let '(r, w1) := get_database_schema service get_database database_id w in
      let '(rs, w2) := resolve_each get_database rest w1 in
      (r :: rs, w2)
  end.

(** The number of schema fetches sent for an identifier. *)
Definition is_fetch_of (database_id : string) (r : request) : bool :=
  match r with
  | GetDatabase d => String.eqb d database_id
  | UpdatePage _ _ => false
  end.

Definition fetches {service : Type} (database_id : string) (w : world service) : nat :=
  length (List.filter (is_fetch_of database_id) (requests service w)).

Definition is_update (r : request) : bool :=
  match r with
  | UpdatePage _ _ => true
  | GetDatabase _ => false
  end.

(** Every object is the one the cache holds for its identifier. *)
Definition one_object_per_id {service : Type} (w : world service) : Prop :=
  forall a self, heap service w !! a = Some self ->
                 cache_get service (database_id self) w = Some a.

(** A service for the examples: it knows the database [db], with the given
    schema, and no other, accepts every update, and counts the requests it
    has served. *)
Definition serve_database (data : json) (database_id : string) (served : nat)
  : result json * nat :=
  if String.eqb database_id "db" then (Ok data, S served)
  else (Raise (NotionAPIError "Could not find database" (Some 404%Z)), S served).

Definition serve_update (page_id : string) (props : json) (served : nat) : result json * nat :=
  (Ok (JObj [("object", JStr "page"); ("id", JStr page_id); ("properties", props)]), S served).

(** Induction on the nesting of objects: the fields of an object come
    first. *)
Section json_nesting.

Variable P : json -> Prop.
Hypothesis P_null : P JNull.
Hypothesis P_bool : forall b, P (JBool b).
Hypothesis P_num : forall n, P (JNum n).
Hypothesis P_float : forall x, P (JFloat x).
Hypothesis P_str : forall s, P (JStr s).
Hypothesis P_arr : forall l, P (JArr l).
Hypothesis P_obj : forall m, Forall (fun kv => P (snd kv)) m -> P (JObj m).

Fixpoint json_nesting_ind (v : json) : P v :=
  match v with
  | JNull => P_null
  | JBool b => P_bool b
  | JNum n => P_num n
  | JFloat x => P_float x
  | JStr s => P_str s
  | JArr l => P_arr l
  | JObj m =>
      P_obj m
        ((fix fields (m : list (string * json)) : Forall (fun kv => P (snd kv)) m :=
            match m with
            | [] => List.Forall_nil _
            | kv :: m' => List.Forall_cons _ kv m' (json_nesting_ind (snd kv)) (fields m')
            end) m)
  end.

End json_nesting.

(** ** Facts about the built-ins *)

Lemma on_key_lookup {A} (k : string) (f : json -> A) (fd : A) m :
  on_key k f fd m = match dict_lookup m k with Some v => f v | None => fd end.
Proof.
  induction m as [|[k' v] m IH]; simpl; [reflexivity|].
  destruct (String.eqb k' k); [reflexivity | exact IH].
Qed.

Lemma dict_lookup_Forall (P : json -> Prop) m k v :
  Forall (fun kv => P (snd kv)) m -> dict_lookup m k = Some v -> P v.
Proof.
  induction 1 as [|[k' x] m Hx _ IH]; simpl; [discriminate|].
  destruct (String.eqb k' k); [|exact IH].
  intros [= <-]. exact Hx.
Qed.

Lemma get_each_dicts k (ms : list (list (string * json))) :
  get_each k (map JObj ms) = Ok (map (fun fields => dict_get fields k) ms).
Proof.
  unfold get_each. induction ms as [|fields ms IH]; simpl; [reflexivity|].
  rewrite IH. reflexivity.
Qed.

Lemma dicts_are_objects l :
  forallb is_dict l = true -> exists ms, l = map JObj ms.
Proof.
  induction l as [|v l IH]; simpl; intros H.
  - exists []. reflexivity.
  - apply andb_prop in H as [Hv Hl]. destruct (IH Hl) as [ms ->].
    destruct v; try discriminate. exists (fields :: ms). reflexivity.
Qed.

Lemma join_from_strs i (ss : list string) :
  join_from i (map JStr ss) = Ok (fold_right String.append "" ss).
Proof.
  revert i. induction ss as [|s ss IH]; intros i; simpl; [reflexivity|].
  rewrite IH. reflexivity.
Qed.

Lemma text_runs_give_strs l :
  forallb is_text_run l = true ->
  exists ss, get_default_each "plain_text" (JStr "") l = Ok (map JStr ss).
Proof.
  unfold get_default_each. induction l as [|v l IH]; simpl; intros H.
  - exists []. reflexivity.
  - apply andb_prop in H as [Hv Hl]. destruct (IH Hl) as [ss Hss].
    destruct v; try discriminate. simpl in Hv |- *.
    destruct (dict_get_default fields "plain_text" (JStr "")) eqn:E; try discriminate.
    exists (s :: ss). rewrite Hss. reflexivity.
Qed.

(** The string built-ins on the interpreter's own examples. *)
Example split_examples :
  split "," "a,b,c" = ["a"; "b"; "c"]
  /\ split "," "a,,b," = ["a"; ""; "b"; ""]
  /\ split "," "" = [""]
  /\ split_once "=" "a=b=c" = ["a"; "b=c"]
  /\ split_once "=" "abc" = ["abc"].
Proof. repeat split. Qed.

Example strip_examples :
  strip "  urgent " = "urgent"
  /\ strip (String "009" "a b" ++ String "010" "") = "a b"
  /\ strip "   " = ""
  /\ strip "" = "".
Proof. repeat split. Qed.

Example lower_examples :
  lower "Priority" = "priority" /\ lower "IN PROGRESS 2" = "in progress 2".
Proof. repeat split. Qed.

(** ** Facts about the normalizer *)
Section transform_facts.

Variable isoformat : string -> option string.

Lemma plain_text_total v :
  is_list_of is_text_run v = true -> exists s, plain_text v = Ok (JStr s).
Proof.
  destruct v; try discriminate. simpl. intros H.
  destruct (text_runs_give_strs _ H) as [ss Hss].
  unfold plain_text. simpl. rewrite Hss. simpl.
  unfold py_join. rewrite join_from_strs. eexists. reflexivity.
Qed.

Lemma collect_dicts k ms :
  collect k (JArr (map JObj ms)) = Ok (JArr (map (fun fields => dict_get fields k) ms)).
Proof. unfold collect. simpl. rewrite get_each_dicts. reflexivity. Qed.

Lemma collect_total k v :
  is_list_of is_dict v = true -> exists l, collect k v = Ok (JArr l).
Proof.
  destruct v; try discriminate. simpl. intros H.
  destruct (dicts_are_objects _ H) as [ms ->].
  rewrite collect_dicts. eexists. reflexivity.
Qed.

Lemma name_or_none_total v :
  is_dict_or_none v = true -> exists r, name_or_none v = Ok r.
Proof.
  destruct v; try discriminate; intros _; unfold name_or_none; simpl.
  - eexists. reflexivity.
  - destruct fields; eexists; reflexivity.
Qed.

Lemma transform_date_total v :
  is_date v = true -> exists r, transform_date isoformat v = Ok r.
Proof.
  destruct v; try discriminate; unfold transform_date; simpl.
  - intros _. eexists. reflexivity.
  - intros H. destruct fields as [|kv fields]; [eexists; reflexivity|].
    set (m := kv :: fields) in *.
    destruct (dict_get m "start") eqn:E; try discriminate; simpl.
    + eexists. reflexivity.
    + destruct (negb (String.eqb s "")); [|eexists; reflexivity].
      destruct (isoformat s); eexists; reflexivity.
Qed.

End transform_facts.

(** ** The value normalizer *)
Section normalizer.

Variable isoformat : string -> option string.

Local Arguments py_eq_str : simpl never.
Local Arguments dict_get : simpl never.
Local Arguments dict_get_default : simpl never.

Lemma transform_formula m :
  dict_get m "type" = JStr "formula" ->
  transform_property_value isoformat (JObj m)
  = transform_property_value isoformat (dict_get_default m "formula" (JObj [])).
Proof.
  intros Hty. simpl. rewrite Hty. cbn [py_eq_str String.eqb Ascii.eqb Bool.eqb].
  rewrite on_key_lookup. unfold dict_get_default.
  destruct (dict_lookup m "formula"); reflexivity.
Qed.

Lemma transform_list_arm ty key m :
  list_arm ty key ->
  dict_get m "type" = JStr ty ->
  transform_property_value isoformat (JObj m)
  = collect key (dict_get_default m ty (JArr [])).
Proof.
  intros Harm Hty. simpl. rewrite Hty.
  destruct Harm; reflexivity.
Qed.

Lemma transform_date_arm m :
  dict_get m "type" = JStr "date" ->
  transform_property_value isoformat (JObj m) = transform_date isoformat (dict_get m "date").
Proof. intros Hty. simpl. rewrite Hty. reflexivity. Qed.

Lemma transform_total v :
  well_formed v = true -> exists r, transform_property_value isoformat v = Ok r.
Proof.
  induction v as [| | | | | |m IH] using json_nesting_ind; try discriminate.
  simpl. rewrite !on_key_lookup.
  repeat match goal with
  | |- context [if py_eq_str ?t ?s then _ else _] => destruct (py_eq_str t s)
  end;
  intros Hwf;
  eauto using name_or_none_total, transform_date_total;
  try (destruct (plain_text_total _ Hwf) as [s ->]; eauto);
  try (edestruct collect_total as [l ->]; [exact Hwf | eauto]).
  destruct (dict_lookup m "formula") as [inner|] eqn:E; [|eauto].
  exact (dict_lookup_Forall
           (fun v => well_formed v = true -> exists r, transform_property_value isoformat v = Ok r)
           _ _ _ IH E Hwf).
Qed.

Lemma transform_unrecognized m :
  recognized (dict_get m "type") = false ->
  transform_property_value isoformat (JObj m) = Ok (JObj m).
Proof.
  unfold recognized, recognized_types. cbn [existsb]. intros H.
  repeat (apply orb_false_elim in H as [? H]).
  simpl.
  repeat match goal with
  | E : py_eq_str _ _ = false |- _ => rewrite E; clear E
  end.
  reflexivity.
Qed.

Lemma transform_scalar_arm ty m :
  In ty scalar_types ->
  dict_get m "type" = JStr ty ->
  transform_property_value isoformat (JObj m) = Ok (dict_get m ty).
Proof.
  intros Hin Hty. simpl. rewrite Hty.
  repeat (destruct Hin as [<- | Hin]; [reflexivity|]). destruct Hin.
Qed.

Lemma transform_nest k inner :
  transform_property_value isoformat (nest k inner) = transform_property_value isoformat inner.
Proof.
  induction k as [|k IH]; [reflexivity|].
  cbn [nest]. rewrite transform_formula by reflexivity. exact IH.
Qed.

(** C6. A formula value is normalized by normalizing the value it wraps,
    [prop_data.get("formula", {})], with the same dispatch, and it is the
    type of the wrapped value that decides, whatever else the formula
    payload holds: a wrapped value of a scalar type gives what it holds
    under that type's name, so a wrapped number gives that number; of a
    list type, one entry for each element; a wrapped date, its start time;
    a wrapped value whose type has no arm (the [string] and [boolean]
    results of a formula among them) is returned as it is.  A formula
    payload without the key gives [{}], a wrapped value that is not an
    object raises [AttributeError], and through any number of wrappers the
    result is that of the innermost value.  A formula that wraps the number
    5 gives 5. *)
Theorem formula_normalized_by_recursion :
  (forall m,
      dict_get m "type" = JStr "formula" ->
      transform_property_value isoformat (JObj m)
      = transform_property_value isoformat (dict_get_default m "formula" (JObj [])))
  /\ (forall m inner,
        dict_get m "type" = JStr "formula" ->
        dict_lookup m "formula" = Some (JObj inner) ->
        (forall ty, In ty scalar_types -> dict_get inner "type" = JStr ty ->
           transform_property_value isoformat (JObj m) = Ok (dict_get inner ty))
        /\ (forall ty key ms,
              list_arm ty key -> dict_get inner "type" = JStr ty ->
              dict_lookup inner ty = Some (JArr (map JObj ms)) ->
              transform_property_value isoformat (JObj m)
              = Ok (JArr (map (fun x => dict_get x key) ms)))
        /\ (forall d s,
              dict_get inner "type" = JStr "date" ->
              dict_get inner "date" = JObj d -> dict_get d "start" = JStr s -> s <> "" ->
              transform_property_value isoformat (JObj m) = Ok (JStr (default s (isoformat s))))
        /\ (recognized (dict_get inner "type") = false ->
            transform_property_value isoformat (JObj m) = Ok (JObj inner)))
  /\ (forall m,
        dict_get m "type" = JStr "formula" ->
        (dict_lookup m "formula" = None ->
         transform_property_value isoformat (JObj m) = Ok (JObj []))
        /\ (forall v, dict_lookup m "formula" = Some v -> is_dict v = false ->
              transform_property_value isoformat (JObj m) = Raise (no_attribute v "get")))
  /\ (forall k inner,
        transform_property_value isoformat (nest k inner)
        = transform_property_value isoformat inner)
  /\ transform_property_value isoformat
       (JObj [("type", JStr "formula");
              ("formula", JObj [("type", JStr "number"); ("number", JNum 5)])])
     = Ok (JNum 5).
Proof.
  split; [exact transform_formula|]. split; [|split; [|split; [exact transform_nest|reflexivity]]].
  - intros m inner Hty Hinner.
    assert (Hwrap : transform_property_value isoformat (JObj m)
                    = transform_property_value isoformat (JObj inner)).
    { rewrite (transform_formula m Hty). unfold dict_get_default. rewrite Hinner. reflexivity. }
    rewrite Hwrap. split; [|split; [|split]].
    + intros ty Hin Hinner_ty. apply transform_scalar_arm; assumption.
    + intros ty key ms Harm Hinner_ty Hvalue.
      rewrite (transform_list_arm ty key inner Harm Hinner_ty).
      unfold dict_get_default. rewrite Hvalue. apply collect_dicts.
    + intros d s Hinner_ty Hdate Hstart Hs.
      rewrite (transform_date_arm inner Hinner_ty), Hdate.
      unfold transform_date.
      destruct d as [|kv d]; [discriminate Hstart|].
      cbn [truthy]. simpl. rewrite Hstart. simpl.
      apply String.eqb_neq in Hs. rewrite Hs. simpl.
      destruct (isoformat s); reflexivity.
    + apply transform_unrecognized.
  - intros m Hty. rewrite (transform_formula m Hty). unfold dict_get_default. split.
    + intros ->. reflexivity.
    + intros v -> Hv. destruct v; try discriminate Hv; reflexivity.
Qed.

(** C10. The list arms ([multi_select], [relation], [people], [files]) give
    one entry for each element of the input list, in the input's order: the
    element's [name] (or [id]), and [None] for an element that has no such
    key. *)
Theorem list_arms_keep_every_element ty key m (ms : list (list (string * json))) :
  list_arm ty key ->
  dict_get m "type" = JStr ty ->
  dict_lookup m ty = Some (JArr (map JObj ms)) ->
  exists out : list json,
    transform_property_value isoformat (JObj m) = Ok (JArr out)
    /\ out = map (fun fields => dict_get fields key) ms
    /\ length out = length ms
    /\ (forall i fields, ms !! i = Some fields ->
          out !! i = Some (match dict_lookup fields key with Some v => v | None => JNull end)).
Proof.
  intros Harm Hty Hval. eexists. split; [|split; [reflexivity|split]].
  - rewrite (transform_list_arm ty key m Harm Hty).
    unfold dict_get_default. rewrite Hval. simpl. apply collect_dicts.
  - apply length_map.
  - intros i fields Hi. rewrite list_lookup_fmap, Hi. reflexivity.
Qed.

(** C8, as the code has it.  On a payload of the documented shape the
    normalizer returns a value, whatever the type tag.  For a date whose
    [start] is a text that is not empty, the result is that text
    re-serialized, or the text itself where it does not parse.  A date that
    is absent (or empty), and a [start] that is absent, [None] or the empty
    text, give [None]. *)
Theorem normalizer_total_and_dates :
  (forall v, well_formed v = true -> exists r, transform_property_value isoformat v = Ok r)
  /\ (forall m d s,
        dict_get m "type" = JStr "date" -> dict_get m "date" = JObj d ->
        dict_get d "start" = JStr s -> s <> "" ->
        transform_property_value isoformat (JObj m)
        = Ok (JStr (match isoformat s with Some iso => iso | None => s end)))
  /\ (forall m,
        dict_get m "type" = JStr "date" -> truthy (dict_get m "date") = false ->
        transform_property_value isoformat (JObj m) = Ok JNull)
  /\ (forall m d,
        dict_get m "type" = JStr "date" -> dict_get m "date" = JObj d ->
        truthy (dict_get d "start") = false ->
        transform_property_value isoformat (JObj m) = Ok JNull).
Proof.
  split; [exact transform_total|]. split; [|split].
  - intros m d s Hty Hdate Hstart Hs.
    rewrite (transform_date_arm m Hty), Hdate. unfold transform_date.
    assert (Hd : truthy (JObj d) = true).
    { destruct d; [|reflexivity]. discriminate Hstart. }
    rewrite Hd. simpl. rewrite Hstart. simpl.
    apply String.eqb_neq in Hs. rewrite Hs. simpl.
    destruct (isoformat s); reflexivity.
  - intros m Hty Hdate. rewrite (transform_date_arm m Hty).
    unfold transform_date. rewrite Hdate. reflexivity.
  - intros m d Hty Hdate Hstart. rewrite (transform_date_arm m Hty), Hdate.
    unfold transform_date. destruct (truthy (JObj d)); [|reflexivity].
    simpl. rewrite Hstart. reflexivity.
Qed.

End normalizer.

Lemma formula_normalized_by_recursion_witness :
  let number := [("type", JStr "number"); ("number", JNum 7)] in
  let text := [("type", JStr "string"); ("string", JStr "done")] in
  let date := [("type", JStr "date"); ("date", JObj [("start", JStr "2024-02-29")])] in
  let wrap inner := [("id", JStr "f"); ("type", JStr "formula"); ("formula", JObj inner)] in
  transform_property_value isoformat_date (JObj (wrap number)) = Ok (JNum 7)
  /\ transform_property_value isoformat_date (JObj (wrap text)) = Ok (JObj text)
  /\ transform_property_value isoformat_date (JObj (wrap date)) = Ok (JStr "2024-02-29T00:00:00")
  /\ transform_property_value isoformat_date (nest 3 (JObj number)) = Ok (JNum 7).
Proof.
  intros number text date wrap.
  pose proof (formula_normalized_by_recursion isoformat_date) as (_ & Hinner & _ & Hnest & _).
  split; [|split; [|split]].
  - destruct (Hinner (wrap number) number eq_refl eq_refl) as (Hscalar & _).
    exact (Hscalar "number" (or_introl eq_refl) eq_refl).
  - destruct (Hinner (wrap text) text eq_refl eq_refl) as (_ & _ & _ & Hraw).
    exact (Hraw eq_refl).
  - destruct (Hinner (wrap date) date eq_refl eq_refl) as (_ & _ & Hdate & _).
    exact (Hdate [("start", JStr "2024-02-29")] "2024-02-29" eq_refl eq_refl eq_refl
             ltac:(discriminate)).
  - rewrite Hnest. reflexivity.
Defined.

Lemma list_arms_keep_every_element_witness :
  let ms := [[("id", JStr "t1"); ("name", JStr "x")]; [("id", JStr "t2")]; [("name", JStr "y")]] in
  let m := [("id", JStr "abc"); ("type", JStr "multi_select"); ("multi_select", JArr (map JObj ms))] in
  list_arm "multi_select" "name"
  /\ dict_get m "type" = JStr "multi_select"
  /\ dict_lookup m "multi_select" = Some (JArr (map JObj ms))
  /\ exists out : list json,
       transform_property_value isoformat_date (JObj m) = Ok (JArr out)
       /\ out = [JStr "x"; JNull; JStr "y"]
       /\ length out = length ms
       /\ (forall i fields, ms !! i = Some fields ->
             out !! i = Some (match dict_lookup fields "name" with Some v => v | None => JNull end)).
Proof.
  intros ms m.
  split; [constructor|]. split; [reflexivity|]. split; [reflexivity|].
  exact (list_arms_keep_every_element isoformat_date "multi_select" "name" m ms
           arm_multi_select eq_refl eq_refl).
Defined.

Lemma normalizer_total_and_dates_witness :
  let unparsed := [("type", JStr "date"); ("date", JObj [("start", JStr "next week"); ("end", JNull)])] in
  let parsed := [("type", JStr "date"); ("date", JObj [("start", JStr "2024-02-29"); ("end", JNull)])] in
  let absent := [("type", JStr "date"); ("date", JNull)] in
  let open := [("type", JStr "date"); ("date", JObj [("start", JNull); ("end", JNull)])] in
  (well_formed (JObj unparsed) = true
   /\ exists r, transform_property_value isoformat_date (JObj unparsed) = Ok r)
  /\ transform_property_value isoformat_date (JObj unparsed) = Ok (JStr "next week")
  /\ transform_property_value isoformat_date (JObj parsed) = Ok (JStr "2024-02-29T00:00:00")
  /\ transform_property_value isoformat_date (JObj absent) = Ok JNull
  /\ transform_property_value isoformat_date (JObj open) = Ok JNull.
Proof.
  pose proof (normalizer_total_and_dates isoformat_date) as (Htotal & Hstart & Habsent & Hopen).
  split; [split; [reflexivity | apply Htotal; reflexivity]|].
  split; [|split; [|split]].
  - apply (Hstart _ [("start", JStr "next week"); ("end", JNull)] "next week");
      [reflexivity | reflexivity | reflexivity | discriminate].
  - apply (Hstart _ [("start", JStr "2024-02-29"); ("end", JNull)] "2024-02-29");
      [reflexivity | reflexivity | reflexivity | discriminate].
  - apply Habsent; reflexivity.
  - apply (Hopen _ [("start", JNull); ("end", JNull)]); reflexivity.
Defined.

(** C8, as the claim words it, fails for the empty text: [fromisoformat]
    rejects it, yet the result is [None], not the text, because [if start:]
    is false for it. *)
Lemma empty_start_gives_none :
  let payload := JObj [("type", JStr "date"); ("date", JObj [("start", JStr "")])] in
  well_formed payload = true
  /\ isoformat_date "" = None
  /\ transform_property_value isoformat_date payload = Ok JNull
  /\ transform_property_value isoformat_date payload <> Ok (JStr "").
Proof. repeat split; discriminate. Qed.

(** ** The schema model *)

Lemma scan_status_data a b :
  schema_data a = schema_data b -> scan_status a = scan_status b.
Proof. unfold scan_status, property_items, properties. intros ->. reflexivity. Qed.

Lemma scan_tags_data a b :
  schema_data a = schema_data b -> scan_tags a = scan_tags b.
Proof. unfold scan_tags, property_items, properties. intros ->. reflexivity. Qed.

Lemma find_property_by_name_data name a b :
  schema_data a = schema_data b -> find_property_by_name name a = find_property_by_name name b.
Proof. unfold find_property_by_name, property_items, properties. intros ->. reflexivity. Qed.

Lemma declared_options_data kind name a b :
  schema_data a = schema_data b -> declared_options kind name a = declared_options kind name b.
Proof. unfold declared_options, properties. intros ->. reflexivity. Qed.

(** The lookups write the two stored answers and nothing else. *)
Lemma get_status_property_name_data self :
  schema_data (snd (get_status_property_name self)) = schema_data self.
Proof.
  unfold get_status_property_name.
  destruct (_status_property_name self); [reflexivity|].
  destruct (scan_status self) as [[name|]|e]; reflexivity.
Qed.

Lemma get_tag_property_names_data self :
  schema_data (snd (get_tag_property_names self)) = schema_data self.
Proof.
  unfold get_tag_property_names.
  destruct (_tag_property_names self); [|reflexivity].
  destruct (scan_tags self); reflexivity.
Qed.

(** On an object whose stored answers agree with its data, a lookup answers
    what its scan answers: the stored answers cannot be told from a scan. *)
Lemma get_status_property_name_scan self :
  consistent self = true ->
  fst (get_status_property_name self) = scan_status self.
Proof.
  unfold consistent, get_status_property_name. intros H.
  apply andb_prop in H as [H _].
  destruct (_status_property_name self) as [name|].
  - destruct (scan_status self) as [[found|]|e]; try discriminate.
    apply String.eqb_eq in H as ->. reflexivity.
  - destruct (scan_status self) as [[found|]|e]; reflexivity.
Qed.

Lemma get_tag_property_names_scan self :
  consistent self = true ->
  fst (get_tag_property_names self) = scan_tags self.
Proof.
  unfold consistent, get_tag_property_names. intros H.
  apply andb_prop in H as [_ H].
  destruct (_tag_property_names self) as [|n names].
  - destruct (scan_tags self); reflexivity.
  - destruct (scan_tags self) as [found|e]; try discriminate.
    apply bool_decide_eq_true in H as ->. reflexivity.
Qed.

Lemma new_schema_consistent database_id data :
  consistent (new_schema database_id data) = true.
Proof. reflexivity. Qed.

Lemma get_status_property_name_consistent self :
  consistent self = true -> consistent (snd (get_status_property_name self)) = true.
Proof.
  intros H. unfold get_status_property_name.
  destruct (_status_property_name self) as [name|] eqn:Est; [exact H|].
  destruct (scan_status self) as [[found|]|e] eqn:Escan; try exact H.
  simpl. unfold consistent in *. rewrite Est in H. simpl in H |- *.
  rewrite (scan_status_data (set_status_property_name self found) self eq_refl).
  rewrite Escan, String.eqb_refl. simpl.
  destruct (_tag_property_names self); [reflexivity|].
  rewrite (scan_tags_data (set_status_property_name self found) self eq_refl). exact H.
Qed.

Lemma get_tag_property_names_consistent self :
  consistent self = true -> consistent (snd (get_tag_property_names self)) = true.
Proof.
  intros H. unfold get_tag_property_names.
  destruct (_tag_property_names self) as [|n names] eqn:Etags; [|exact H].
  destruct (scan_tags self) as [found|e] eqn:Escan; [|exact H].
  simpl. unfold consistent in *. apply andb_prop in H as [H _].
  apply andb_true_intro. split.
  - simpl. destruct (_status_property_name self); [|reflexivity].
    rewrite (scan_status_data (set_tag_property_names self found) self eq_refl). exact H.
  - simpl. destruct found as [|n found]; [reflexivity|].
    rewrite (scan_tags_data (set_tag_property_names self (n :: found)) self eq_refl), Escan.
    apply bool_decide_eq_true. reflexivity.
Qed.

(** On definitions that are objects, the scans are filters: the names of
    the properties of the type, in the schema's order, and the first of
    them. *)
Lemma all_of_type_dicts ty defs :
  all_of_type ty (as_items defs) = Ok (typed ty defs).
Proof.
  unfold typed. induction defs as [|[name def] defs IH]; [reflexivity|].
  simpl. rewrite IH. simpl.
  destruct (py_eq_str (dict_get def "type") ty); reflexivity.
Qed.

Lemma first_of_type_dicts ty defs :
  first_of_type ty (as_items defs) = Ok (head (typed ty defs)).
Proof.
  unfold typed. induction defs as [|[name def] defs IH]; [reflexivity|].
  simpl. destruct (py_eq_str (dict_get def "type") ty); [reflexivity | exact IH].
Qed.

(** [find_property_by_name] finds nothing exactly when no property name is
    the given name in lower case. *)
Lemma first_named_none name_lower items :
  first_named name_lower items = None
  <-> Forall (fun kv => lower (fst kv) <> name_lower) items.
Proof.
  induction items as [|[prop_name prop_def] items IH]; simpl.
  - split; [constructor | reflexivity].
  - destruct (String.eqb (lower prop_name) name_lower) eqn:E.
    + apply String.eqb_eq in E. split; [discriminate|].
      intros H. inversion H; subst. contradiction.
    + apply String.eqb_neq in E. rewrite IH. split.
      * intros H. constructor; assumption.
      * intros H. inversion H; assumption.
Qed.

(** C2, as the code has it.  A lookup stores what it finds: after a call
    that found a status property, every later call answers that name
    without reading the properties, and likewise for a list of tag
    properties that is not empty.  A lookup that finds nothing leaves the
    object as it was, and every later call scans the properties again. *)
Theorem lookups_store_only_what_they_find :
  (forall self name self1,
      get_status_property_name self = (Ok (Some name), self1) ->
      _status_property_name self1 = Some name
      /\ forall data,
           get_status_property_name (set_schema_data self1 data)
           = (Ok (Some name), set_schema_data self1 data))
  /\ (forall self self1,
        get_status_property_name self = (Ok None, self1) ->
        self1 = self
        /\ forall data,
             fst (get_status_property_name (set_schema_data self1 data))
             = scan_status (set_schema_data self1 data))
  /\ (forall self names self1,
        get_tag_property_names self = (Ok names, self1) ->
        names <> [] ->
        _tag_property_names self1 = names
        /\ forall data,
             get_tag_property_names (set_schema_data self1 data)
             = (Ok names, set_schema_data self1 data))
  /\ (forall self self1,
        get_tag_property_names self = (Ok [], self1) ->
        self1 = self
        /\ forall data,
             fst (get_tag_property_names (set_schema_data self1 data))
             = scan_tags (set_schema_data self1 data)).
Proof.
  split; [|split; [|split]].
  - intros self name self1. unfold get_status_property_name at 1.
    destruct (_status_property_name self) as [stored|] eqn:Est.
    + intros [= <- <-]. split; [exact Est|]. intros data.
      unfold get_status_property_name. simpl. rewrite Est. reflexivity.
    + destruct (scan_status self) as [[found|]|e]; intros [= <- <-].
      split; [reflexivity|]. intros data. reflexivity.
  - intros self self1. unfold get_status_property_name at 1.
    destruct (_status_property_name self) as [stored|] eqn:Est; [discriminate|].
    destruct (scan_status self) as [[found|]|e]; intros [= <-].
    split; [reflexivity|]. intros data.
    unfold get_status_property_name. simpl. rewrite Est.
    destruct (scan_status (set_schema_data self data)) as [[found|]|e]; reflexivity.
  - intros self names self1. unfold get_tag_property_names at 1.
    destruct (_tag_property_names self) as [|n stored] eqn:Etags.
    + destruct (scan_tags self) as [found|e]; intros [= <- <-] Hne.
      split; [reflexivity|]. intros data.
      unfold get_tag_property_names. simpl. destruct found; [contradiction|reflexivity].
    + intros [= <- <-] _. split; [exact Etags|]. intros data.
      unfold get_tag_property_names. simpl. rewrite Etags. reflexivity.
  - intros self self1. unfold get_tag_property_names at 1.
    destruct (_tag_property_names self) as [|n stored] eqn:Etags; [|discriminate].
    destruct (scan_tags self) as [found|e]; intros [= -> <-].
    split.
    + destruct self; simpl in *. rewrite Etags. reflexivity.
    + intros data. unfold get_tag_property_names. simpl.
      destruct (scan_tags _); reflexivity.
Qed.

Lemma lookups_store_only_what_they_find_witness :
  let with_fields :=
    JObj [("properties",
           JObj [("Name", JObj [("type", JStr "title")]);
                 ("Status", JObj [("type", JStr "status")]);
                 ("Tags", JObj [("type", JStr "multi_select")])])] in
  let without := JObj [("properties", JObj [("Name", JObj [("type", JStr "title")])])] in
  let found := new_schema "db" with_fields in
  let nothing := new_schema "db" without in
  (get_status_property_name found = (Ok (Some "Status"), set_status_property_name found "Status")
   /\ forall data,
        get_status_property_name (set_schema_data (set_status_property_name found "Status") data)
        = (Ok (Some "Status"), set_schema_data (set_status_property_name found "Status") data))
  /\ (get_status_property_name nothing = (Ok None, nothing)
      /\ forall data,
           fst (get_status_property_name (set_schema_data nothing data))
           = scan_status (set_schema_data nothing data))
  /\ (get_tag_property_names found = (Ok ["Tags"], set_tag_property_names found ["Tags"])
      /\ forall data,
           get_tag_property_names (set_schema_data (set_tag_property_names found ["Tags"]) data)
           = (Ok ["Tags"], set_schema_data (set_tag_property_names found ["Tags"]) data))
  /\ (get_tag_property_names nothing = (Ok [], nothing)
      /\ forall data,
           fst (get_tag_property_names (set_schema_data nothing data))
           = scan_tags (set_schema_data nothing data)).
Proof.
  intros with_fields without found nothing.
  pose proof lookups_store_only_what_they_find as (Hstatus & Hno_status & Htags & Hno_tags).
  split; [|split; [|split]]; (split; [reflexivity|]).
  - apply (Hstatus found "Status" (set_status_property_name found "Status")). reflexivity.
  - apply (Hno_status nothing nothing). reflexivity.
  - apply (Htags found ["Tags"] (set_tag_property_names found ["Tags"])); [reflexivity|discriminate].
  - apply (Hno_tags nothing nothing). reflexivity.
Defined.

(** C2, as the claim words it, fails: a lookup that finds nothing stores
    nothing.  After such a call the object is the object before the call,
    and the next call follows whatever the properties then hold. *)
Lemma absent_answers_are_not_stored :
  let without := JObj [("properties", JObj [("Name", JObj [("type", JStr "title")])])] in
  let later :=
    JObj [("properties",
           JObj [("Name", JObj [("type", JStr "title")]);
                 ("Status", JObj [("type", JStr "status")]);
                 ("Tags", JObj [("type", JStr "multi_select")])])] in
  let self := new_schema "db" without in
  get_status_property_name self = (Ok None, self)
  /\ get_tag_property_names self = (Ok [], self)
  /\ fst (get_status_property_name (set_schema_data (snd (get_status_property_name self)) later))
     = Ok (Some "Status")
  /\ fst (get_tag_property_names (set_schema_data (snd (get_tag_property_names self)) later))
     = Ok ["Tags"].
Proof. repeat split. Qed.

(** *** Option lists *)

Lemma names_of_options_dicts (os : list (list (string * json))) :
  names_of_options (map JObj os)
  = Ok (filter (fun n => truthy n = true) (map (fun o => dict_get o "name") os)).
Proof.
  induction os as [|o os IH]; [reflexivity|].
  cbn [map names_of_options py_get mbind result_bind].
  rewrite filter_cons. destruct (decide (truthy (dict_get o "name") = true)) as [Hn|Hn].
  - rewrite Hn. cbn [py_get_default mbind result_bind]. rewrite IH. simpl.
    f_equal. f_equal. unfold dict_get, dict_get_default in *.
    destruct (dict_lookup o "name"); [reflexivity | discriminate].
  - apply not_true_is_false in Hn. rewrite Hn. exact IH.
Qed.

Lemma names_of_options_truthy options names :
  names_of_options options = Ok names -> Forall (fun n => truthy n = true) names.
Proof.
  revert names. induction options as [|opt options IH]; intros names; simpl.
  - intros [= <-]. constructor.
  - destruct (py_get opt "name") as [name|e] eqn:Ename; simpl; [|discriminate].
    destruct (truthy name) eqn:Htruthy; [|apply IH].
    destruct opt; try discriminate. simpl in Ename |- *. injection Ename as Ename.
    destruct (names_of_options options) as [ns|e]; simpl; [|discriminate].
    intros [= <-]. constructor; [|apply IH; reflexivity].
    unfold dict_get, dict_get_default in *.
    destruct (dict_lookup fields "name"); simpl in *; subst; [exact Htruthy | discriminate].
Qed.

Lemma option_names_truthy kind prop_def names :
  option_names kind prop_def = Ok names -> Forall (fun n => truthy n = true) names.
Proof.
  unfold option_names.
  destruct (py_get_default prop_def kind (JObj [])) as [k|e]; simpl; [|discriminate].
  destruct (py_get_default k "options" (JArr [])) as [options|e]; simpl; [|discriminate].
  destruct (py_iter options) as [opts|e]; simpl; [|discriminate].
  apply names_of_options_truthy.
Qed.

Lemma declared_options_truthy kind name self names :
  declared_options kind name self = Ok names -> Forall (fun n => truthy n = true) names.
Proof.
  unfold declared_options.
  destruct (properties self) as [props|e]; simpl; [|discriminate].
  destruct (py_get_default props name (JObj [])) as [prop_def|e]; simpl; [|discriminate].
  apply option_names_truthy.
Qed.

Lemma declared_options_dicts kind name self props def k os :
  properties self = Ok (JObj props) ->
  dict_lookup props name = Some (JObj def) ->
  dict_lookup def kind = Some (JObj k) ->
  dict_lookup k "options" = Some (JArr (map JObj os)) ->
  declared_options kind name self
  = Ok (filter (fun n => truthy n = true) (map (fun o => dict_get o "name") os)).
Proof.
  intros Hprops Hdef Hkind Hoptions. unfold declared_options, option_names.
  rewrite Hprops. simpl. unfold dict_get_default. rewrite Hdef. simpl.
  unfold dict_get_default. rewrite Hkind. simpl.
  unfold dict_get_default. rewrite Hoptions. simpl.
  apply names_of_options_dicts.
Qed.

(** What [get_status_options] does after its lookup of the name. *)
Lemma get_status_options_unfold self :
  get_status_options self
  = match get_status_property_name self with
    | (Ok (Some name), self') =>
        if negb (String.eqb name "") then (declared_options "status" name self', self')
        else (Ok [], self')
    | (Ok None, self') => (Ok [], self')
    | (Raise e, self') => (Raise e, self')
    end.
Proof.
  unfold get_status_options, mbind, prog_bind.
  destruct (get_status_property_name self) as [[[name|]|e] self']; try reflexivity.
  simpl. destruct (negb (String.eqb name "")); reflexivity.
Qed.

(** C9. The option lists hold the declared names in order, without the
    options whose name is empty or missing; no list returned by
    [get_status_options] or [get_tag_options] holds an empty name (the
    empty text or [None]).  The status field is the one the schema's scan
    finds, under a name that is not empty. *)
Theorem option_lists_skip_empty_names :
  (forall self props name def k (os : list (list (string * json))),
      consistent self = true ->
      properties self = Ok (JObj props) ->
      scan_status self = Ok (Some name) ->
      name <> "" ->
      dict_lookup props name = Some (JObj def) ->
      dict_lookup def "status" = Some (JObj k) ->
      dict_lookup k "options" = Some (JArr (map JObj os)) ->
      fst (get_status_options self)
      = Ok (filter (fun n => truthy n = true) (map (fun o => dict_get o "name") os)))
  /\ (forall self tag_property props def k (os : list (list (string * json))),
        properties self = Ok (JObj props) ->
        dict_lookup props tag_property = Some (JObj def) ->
        dict_lookup def "multi_select" = Some (JObj k) ->
        dict_lookup k "options" = Some (JArr (map JObj os)) ->
        get_tag_options tag_property self
        = Ok (filter (fun n => truthy n = true) (map (fun o => dict_get o "name") os)))
  /\ (forall self names,
        fst (get_status_options self) = Ok names ->
        forall n, n ∈ names -> truthy n = true /\ n <> JStr "" /\ n <> JNull)
  /\ (forall tag_property self names,
        get_tag_options tag_property self = Ok names ->
        forall n, n ∈ names -> truthy n = true /\ n <> JStr "" /\ n <> JNull).
Proof.
  assert (Hnot_empty : forall names : list json,
             Forall (fun n => truthy n = true) names ->
             forall n, n ∈ names -> truthy n = true /\ n <> JStr "" /\ n <> JNull).
  { intros names Hall n Hn. rewrite Forall_forall in Hall. specialize (Hall n Hn).
    split; [exact Hall|]. split; intros ->; discriminate. }
  split; [|split; [|split]].
  - intros self props name def k os Hcons Hprops Hscan Hname Hdef Hstatus Hoptions.
    rewrite get_status_options_unfold.
    pose proof (get_status_property_name_scan self Hcons) as Hfst.
    pose proof (get_status_property_name_data self) as Hdata.
    destruct (get_status_property_name self) as [r self']. simpl in Hfst, Hdata.
    rewrite Hfst, Hscan. apply String.eqb_neq in Hname. rewrite Hname. simpl.
    rewrite (declared_options_data "status" name self' self Hdata).
    exact (declared_options_dicts "status" name self props def k os Hprops Hdef Hstatus Hoptions).
  - intros self tag_property props def k os. apply declared_options_dicts.
  - intros self names. rewrite get_status_options_unfold.
    destruct (get_status_property_name self) as [[[name|]|e] self']; simpl.
    + destruct (negb (String.eqb name "")); simpl.
      * intros H. apply Hnot_empty. exact (declared_options_truthy _ _ _ _ H).
      * intros [= <-] n Hn. inversion Hn.
    + intros [= <-] n Hn. inversion Hn.
    + discriminate.
  - intros tag_property self names H. apply Hnot_empty.
    exact (declared_options_truthy _ _ _ _ H).
Qed.

Lemma option_lists_skip_empty_names_witness :
  let option name := [("id", JStr "o"); ("name", name); ("color", JStr "gray")] in
  let os := [option (JStr "Todo"); option (JStr ""); [("id", JStr "p")]; option (JStr "Done")] in
  let k := [("options", JArr (map JObj os))] in
  let status_def := [("id", JStr "s"); ("type", JStr "status"); ("status", JObj k)] in
  let tags_def := [("id", JStr "t"); ("type", JStr "multi_select"); ("multi_select", JObj k)] in
  let props := [("Name", JObj [("type", JStr "title")]); ("Status", JObj status_def);
                ("Tags", JObj tags_def)] in
  let self := new_schema "db" (JObj [("properties", JObj props)]) in
  fst (get_status_options self) = Ok [JStr "Todo"; JStr "Done"]
  /\ get_tag_options "Tags" self = Ok [JStr "Todo"; JStr "Done"]
  /\ (forall n, n ∈ [JStr "Todo"; JStr "Done"] -> truthy n = true /\ n <> JStr "" /\ n <> JNull).
Proof.
  intros option os k status_def tags_def props self.
  pose proof option_lists_skip_empty_names as (Hstatus & Htags & Hnone & Hnone_tags).
  split; [|split].
  - exact (Hstatus self props "Status" status_def k os eq_refl eq_refl eq_refl
             ltac:(discriminate) eq_refl eq_refl eq_refl).
  - exact (Htags self "Tags" props tags_def k os eq_refl eq_refl eq_refl eq_refl).
  - intros n Hn. split.
    + exact (proj1 (Hnone self [JStr "Todo"; JStr "Done"] eq_refl n Hn)).
    + exact (proj2 (Hnone_tags "Tags" self [JStr "Todo"; JStr "Done"] eq_refl n Hn)).
Defined.

(** ** The filter of [query] *)

Lemma split_not_empty sep s : 1 <= length (split sep s).
Proof.
  destruct s as [|c s]; simpl; [lia|].
  destruct (Ascii.eqb c sep); simpl; [lia|].
  destruct (split sep s); simpl; lia.
Qed.

(** [split] cuts at every separator and loses nothing: putting the
    separator back between the pieces gives the text. *)
Lemma join_with_split sep s : join_with sep (split sep s) = s.
Proof.
  induction s as [|c s IH]; [reflexivity|]. simpl.
  pose proof (split_not_empty sep s) as Hlen.
  destruct (Ascii.eqb c sep) eqn:Ec.
  - apply Ascii.eqb_eq in Ec as ->.
    destruct (split sep s) as [|t ts]; [simpl in Hlen; lia|].
    simpl in IH |- *. rewrite IH. reflexivity.
  - destruct (split sep s) as [|t ts]; [simpl in Hlen; lia|].
    destruct ts; simpl in IH |- *; rewrite <- IH; reflexivity.
Qed.

Lemma split_pieces_have_no_separator sep s :
  Forall (fun piece => contains_char sep piece = false) (split sep s).
Proof.
  induction s as [|c s IH]; simpl; [repeat constructor|].
  destruct (Ascii.eqb c sep) eqn:Ec; [constructor; [reflexivity | exact IH]|].
  destruct (split sep s) as [|t ts]; [repeat constructor; simpl; rewrite Ec; reflexivity|].
  inversion IH as [|? ? Ht Hts]; subst. constructor; [|exact Hts].
  simpl. rewrite Ec, Ht. reflexivity.
Qed.

(** [split_once] cuts at the first separator, when there is one. *)
Lemma split_once_cut sep s :
  contains_char sep s = true ->
  exists k v, split_once sep s = [k; v]
              /\ s = k ++ String sep v /\ contains_char sep k = false.
Proof.
  induction s as [|c s IH]; simpl; [discriminate|].
  destruct (Ascii.eqb c sep) eqn:Ec; simpl.
  - intros _. apply Ascii.eqb_eq in Ec as ->. exists "", s. repeat split.
  - intros H. destruct (IH H) as (k & v & -> & -> & Hk).
    exists (String c k), v. simpl. rewrite Ec, Hk. repeat split.
Qed.

Lemma split_once_whole sep s :
  contains_char sep s = false -> split_once sep s = [s].
Proof.
  induction s as [|c s IH]; simpl; [reflexivity|].
  destruct (Ascii.eqb c sep); simpl; [discriminate|].
  intros H. rewrite (IH H). reflexivity.
Qed.

Lemma filter_by_status_data status filter_obj self :
  schema_data (snd (filter_by_status status filter_obj self)) = schema_data self.
Proof.
  unfold filter_by_status. destruct status as [st|]; [|reflexivity].
  destruct (name_truthy (Some st)); [|reflexivity].
  unfold mbind, prog_bind.
  pose proof (get_status_property_name_data self) as Hdata.
  destruct (get_status_property_name self) as [[[name|]|e] self']; simpl in *; try exact Hdata.
  destruct (negb (String.eqb name "")); exact Hdata.
Qed.

Lemma filter_by_tags_data tags filter_obj self :
  schema_data (snd (filter_by_tags tags filter_obj self)) = schema_data self.
Proof.
  unfold filter_by_tags. destruct tags as [ts|]; [|reflexivity].
  destruct (name_truthy (Some ts)); [|reflexivity].
  unfold mbind, prog_bind.
  pose proof (get_tag_property_names_data self) as Hdata.
  destruct (get_tag_property_names self) as [[[|p more]|e] self']; simpl in *; try exact Hdata.
  destruct (map strip (split "," ts)) as [|t [|t' tokens]]; exact Hdata.
Qed.

(** The custom filter reads the schema's data only. *)
Lemma filter_by_custom_data filter filter_obj a b :
  schema_data a = schema_data b ->
  filter_by_custom filter filter_obj a = filter_by_custom filter filter_obj b.
Proof.
  intros Hdata. unfold filter_by_custom.
  destruct filter as [f|]; [|reflexivity].
  destruct (name_truthy (Some f)); [|reflexivity].
  destruct (contains_char "=" f); [|reflexivity].
  destruct (split_once "=" f) as [|k [|v [|x rest]]]; try reflexivity.
  rewrite (find_property_by_name_data (strip k) a b Hdata). reflexivity.
Qed.

(** The filter is the custom filter applied to what the status and the tags
    left, on the same data. *)
Lemma build_filter_unfold status tags filter self :
  build_filter status tags filter self
  = match filter_by_status status JNull self with
    | (Ok by_status, self1) =>
        match filter_by_tags tags by_status self1 with
        | (Ok by_tags, self2) => (filter_by_custom filter by_tags self, self2)
        | (Raise e, self2) => (Raise e, self2)
        end
    | (Raise e, self1) => (Raise e, self1)
    end.
Proof.
  unfold build_filter, mbind, prog_bind, read.
  pose proof (filter_by_status_data status JNull self) as H1.
  destruct (filter_by_status status JNull self) as [[by_status|e] self1]; [|reflexivity].
  pose proof (filter_by_tags_data tags by_status self1) as H2.
  destruct (filter_by_tags tags by_status self1) as [[by_tags|e] self2]; [|reflexivity].
  simpl in H1, H2. f_equal. apply filter_by_custom_data. congruence.
Qed.

(** A custom filter without [=], or whose key names no property, leaves
    [filter_obj] as it is. *)
Lemma filter_by_custom_inert f filter_obj self :
  contains_char "=" f = false \/ find_property_by_name (filter_key f) self = Ok None ->
  filter_by_custom (Some f) filter_obj self = Ok filter_obj.
Proof.
  intros H. unfold filter_by_custom.
  destruct (name_truthy (Some f)); [|reflexivity].
  destruct (contains_char "=" f) eqn:Hcontains; [|reflexivity].
  destruct H as [H|H]; [discriminate|].
  destruct (split_once_cut "=" f Hcontains) as (k & v & Hsplit & _).
  unfold filter_key in H. rewrite Hsplit in H |- *. simpl in H. rewrite H. reflexivity.
Qed.

(** C5. A custom filter that has no [=], or whose key (the text before the
    first [=], stripped, compared in lower case with the property names)
    names no property, adds nothing: the filter is what the status and the
    tags gave, and the custom branch raises nothing. *)
Theorem unresolved_custom_filter_changes_nothing status tags f self :
  contains_char "=" f = false \/ find_property_by_name (filter_key f) self = Ok None ->
  (forall filter_obj, filter_by_custom (Some f) filter_obj self = Ok filter_obj)
  /\ build_filter status tags (Some f) self
     = (filter_by_status status JNull ≫= filter_by_tags tags) self
  /\ build_filter status tags (Some f) self = build_filter status tags None self.
Proof.
  intros H. split; [|split].
  - intros filter_obj. apply filter_by_custom_inert. exact H.
  - rewrite build_filter_unfold. unfold mbind, prog_bind.
    destruct (filter_by_status status JNull self) as [[by_status|e] self1]; [|reflexivity].
    destruct (filter_by_tags tags by_status self1) as [[by_tags|e] self2]; [|reflexivity].
    rewrite (filter_by_custom_inert f by_tags self H). reflexivity.
  - rewrite !build_filter_unfold.
    destruct (filter_by_status status JNull self) as [[by_status|e] self1]; [|reflexivity].
    destruct (filter_by_tags tags by_status self1) as [[by_tags|e] self2]; [|reflexivity].
    rewrite (filter_by_custom_inert f by_tags self H). reflexivity.
Qed.

Lemma unresolved_custom_filter_changes_nothing_witness :
  let props := [("Name", JObj [("type", JStr "title")]);
                ("Status", JObj [("type", JStr "status")]);
                ("Tags", JObj [("type", JStr "multi_select")])] in
  let self := new_schema "db" (JObj [("properties", JObj props)]) in
  (find_property_by_name (filter_key "Owner = me") self = Ok None
   /\ fst (build_filter (Some "Todo") (Some "a,b") (Some "Owner = me") self)
      = fst (build_filter (Some "Todo") (Some "a,b") None self))
  /\ (contains_char "=" "urgent" = false
      /\ fst (build_filter (Some "Todo") None (Some "urgent") self)
         = Ok (status_equals "Status" "Todo")).
Proof.
  intros props self. split; (split; [reflexivity|]).
  - pose proof (unresolved_custom_filter_changes_nothing
                  (Some "Todo") (Some "a,b") "Owner = me" self (or_intror eq_refl))
      as (_ & _ & H).
    rewrite H. reflexivity.
  - pose proof (unresolved_custom_filter_changes_nothing
                  (Some "Todo") None "urgent" self (or_introl eq_refl))
      as (_ & _ & H).
    rewrite H. reflexivity.
Defined.

Lemma get_tag_property_names_found self tag_prop_name more :
  consistent self = true ->
  scan_tags self = Ok (tag_prop_name :: more) ->
  exists self', get_tag_property_names self = (Ok (tag_prop_name :: more), self').
Proof.
  intros Hcons Hscan. pose proof (get_tag_property_names_scan self Hcons) as Hfst.
  destruct (get_tag_property_names self) as [r self']. simpl in Hfst.
  exists self'. congruence.
Qed.

(** C4. For a tags argument that is not empty, the tokens are the pieces
    between the commas, each stripped; there is at least one.  On a schema
    with a [multi_select] property the predicate is on the first such
    property: the one [contains] predicate for a single token, and
    otherwise the [and] list of one [contains] predicate for each token, in
    the tokens' order.  On a schema with no [multi_select] property the
    filter is left as it was and nothing is raised. *)
Theorem tags_filter_shape ts filter_obj self :
  ts <> "" ->
  consistent self = true ->
  let tokens := map strip (split "," ts) in
  1 <= length tokens
  /\ (forall tag_prop_name more,
        scan_tags self = Ok (tag_prop_name :: more) ->
        (forall tag, tokens = [tag] ->
           fst (filter_by_tags (Some ts) filter_obj self)
           = Ok (JObj [("property", JStr tag_prop_name);
                       ("multi_select", JObj [("contains", JStr tag)])]))
        /\ (2 <= length tokens ->
            fst (filter_by_tags (Some ts) filter_obj self)
            = Ok (JObj [("and",
                         JArr (map (fun tag =>
                                      JObj [("property", JStr tag_prop_name);
                                            ("multi_select", JObj [("contains", JStr tag)])])
                                   tokens))])))
  /\ (scan_tags self = Ok [] ->
      fst (filter_by_tags (Some ts) filter_obj self) = Ok filter_obj).
Proof.
  intros Hts Hcons tokens.
  assert (Htruthy : name_truthy (Some ts) = true).
  { simpl. apply String.eqb_neq in Hts. rewrite Hts. reflexivity. }
  split; [|split].
  - unfold tokens. rewrite length_map. apply split_not_empty.
  - intros tag_prop_name more Hscan.
    destruct (get_tag_property_names_found self _ _ Hcons Hscan) as [self' Hnames].
    unfold filter_by_tags. rewrite Htruthy. unfold mbind, prog_bind. rewrite Hnames.
    fold tokens. split.
    + intros tag ->. reflexivity.
    + intros Hlen. destruct tokens as [|t [|t' rest]]; simpl in Hlen; try lia. reflexivity.
  - intros Hscan. pose proof (get_tag_property_names_scan self Hcons) as Hfst.
    unfold filter_by_tags. rewrite Htruthy. unfold mbind, prog_bind.
    destruct (get_tag_property_names self) as [r self']. simpl in Hfst.
    rewrite Hfst, Hscan. reflexivity.
Qed.

Lemma tags_filter_shape_witness :
  let props := [("Name", JObj [("type", JStr "title")]);
                ("Tags", JObj [("type", JStr "multi_select")]);
                ("Labels", JObj [("type", JStr "multi_select")])] in
  let self := new_schema "db" (JObj [("properties", JObj props)]) in
  let contains tag :=
    JObj [("property", JStr "Tags"); ("multi_select", JObj [("contains", JStr tag)])] in
  let untagged := new_schema "db2" (JObj [("properties", JObj [("Name", JObj [("type", JStr "title")])])]) in
  scan_tags self = Ok ["Tags"; "Labels"]
  /\ fst (filter_by_tags (Some "a") JNull self) = Ok (contains "a")
  /\ fst (filter_by_tags (Some "a, b") JNull self)
     = Ok (JObj [("and", JArr [contains "a"; contains "b"])])
  /\ fst (filter_by_tags (Some "a, b") JNull untagged) = Ok JNull.
Proof.
  intros props self contains untagged. split; [reflexivity|]. split; [|split].
  - pose proof (tags_filter_shape "a" JNull self ltac:(discriminate) eq_refl) as (_ & H & _).
    destruct (H "Tags" ["Labels"] eq_refl) as [Hone _]. exact (Hone "a" eq_refl).
  - pose proof (tags_filter_shape "a, b" JNull self ltac:(discriminate) eq_refl) as (_ & H & _).
    destruct (H "Tags" ["Labels"] eq_refl) as [_ Hmore]. apply Hmore. simpl. lia.
  - pose proof (tags_filter_shape "a, b" JNull untagged ltac:(discriminate) eq_refl) as (_ & _ & H).
    exact (H eq_refl).
Defined.

Lemma get_status_property_name_returns self :
  is_ok (scan_status self) = true ->
  exists r self', get_status_property_name self = (Ok r, self').
Proof.
  unfold get_status_property_name. intros H.
  destruct (_status_property_name self); [eauto|].
  destruct (scan_status self) as [[name|]|e]; [eauto | eauto | discriminate].
Qed.

Lemma filter_by_status_returns status filter_obj self :
  is_ok (scan_status self) = true ->
  exists by_status self', filter_by_status status filter_obj self = (Ok by_status, self').
Proof.
  intros H. unfold filter_by_status.
  destruct status as [st|]; [|unfold mret, prog_ret; eauto].
  destruct (name_truthy (Some st)); [|unfold mret, prog_ret; eauto].
  unfold mbind, prog_bind.
  destruct (get_status_property_name_returns self H) as (r & self' & ->).
  destruct r as [name|]; [|unfold mret, prog_ret; eauto].
  destruct (name_truthy (Some name)); unfold mret, prog_ret; eauto.
Qed.

Lemma filter_by_tags_returns tags filter_obj self :
  is_ok (scan_tags self) = true ->
  exists by_tags self', filter_by_tags tags filter_obj self = (Ok by_tags, self').
Proof.
  intros H. unfold filter_by_tags.
  destruct tags as [ts|]; [|unfold mret, prog_ret; eauto].
  destruct (name_truthy (Some ts)); [|unfold mret, prog_ret; eauto].
  unfold mbind, prog_bind, get_tag_property_names.
  destruct (_tag_property_names self) as [|n names].
  - destruct (scan_tags self) as [[|p more]|e]; [unfold mret, prog_ret; eauto | | discriminate].
    destruct (map strip (split "," ts)) as [|t [|t' tokens]]; unfold mret, prog_ret; eauto.
  - destruct (map strip (split "," ts)) as [|t [|t' tokens]]; unfold mret, prog_ret; eauto.
Qed.

(** A custom filter [key=value] whose key names a property gives the
    predicate for that property's type, whatever [filter_obj] held. *)
Lemma filter_by_custom_resolved f filter_obj self def :
  contains_char "=" f = true ->
  find_property_by_name (filter_key f) self = Ok (Some (JObj def)) ->
  def <> [] ->
  filter_by_custom (Some f) filter_obj self
  = Ok (predicate_for (dict_get def "type") (filter_key f) (filter_value f)).
Proof.
  intros Hcontains Hfind Hdef. unfold filter_by_custom.
  assert (Hf : name_truthy (Some f) = true) by (destruct f; [discriminate | reflexivity]).
  rewrite Hf, Hcontains.
  destruct (split_once_cut "=" f Hcontains) as (k & v & Hsplit & _).
  unfold filter_key, filter_value in *. rewrite Hsplit in *. simpl in Hfind |- *.
  rewrite Hfind. simpl. destruct def; [contradiction | reflexivity].
Qed.

(** C1. With a status, tags and a custom filter [key=value] all given, on a
    schema that has a status property, a [multi_select] property and a
    property of the key's name, the filter is the predicate of the custom
    filter alone: the predicate on the key for the type of that property,
    the one the custom filter gives when neither status nor tags are
    given.  What the status and the tags wrote is overwritten. *)
Theorem custom_filter_overwrites st ts f self status_name tag_name more def :
  st <> "" ->
  ts <> "" ->
  scan_status self = Ok (Some status_name) ->
  scan_tags self = Ok (tag_name :: more) ->
  contains_char "=" f = true ->
  find_property_by_name (filter_key f) self = Ok (Some (JObj def)) ->
  def <> [] ->
  fst (build_filter (Some st) (Some ts) (Some f) self)
  = Ok (predicate_for (dict_get def "type") (filter_key f) (filter_value f))
  /\ fst (build_filter (Some st) (Some ts) (Some f) self)
     = fst (build_filter None None (Some f) self)
  /\ fst (build_filter (Some st) (Some ts) (Some f) self)
     = filter_by_custom (Some f) JNull self.
Proof.
  intros _ _ Hstatus Htags Hcontains Hfind Hdef.
  assert (Hall : forall status tags,
             fst (build_filter status tags (Some f) self)
             = Ok (predicate_for (dict_get def "type") (filter_key f) (filter_value f))).
  { intros status tags. rewrite build_filter_unfold.
    destruct (filter_by_status_returns status JNull self) as (by_status & self1 & E1).
    { rewrite Hstatus. reflexivity. }
    pose proof (filter_by_status_data status JNull self) as Hdata.
    rewrite E1 in Hdata |- *. simpl in Hdata.
    destruct (filter_by_tags_returns tags by_status self1) as (by_tags & self2 & E2).
    { rewrite (scan_tags_data self1 self Hdata), Htags. reflexivity. }
    rewrite E2. simpl. apply filter_by_custom_resolved; assumption. }
  split; [apply Hall|]. split.
  - rewrite !Hall. reflexivity.
  - rewrite Hall. symmetry. apply filter_by_custom_resolved; assumption.
Qed.

Lemma custom_filter_overwrites_witness :
  let props := [("Name", JObj [("id", JStr "title"); ("type", JStr "title")]);
                ("Status", JObj [("id", JStr "s"); ("type", JStr "status")]);
                ("Tags", JObj [("id", JStr "t"); ("type", JStr "multi_select")]);
                ("Priority", JObj [("id", JStr "p"); ("type", JStr "select")])] in
  let self := new_schema "db" (JObj [("properties", JObj props)]) in
  scan_status self = Ok (Some "Status")
  /\ scan_tags self = Ok ["Tags"]
  /\ contains_char "=" "priority = high" = true
  /\ find_property_by_name (filter_key "priority = high") self
     = Ok (Some (JObj [("id", JStr "p"); ("type", JStr "select")]))
  /\ fst (build_filter (Some "A") (Some "b") (Some "priority = high") self)
     = Ok (JObj [("property", JStr "priority"); ("select", JObj [("equals", JStr "high")])]).
Proof.
  intros props self. repeat (split; [reflexivity|]).
  apply (custom_filter_overwrites "A" "b" "priority = high" self "Status" "Tags" []
           [("id", JStr "p"); ("type", JStr "select")]);
    try reflexivity; discriminate.
Defined.

(** ** The schema cache *)
Section cache.

Variable service : Type.
Variable get_database : string -> service -> result json * service.

#[local] Abbreviation resolve := (get_database_schema service get_database).

(** A resolution of a cached identifier gives the cached object and changes
    nothing. *)
Lemma resolve_hit id a (w : world service) :
  cache_get service id w = Some a -> resolve id w = (Ok a, w).
Proof. intros H. unfold get_database_schema. rewrite H. reflexivity. Qed.

(** A resolution of an identifier that is not cached sends one fetch; when
    the fetch succeeds, a new object is made from the answer and cached. *)
Lemma resolve_miss id (w : world service) :
  cache_get service id w = None ->
  match get_database id (remote service w) with
  | (Ok data, s') =>
      resolve id w
      = (Ok (length (heap service w)),
         mkWorld service (heap service w ++ [new_schema id data])
           (<[id := length (heap service w)]> (_schemas service w)) s'
           (requests service w ++ [GetDatabase id]))
  | (Raise e, s') =>
      resolve id w
      = (Raise e,
         mkWorld service (heap service w) (_schemas service w) s'
           (requests service w ++ [GetDatabase id]))
  end.
Proof.
  intros H. unfold get_database_schema. rewrite H.
  unfold mbind, prog_bind, client_get_database.
  destruct (get_database id (remote service w)) as [[data|e] s']; reflexivity.
Qed.

Lemma fetches_app id (w : world service) h c s r :
  fetches id (mkWorld service h c s (requests service w ++ [r]))
  = fetches id w + (if is_fetch_of id r then 1 else 0).
Proof.
  unfold fetches. simpl. rewrite List.filter_app, length_app. simpl.
  destruct (is_fetch_of id r); reflexivity.
Qed.

(** Once an identifier is cached, no resolution changes its entry or
    fetches it again, and each resolution of it gives the cached object. *)
Lemma resolve_each_cached id a ids : forall w : world service,
  cache_get service id w = Some a ->
  cache_get service id (snd (resolve_each get_database ids w)) = Some a
  /\ fetches id (snd (resolve_each get_database ids w)) = fetches id w
  /\ (forall i, ids !! i = Some id ->
        fst (resolve_each get_database ids w) !! i = Some (Ok a)).
Proof.
  induction ids as [|id' ids IH]; intros w Hcached.
  - simpl. repeat split; [exact Hcached|]. intros i Hi. destruct i; discriminate.
  - cbn [resolve_each].
    destruct (resolve id' w) as [r w1] eqn:Estep.
    assert (Hstep : cache_get service id w1 = Some a
                    /\ fetches id w1 = fetches id w
                    /\ (id' = id -> r = Ok a)).
    { destruct (cache_get service id' w) as [a'|] eqn:Ecache.
      - rewrite (resolve_hit id' a' w Ecache) in Estep. injection Estep as <- <-.
        repeat split; [exact Hcached|]. intros ->. congruence.
      - assert (Hne : id' <> id) by (intros ->; congruence).
        pose proof (resolve_miss id' w Ecache) as Hmiss.
        destruct (get_database id' (remote service w)) as [[data|e] s'];
          rewrite Hmiss in Estep; injection Estep as <- <-.
        + split; [|split; [|contradiction]].
          * unfold cache_get in *. simpl. rewrite lookup_insert_ne; [exact Hcached | exact Hne].
          * rewrite fetches_app. simpl.
            destruct (String.eqb id' id) eqn:E; [apply String.eqb_eq in E; contradiction | lia].
        + split; [exact Hcached|]. split; [|contradiction].
          rewrite fetches_app. simpl.
          destruct (String.eqb id' id) eqn:E; [apply String.eqb_eq in E; contradiction | lia]. }
    destruct Hstep as (Hcached1 & Hfetches1 & Hr).
    specialize (IH w1 Hcached1) as (IHc & IHf & IHr).
    destruct (resolve_each get_database ids w1) as [rs w2]. simpl in *.
    split; [exact IHc|]. split; [lia|].
    intros [|i] Hi; simpl in *.
    + injection Hi as ->. rewrite Hr; reflexivity.
    + apply IHr. exact Hi.
Qed.

(** The first successful resolution of an identifier that is not cached
    sends the one fetch of the run for it. *)
Lemma resolve_each_uncached id ids : forall w : world service,
  cache_get service id w = None ->
  id ∈ ids ->
  (forall i r, ids !! i = Some id ->
     fst (resolve_each get_database ids w) !! i = Some r -> is_ok r = true) ->
  fetches id (snd (resolve_each get_database ids w)) = fetches id w + 1
  /\ exists a,
       cache_get service id (snd (resolve_each get_database ids w)) = Some a
       /\ (forall i, ids !! i = Some id ->
             fst (resolve_each get_database ids w) !! i = Some (Ok a)).
Proof.
  induction ids as [|id' ids IH]; intros w Hcache Hin Hok.
  - inversion Hin.
  - cbn [resolve_each] in *.
    destruct (resolve id' w) as [r w1] eqn:Estep.
    destruct (decide (id' = id)) as [->|Hne].
    + pose proof (resolve_miss id w Hcache) as Hmiss.
      destruct (get_database id (remote service w)) as [[data|e] s'];
        rewrite Hmiss in Estep; injection Estep as <- <-.
      * set (w1 := mkWorld service _ _ _ _).
        assert (Hcached1 : cache_get service id w1 = Some (length (heap service w))).
        { unfold cache_get, w1. simpl. apply lookup_insert_eq. }
        pose proof (resolve_each_cached id _ ids w1 Hcached1) as (Hc & Hf & Hr).
        destruct (resolve_each get_database ids w1) as [rs w2]. simpl in *.
        split.
        -- rewrite Hf. unfold w1. rewrite fetches_app. simpl. rewrite String.eqb_refl. lia.
        -- exists (length (heap service w)). split; [exact Hc|].
           intros [|i] Hi; simpl; [reflexivity | apply Hr; exact Hi].
      * exfalso. destruct (resolve_each get_database ids _) as [rs w2]. simpl in Hok.
        specialize (Hok 0 (Raise e) eq_refl eq_refl). discriminate.
    + assert (Hin' : id ∈ ids).
      { apply elem_of_cons in Hin as [->|Hin]; [contradiction | exact Hin]. }
      assert (Hstep : cache_get service id w1 = None /\ fetches id w1 = fetches id w).
      { destruct (cache_get service id' w) as [a'|] eqn:Ecache.
        - rewrite (resolve_hit id' a' w Ecache) in Estep. injection Estep as <- <-.
          split; [exact Hcache | reflexivity].
        - pose proof (resolve_miss id' w Ecache) as Hmiss.
          destruct (get_database id' (remote service w)) as [[data|e] s'];
            rewrite Hmiss in Estep; injection Estep as <- <-.
          + split.
            * unfold cache_get in *. simpl. rewrite lookup_insert_ne; [exact Hcache | exact Hne].
            * rewrite fetches_app. simpl.
              destruct (String.eqb id' id) eqn:E; [apply String.eqb_eq in E; contradiction | lia].
          + split; [exact Hcache|].
            rewrite fetches_app. simpl.
            destruct (String.eqb id' id) eqn:E; [apply String.eqb_eq in E; contradiction | lia]. }
      destruct Hstep as [Hcache1 Hfetches1].
      specialize (IH w1 Hcache1 Hin').
      destruct (resolve_each get_database ids w1) as [rs w2]. simpl in *.
      destruct IH as (IHf & a & IHc & IHr).
      { intros i r0 Hi Hr0. exact (Hok (S i) r0 Hi Hr0). }
      split; [lia|]. exists a. split; [exact IHc|].
      intros [|i] Hi; simpl in *; [congruence | apply IHr; exact Hi].
Qed.

(** Resolutions keep one object for each identifier. *)
Lemma resolve_one_object id (w : world service) :
  one_object_per_id w -> one_object_per_id (snd (resolve id w)).
Proof.
  intros Hinv. destruct (cache_get service id w) as [a|] eqn:Ecache.
  - rewrite (resolve_hit id a w Ecache). exact Hinv.
  - pose proof (resolve_miss id w Ecache) as Hmiss.
    destruct (get_database id (remote service w)) as [[data|e] s']; rewrite Hmiss; simpl.
    + intros a self Ha. unfold cache_get in *. simpl in *.
      destruct (decide (a < length (heap service w))) as [Hlt|Hge].
      * rewrite lookup_app_l in Ha by exact Hlt.
        specialize (Hinv a self Ha). simpl in Hinv.
        unfold cache_get in Hinv.
        rewrite lookup_insert_ne; [exact Hinv|]. intros Heq. rewrite <- Heq in Hinv. congruence.
      * rewrite lookup_app_r in Ha by lia.
        destruct (a - length (heap service w)) as [|n] eqn:En; simpl in Ha; [|destruct n; discriminate].
        injection Ha as <-. simpl.
        replace a with (length (heap service w)) by lia. apply lookup_insert_eq.
    + exact Hinv.
Qed.

Lemma resolve_each_one_object ids : forall w : world service,
  one_object_per_id w -> one_object_per_id (snd (resolve_each get_database ids w)).
Proof.
  induction ids as [|id ids IH]; intros w Hinv; [exact Hinv|].
  cbn [resolve_each].
  pose proof (resolve_one_object id w Hinv) as Hinv1.
  destruct (resolve id w) as [r w1]. simpl in Hinv1.
  specialize (IH w1 Hinv1).
  destruct (resolve_each get_database ids w1) as [rs w2]. exact IH.
Qed.

(** [clear] forgets every identifier: the next resolution of one fetches
    again. *)
Lemma resolve_after_clear id (w : world service) :
  fetches id (snd (resolve id (snd (cache_clear service w)))) = fetches id w + 1.
Proof.
  set (w0 := snd (cache_clear service w)).
  pose proof (resolve_miss id w0 (lookup_empty id)) as Hmiss.
  destruct (get_database id (remote service w0)) as [[data|e] s']; rewrite Hmiss;
    unfold fetches; simpl; rewrite List.filter_app, length_app; simpl;
    rewrite String.eqb_refl; reflexivity.
Qed.

(** C7. In a run of schema resolutions from the start of a process, an
    identifier whose resolutions succeed is fetched exactly once, however
    many times it is resolved: every resolution of it gives the same
    object, the one the cache holds, and no two objects of the process have
    the same identifier.  In any state, a resolution that follows a
    successful one gives the same object and changes nothing, so it sends
    no request. *)
Theorem schema_is_fetched_once (s : service) (ids : list string) (id : string) :
  id ∈ ids ->
  (forall i r, ids !! i = Some id ->
     fst (resolve_each get_database ids (start service s)) !! i = Some r -> is_ok r = true) ->
  let w := snd (resolve_each get_database ids (start service s)) in
  fetches id w = 1
  /\ (exists a,
        cache_get service id w = Some a
        /\ (forall i, ids !! i = Some id ->
              fst (resolve_each get_database ids (start service s)) !! i = Some (Ok a)))
  /\ (forall a b self_a self_b,
        heap service w !! a = Some self_a -> heap service w !! b = Some self_b ->
        database_id self_a = database_id self_b -> a = b)
  /\ (forall (w0 w1 : world service) a,
        get_database_schema service get_database id w0 = (Ok a, w1) ->
        get_database_schema service get_database id w1 = (Ok a, w1)).
Proof.
  intros Hin Hok w.
  destruct (resolve_each_uncached id ids (start service s)) as (Hfetches & a & Hcached & Hsame);
    [reflexivity | exact Hin | exact Hok |].
  split; [exact Hfetches|]. split; [exists a; split; assumption|]. split.
  - assert (Hinv : one_object_per_id w).
    { apply resolve_each_one_object. intros a0 self Ha. destruct a0; discriminate. }
    intros x y self_x self_y Hx Hy Heq.
    pose proof (Hinv x self_x Hx) as Hcx. pose proof (Hinv y self_y Hy) as Hcy.
    rewrite Heq in Hcx. congruence.
  - intros w0 w1 a0 Hfirst. apply resolve_hit.
    destruct (cache_get service id w0) as [a'|] eqn:Ecache.
    + rewrite (resolve_hit id a' w0 Ecache) in Hfirst. injection Hfirst as <- <-. exact Ecache.
    + pose proof (resolve_miss id w0 Ecache) as Hmiss.
      destruct (get_database id (remote service w0)) as [[data|e] s'];
        rewrite Hmiss in Hfirst; [|discriminate].
      injection Hfirst as <- <-. unfold cache_get. simpl. apply lookup_insert_eq.
Qed.

End cache.

Lemma schema_is_fetched_once_witness :
  let data := JObj [("object", JStr "database");
                    ("properties", JObj [("Status", JObj [("type", JStr "status")])])] in
  let ids := ["db"; "other"; "db"; "db"] in
  let run := resolve_each (serve_database data) ids (start nat 0) in
  "db" ∈ ids
  /\ fst run = [Ok 0; Raise (NotionAPIError "Could not find database" (Some 404%Z)); Ok 0; Ok 0]
  /\ requests nat (snd run) = [GetDatabase "db"; GetDatabase "other"]
  /\ fetches "db" (snd run) = 1.
Proof.
  intros data ids run.
  assert (Hin : "db" ∈ ids) by (apply list_elem_of_here).
  split; [exact Hin|]. split; [reflexivity|]. split; [reflexivity|].
  apply (schema_is_fetched_once nat (serve_database data) 0 ids "db" Hin).
  intros i r Hi Hr.
  destruct i as [|[|[|[|i]]]]; vm_compute in Hi, Hr; try discriminate;
    injection Hr as <-; reflexivity.
Defined.

(** ** [update_status] *)
Section update.

Variable service : Type.
Variable get_database : string -> service -> result json * service.
Variable update_page : string -> json -> service -> result json * service.

(** A resolution sends the fetch of its identifier, or nothing. *)
Lemma resolve_requests id (w : world service) :
  let w1 := snd (get_database_schema service get_database id w) in
  requests service w1 = requests service w
  \/ requests service w1 = (requests service w ++ [GetDatabase id])%list.
Proof.
  destruct (cache_get service id w) as [a|] eqn:Ecache.
  - left. rewrite (resolve_hit service get_database id a w Ecache). reflexivity.
  - right. pose proof (resolve_miss service get_database id w Ecache) as Hmiss.
    destruct (get_database id (remote service w)) as [[data|e] s']; rewrite Hmiss; reflexivity.
Qed.

(** C3, as the code has it.  On a database whose schema has a status
    property, under a name that is not empty, which declares at least one
    option with a name, [update_status] with a status that is not among the
    declared names answers with the error that carries the status given and
    all the declared names, and sends no update: after the resolution of
    the schema no request goes out, and the service is left as it was. *)
Theorem invalid_status_is_rejected (w w1 : world service) database item_id status
    a self name options :
  get_database_schema service get_database database w = (Ok a, w1) ->
  heap service w1 !! a = Some self ->
  consistent self = true ->
  scan_status self = Ok (Some name) ->
  name <> "" ->
  declared_options "status" name self = Ok options ->
  options <> [] ->
  str_in status options = false ->
  exists w2,
    update_status service get_database update_page database item_id status w
    = (Ok (output_json false JNull
             (JObj [("message", JStr ("Invalid status '" ++ status ++ "'"));
                    ("available_options", JArr options)])), w2)
    /\ requests service w2 = requests service w1
    /\ remote service w2 = remote service w1
    /\ List.filter is_update (requests service w2) = List.filter is_update (requests service w).
Proof.
  intros Hresolve Hself Hcons Hscan Hname Hoptions Hsome Hnot_in.
  unfold update_status, try_except, mbind, prog_bind. rewrite Hresolve.
  unfold on_object at 1.
  rewrite (list_lookup_total_correct _ _ _ Hself).
  pose proof (get_status_property_name_scan self Hcons) as Hfst.
  pose proof (get_status_property_name_data self) as Hdata.
  pose proof (get_status_property_name_consistent self Hcons) as Hcons1.
  destruct (get_status_property_name self) as [r self1]. simpl in Hfst, Hdata, Hcons1.
  rewrite Hfst, Hscan.
  assert (Hname_truthy : name_truthy (Some name) = true).
  { simpl. apply String.eqb_neq in Hname. rewrite Hname. reflexivity. }
  rewrite Hname_truthy. unfold on_object. simpl.
  rewrite list_lookup_total_insert_eq by (apply lookup_lt_Some in Hself; exact Hself).
  rewrite get_status_options_unfold.
  pose proof (get_status_property_name_scan self1 Hcons1) as Hfst2.
  pose proof (get_status_property_name_data self1) as Hdata2.
  destruct (get_status_property_name self1) as [r2 self2]. simpl in Hfst2, Hdata2.
  rewrite Hfst2, (scan_status_data self1 self Hdata), Hscan.
  simpl in Hname_truthy. rewrite Hname_truthy.
  rewrite (declared_options_data "status" name self2 self) by congruence.
  rewrite Hoptions, Hnot_in.
  destruct options as [|o options]; [contradiction|]. simpl.
  eexists. split; [reflexivity|]. simpl. split; [reflexivity|]. split; [reflexivity|].
  pose proof (resolve_requests database w) as Hreq. rewrite Hresolve in Hreq. simpl in Hreq.
  destruct Hreq as [-> | ->]; [reflexivity|].
  rewrite List.filter_app. simpl. apply app_nil_r.
Qed.

End update.

Lemma invalid_status_is_rejected_witness :
  let option name := JObj [("id", JStr "o"); ("name", JStr name); ("color", JStr "gray")] in
  let status_def :=
    JObj [("id", JStr "s"); ("type", JStr "status");
          ("status", JObj [("options", JArr [option "Todo"; option "Done"])])] in
  let data := JObj [("object", JStr "database");
                    ("properties", JObj [("Name", JObj [("type", JStr "title")]);
                                         ("Status", status_def)])] in
  exists w2,
    update_status nat (serve_database data) serve_update "db" "page" "Nope" (start nat 0)
    = (Ok (output_json false JNull
             (JObj [("message", JStr "Invalid status 'Nope'");
                    ("available_options", JArr [JStr "Todo"; JStr "Done"])])), w2)
    /\ requests nat w2 = [GetDatabase "db"]
    /\ remote nat w2 = 1
    /\ List.filter is_update (requests nat w2) = [].
Proof.
  intros option status_def data.
  exact (invalid_status_is_rejected nat (serve_database data) serve_update
           (start nat 0)
           (snd (get_database_schema nat (serve_database data) "db" (start nat 0)))
           "db" "page" "Nope" 0 (new_schema "db" data) "Status" [JStr "Todo"; JStr "Done"]
           eq_refl eq_refl eq_refl eq_refl ltac:(discriminate) eq_refl ltac:(discriminate)
           eq_refl).
Defined.

(** C3, as the claim words it, fails where the status property declares no
    option: [if status_options and ...] skips the check for an empty list,
    so any status is sent to the service. *)
Lemma status_unchecked_without_options :
  let data :=
    JObj [("object", JStr "database");
          ("properties",
           JObj [("Name", JObj [("type", JStr "title")]);
                 ("Status", JObj [("id", JStr "s"); ("type", JStr "status");
                                  ("status", JObj [("options", JArr [])])])])] in
  let run := update_status nat (serve_database data) serve_update "db" "page" "Nope" (start nat 0) in
  scan_status (new_schema "db" data) = Ok (Some "Status")
  /\ fst (get_status_options (new_schema "db" data)) = Ok []
  /\ fst run
     = Ok (output_json true
             (JObj [("id", JStr "page"); ("status", JStr "Nope"); ("property", JStr "Status")])
             JNull)
  /\ requests nat (snd run)
     = [GetDatabase "db";
        UpdatePage "page" (JObj [("Status", JObj [("status", JObj [("name", JStr "Nope")])])])].
Proof. repeat split. Qed.

(** * Further properties of the code *)

Import Commands.

(** ** More of the normalizer *)
Section normalizer_more.

Variable isoformat : string -> option string.

Local Arguments py_eq_str : simpl never.
Local Arguments dict_get : simpl never.
Local Arguments dict_get_default : simpl never.

(** X1. A payload whose type tag has no arm, which includes a payload
    without a type, is returned as it is, whatever else it holds. *)
Theorem unrecognized_type_is_returned_unchanged m :
  recognized (dict_get m "type") = false ->
  transform_property_value isoformat (JObj m) = Ok (JObj m).
Proof.
  unfold recognized, recognized_types. cbn [existsb]. intros H.
  repeat (apply orb_false_elim in H as [? H]).
  simpl.
  repeat match goal with
  | E : py_eq_str _ _ = false |- _ => rewrite E; clear E
  end.
  reflexivity.
Qed.

Lemma append_empty (t : string) : t ++ "" = t.
Proof. induction t as [|c t IH]; [reflexivity | exact (f_equal (String c) IH)]. Qed.

Lemma concat_nothing (texts : list string) :
  fold_right String.append "" texts = String.concat "" texts.
Proof.
  induction texts as [|t texts IH]; [reflexivity|].
  cbn [fold_right]. rewrite IH.
  destruct texts as [|t' texts]; [apply append_empty | reflexivity].
Qed.

Lemma runs_give_their_texts runs texts :
  Forall2 (fun run t => dict_get_default run "plain_text" (JStr "") = JStr t) runs texts ->
  get_default_each "plain_text" (JStr "") (map JObj runs) = Ok (map JStr texts).
Proof.
  unfold get_default_each. induction 1 as [|run t runs texts Hrun _ IH]; [reflexivity|].
  simpl. rewrite Hrun, IH. reflexivity.
Qed.

(** X2. A title or a rich text is the texts of its runs put end to end, in
    order, with nothing between them; a run without [plain_text] adds
    nothing. *)
Theorem text_arms_concatenate_runs ty m runs texts :
  ty = "title" \/ ty = "rich_text" ->
  dict_get m "type" = JStr ty ->
  dict_lookup m ty = Some (JArr (map JObj runs)) ->
  Forall2 (fun run t => dict_get_default run "plain_text" (JStr "") = JStr t) runs texts ->
  transform_property_value isoformat (JObj m) = Ok (JStr (String.concat "" texts)).
Proof.
  intros Hty Htype Hvalue Hruns.
  assert (Harm : transform_property_value isoformat (JObj m)
                 = plain_text (dict_get_default m ty (JArr []))).
  { simpl. rewrite Htype. destruct Hty as [-> | ->]; reflexivity. }
  rewrite Harm. unfold dict_get_default. rewrite Hvalue. simpl.
  unfold plain_text. simpl. rewrite (runs_give_their_texts runs texts Hruns). simpl.
  unfold py_join. rewrite join_from_strs, concat_nothing. reflexivity.
Qed.

(** X3. For the arms that iterate over their value, a value that is missing
    is an empty one, but a value that is [None] is not: the arm raises
    [TypeError], because the default of [get] stands in for a missing key
    only. *)
Theorem missing_value_is_empty_but_none_raises ty empty m :
  iterating_arm ty empty ->
  dict_get m "type" = JStr ty ->
  (dict_lookup m ty = None -> transform_property_value isoformat (JObj m) = Ok empty)
  /\ (dict_lookup m ty = Some (JArr []) ->
      transform_property_value isoformat (JObj m) = Ok empty)
  /\ (dict_lookup m ty = Some JNull ->
      transform_property_value isoformat (JObj m)
      = Raise (TypeError "'NoneType' object is not iterable")).
Proof.
  intros Harm Htype.
  assert (Hshape : forall value,
             dict_get_default m ty (JArr []) = value ->
             transform_property_value isoformat (JObj m)
             = match empty with
               | JStr _ => plain_text value
               | _ => collect (match ty with
                               | "relation" | "people" => "id"
                               | _ => "name"
                               end) value
               end).
  { intros value <-. simpl. rewrite Htype. destruct Harm; reflexivity. }
  unfold dict_get_default in Hshape.
  repeat split; intros Hvalue; rewrite (Hshape _ eq_refl), Hvalue;
    destruct Harm; reflexivity.
Qed.

End normalizer_more.

Lemma unrecognized_type_is_returned_unchanged_witness :
  let m := [("id", JStr "r"); ("type", JStr "rollup");
            ("rollup", JObj [("type", JStr "number"); ("number", JNum 3)])] in
  let untyped := [("number", JNum 3)] in
  transform_property_value isoformat_date (JObj m) = Ok (JObj m)
  /\ transform_property_value isoformat_date (JObj untyped) = Ok (JObj untyped).
Proof.
  split; apply (unrecognized_type_is_returned_unchanged isoformat_date); reflexivity.
Defined.

Lemma text_arms_concatenate_runs_witness :
  let runs := [[("type", JStr "text"); ("plain_text", JStr "Fix ")];
               [("type", JStr "mention")];
               [("plain_text", JStr "login")]] in
  let m := [("id", JStr "title"); ("type", JStr "title"); ("title", JArr (map JObj runs))] in
  transform_property_value isoformat_date (JObj m) = Ok (JStr "Fix login").
Proof.
  intros runs m.
  apply (text_arms_concatenate_runs isoformat_date "title" m runs ["Fix "; ""; "login"]);
    [left; reflexivity | reflexivity | reflexivity |].
  repeat constructor.
Defined.

Lemma missing_value_is_empty_but_none_raises_witness :
  let missing := [("id", JStr "t"); ("type", JStr "multi_select")] in
  let none := [("id", JStr "t"); ("type", JStr "multi_select"); ("multi_select", JNull)] in
  transform_property_value isoformat_date (JObj missing) = Ok (JArr [])
  /\ transform_property_value isoformat_date (JObj none)
     = Raise (TypeError "'NoneType' object is not iterable").
Proof.
  intros missing none. split.
  - pose proof (missing_value_is_empty_but_none_raises isoformat_date "multi_select" (JArr [])
                  missing iterates_multi_select eq_refl) as (H & _ & _).
    exact (H eq_refl).
  - pose proof (missing_value_is_empty_but_none_raises isoformat_date "multi_select" (JArr [])
                  none iterates_multi_select eq_refl) as (_ & _ & H).
    exact (H eq_refl).
Defined.

Section choice_arms.

Variable isoformat : string -> option string.

Local Arguments py_eq_str : simpl never.
Local Arguments dict_get : simpl never.
Local Arguments dict_get_default : simpl never.

(** X4. A [select] or a [status] gives the name of its option.  No option
    ([None], a missing key, or an empty object) gives [None], and so does
    an option without a name; a value that is true and is not an object
    raises [AttributeError]. *)
Theorem choice_arms_give_the_option_name ty m :
  ty = "select" \/ ty = "status" ->
  dict_get m "type" = JStr ty ->
  (truthy (dict_get m ty) = false ->
   transform_property_value isoformat (JObj m) = Ok JNull)
  /\ (forall option, option <> [] -> dict_get m ty = JObj option ->
        transform_property_value isoformat (JObj m) = Ok (dict_get option "name"))
  /\ (forall value, truthy value = true -> is_dict value = false -> dict_get m ty = value ->
        transform_property_value isoformat (JObj m) = Raise (no_attribute value "get")).
Proof.
  intros Hty Htype.
  assert (Harm : transform_property_value isoformat (JObj m) = name_or_none (dict_get m ty)).
  { destruct Hty as [-> | ->]; simpl; rewrite Htype; reflexivity. }
  rewrite Harm. unfold name_or_none. repeat split.
  - intros ->. reflexivity.
  - intros option Hoption ->. destruct option; [contradiction | reflexivity].
  - intros value Htruthy Hdict ->. rewrite Htruthy.
    destruct value; try discriminate; reflexivity.
Qed.

End choice_arms.

Lemma choice_arms_give_the_option_name_witness :
  let chosen := [("type", JStr "select");
                 ("select", JObj [("id", JStr "o1"); ("name", JStr "High"); ("color", JStr "red")])] in
  let nothing := [("type", JStr "status"); ("status", JNull)] in
  let text := [("type", JStr "select"); ("select", JStr "High")] in
  transform_property_value isoformat_date (JObj chosen) = Ok (JStr "High")
  /\ transform_property_value isoformat_date (JObj nothing) = Ok JNull
  /\ transform_property_value isoformat_date (JObj text)
     = Raise (AttributeError "'str' object has no attribute 'get'").
Proof.
  intros chosen nothing text. split; [|split].
  - pose proof (choice_arms_give_the_option_name isoformat_date "select" chosen
                  (or_introl eq_refl) eq_refl) as (_ & H & _).
    apply (H [("id", JStr "o1"); ("name", JStr "High"); ("color", JStr "red")]);
      [discriminate | reflexivity].
  - pose proof (choice_arms_give_the_option_name isoformat_date "status" nothing
                  (or_intror eq_refl) eq_refl) as (H & _ & _).
    exact (H eq_refl).
  - pose proof (choice_arms_give_the_option_name isoformat_date "select" text
                  (or_introl eq_refl) eq_refl) as (_ & _ & H).
    exact (H (JStr "High") eq_refl eq_refl eq_refl).
Defined.

(** ** More of the schema model *)

(** X5. A lookup called again answers the same and changes nothing more:
    what the first call left is what every later call leaves, also when the
    call raises. *)
Theorem lookups_are_idempotent self :
  get_status_property_name (snd (get_status_property_name self))
  = (fst (get_status_property_name self), snd (get_status_property_name self))
  /\ get_tag_property_names (snd (get_tag_property_names self))
     = (fst (get_tag_property_names self), snd (get_tag_property_names self)).
Proof.
  split.
  - unfold get_status_property_name at 2 3 4.
    destruct (_status_property_name self) as [name|] eqn:Est.
    + simpl. unfold get_status_property_name. rewrite Est. reflexivity.
    + destruct (scan_status self) as [[found|]|e] eqn:Escan; simpl.
      * reflexivity.
      * unfold get_status_property_name. rewrite Est, Escan. reflexivity.
      * unfold get_status_property_name. rewrite Est, Escan. reflexivity.
  - unfold get_tag_property_names at 2 3 4.
    destruct (_tag_property_names self) as [|n names] eqn:Etags.
    + destruct (scan_tags self) as [found|e] eqn:Escan; simpl.
      * unfold get_tag_property_names. simpl.
        destruct found as [|f found]; [|reflexivity].
        rewrite (scan_tags_data (set_tag_property_names self []) self eq_refl), Escan.
        reflexivity.
      * unfold get_tag_property_names. rewrite Etags, Escan. reflexivity.
    + simpl. unfold get_tag_property_names. rewrite Etags. reflexivity.
Qed.

(** X6. A new schema object is consistent, the lookups keep it so, and on a
    consistent object each lookup answers what a scan of the properties
    answers: storing the answers changes nothing a caller can see. *)
Theorem stored_answers_are_invisible :
  (forall database_id data, consistent (new_schema database_id data) = true)
  /\ (forall self, consistent self = true ->
        fst (get_status_property_name self) = scan_status self
        /\ consistent (snd (get_status_property_name self)) = true)
  /\ (forall self, consistent self = true ->
        fst (get_tag_property_names self) = scan_tags self
        /\ consistent (snd (get_tag_property_names self)) = true)
  /\ (forall self, consistent self = true ->
        consistent (snd (get_status_options self)) = true).
Proof.
  split; [exact new_schema_consistent|]. split; [|split].
  - intros self H. split;
      [apply get_status_property_name_scan | apply get_status_property_name_consistent]; exact H.
  - intros self H. split;
      [apply get_tag_property_names_scan | apply get_tag_property_names_consistent]; exact H.
  - intros self H. rewrite get_status_options_unfold.
    pose proof (get_status_property_name_consistent self H) as H1.
    destruct (get_status_property_name self) as [[[name|]|e] self']; simpl in *; try exact H1.
    destruct (negb (String.eqb name "")); exact H1.
Qed.

Lemma stored_answers_are_invisible_witness :
  let data := JObj [("properties", JObj [("Stage", JObj [("type", JStr "status")]);
                                         ("Tags", JObj [("type", JStr "multi_select")])])] in
  let self := set_status_property_name (new_schema "db" data) "Stage" in
  consistent self = true
  /\ fst (get_status_property_name self) = scan_status self
  /\ fst (get_tag_property_names self) = scan_tags self.
Proof.
  intros data self.
  pose proof stored_answers_are_invisible as (_ & Hstatus & Htags & _).
  split; [reflexivity|]. split.
  - exact (proj1 (Hstatus self eq_refl)).
  - exact (proj1 (Htags self eq_refl)).
Defined.

Lemma properties_of_data database_id fields props :
  dict_lookup fields "properties" = Some props ->
  properties (new_schema database_id (JObj fields)) = Ok props.
Proof.
  intros H. unfold properties. simpl. unfold dict_get_default. rewrite H. reflexivity.
Qed.

(** X7. On a new schema whose property definitions are objects,
    [get_tag_property_names] gives the names of all the [multi_select]
    properties in the schema's order, the empty list when there is none,
    and [get_status_property_name] gives the first [status] property, or
    [None]. *)
Theorem lookups_list_the_typed_properties database_id fields defs :
  dict_lookup fields "properties" = Some (JObj (as_items defs)) ->
  let self := new_schema database_id (JObj fields) in
  fst (get_tag_property_names self) = Ok (typed "multi_select" defs)
  /\ fst (get_status_property_name self) = Ok (head (typed "status" defs)).
Proof.
  intros Hprops self.
  pose proof (properties_of_data database_id fields _ Hprops) as Hp.
  split.
  - rewrite (get_tag_property_names_scan self eq_refl).
    unfold scan_tags, property_items. fold self in Hp. rewrite Hp. simpl.
    apply all_of_type_dicts.
  - rewrite (get_status_property_name_scan self eq_refl).
    unfold scan_status, property_items. fold self in Hp. rewrite Hp. simpl.
    apply first_of_type_dicts.
Qed.

Lemma lookups_list_the_typed_properties_witness :
  let defs := [("Name", [("type", JStr "title")]);
               ("Labels", [("type", JStr "multi_select")]);
               ("Stage", [("type", JStr "status")]);
               ("Tags", [("type", JStr "multi_select")]);
               ("State", [("type", JStr "status")])] in
  let fields := [("object", JStr "database"); ("properties", JObj (as_items defs))] in
  let self := new_schema "db" (JObj fields) in
  fst (get_tag_property_names self) = Ok ["Labels"; "Tags"]
  /\ fst (get_status_property_name self) = Ok (Some "Stage").
Proof.
  intros defs fields self.
  exact (lookups_list_the_typed_properties "db" fields defs eq_refl).
Defined.

Lemma first_of_type_app ty before rest :
  first_of_type ty (as_items before ++ rest)
  = match typed ty before with
    | name :: _ => Ok (Some name)
    | [] => first_of_type ty rest
    end.
Proof.
  unfold typed. induction before as [|[name def] before IH]; [reflexivity|].
  simpl. destruct (py_eq_str (dict_get def "type") ty); [reflexivity | exact IH].
Qed.

Lemma all_of_type_needs_objects ty items :
  Exists (fun kv => is_dict (snd kv) = false) items ->
  is_ok (all_of_type ty items) = false.
Proof.
  induction 1 as [[name def] items Hdef | [name def] items _ IH]; simpl.
  - simpl in Hdef. destruct def; try discriminate; reflexivity.
  - destruct (py_get def "type"); [|reflexivity]. simpl.
    destruct (all_of_type ty items); [discriminate | reflexivity].
Qed.

(** X8. The scan for the status property stops at the first property of
    type [status]: what follows it is never looked at, so a definition
    there that is not even an object does no harm.  The scan for the tag
    properties reads every definition: one that is not an object, anywhere,
    makes it raise. *)
Theorem status_scan_stops_but_tag_scan_does_not database_id fields before name def rest :
  dict_lookup fields "properties" = Some (JObj (as_items before ++ (name, JObj def) :: rest)) ->
  typed "status" before = [] ->
  dict_get def "type" = JStr "status" ->
  let self := new_schema database_id (JObj fields) in
  fst (get_status_property_name self) = Ok (Some name)
  /\ (Exists (fun kv => is_dict (snd kv) = false) rest ->
      is_ok (fst (get_tag_property_names self)) = false).
Proof.
  intros Hprops Hbefore Hdef self.
  pose proof (properties_of_data database_id fields _ Hprops) as Hp. fold self in Hp.
  split.
  - rewrite (get_status_property_name_scan self eq_refl).
    unfold scan_status, property_items. rewrite Hp. simpl.
    rewrite first_of_type_app, Hbefore. simpl. rewrite Hdef. reflexivity.
  - intros Hrest. rewrite (get_tag_property_names_scan self eq_refl).
    unfold scan_tags, property_items. rewrite Hp. simpl.
    apply all_of_type_needs_objects.
    apply Exists_app. right. apply Exists_cons. right. exact Hrest.
Qed.

Lemma status_scan_stops_but_tag_scan_does_not_witness :
  let before := [("Name", [("type", JStr "title")])] in
  let rest := [("Broken", JNull); ("Tags", JObj [("type", JStr "multi_select")])] in
  let fields := [("properties",
                  JObj (as_items before ++ ("Stage", JObj [("type", JStr "status")]) :: rest))] in
  let self := new_schema "db" (JObj fields) in
  fst (get_status_property_name self) = Ok (Some "Stage")
  /\ is_ok (fst (get_tag_property_names self)) = false.
Proof.
  intros before rest fields self.
  pose proof (status_scan_stops_but_tag_scan_does_not "db" fields before "Stage"
                [("type", JStr "status")] rest eq_refl eq_refl eq_refl) as [Hstatus Htags].
  split; [exact Hstatus|]. apply Htags. constructor. reflexivity.
Defined.

Lemma first_named_some name_lower items def :
  first_named name_lower items = Some def ->
  exists before prop_name rest,
    items = (before ++ (prop_name, def) :: rest)%list
    /\ lower prop_name = name_lower
    /\ Forall (fun kv => lower (fst kv) <> name_lower) before.
Proof.
  induction items as [|[n d] items IH]; simpl; [discriminate|].
  destruct (String.eqb (lower n) name_lower) eqn:E.
  - intros [= <-]. apply String.eqb_eq in E.
    exists [], n, items. repeat split; [exact E | constructor].
  - intros H. destruct (IH H) as (before & prop_name & rest & -> & Hname & Hbefore).
    exists ((n, d) :: before), prop_name, rest. repeat split; [exact Hname|].
    constructor; [|exact Hbefore]. simpl. apply String.eqb_neq. exact E.
Qed.

Lemma first_named_first name_lower before prop_name def rest :
  lower prop_name = name_lower ->
  Forall (fun kv => lower (fst kv) <> name_lower) before ->
  first_named name_lower (before ++ (prop_name, def) :: rest)%list = Some def.
Proof.
  intros Hname. induction 1 as [|[n d] before Hn _ IH]; simpl.
  - rewrite Hname, String.eqb_refl. reflexivity.
  - simpl in Hn. apply String.eqb_neq in Hn. rewrite Hn. exact IH.
Qed.

(** X9. [find_property_by_name] ignores case on both sides: two names
    equal up to case find the same.  What it returns is the definition of
    the first property, in the schema's order, whose name is the given name
    up to case, and [None] when there is no such property.  So [None] is
    returned when no name matches and also when the first match has [None]
    for its definition; on a schema where no definition is [None], it is
    returned exactly when no name matches. *)
Theorem find_property_by_name_ignores_case self props :
  properties self = Ok (JObj props) ->
  (forall name other, lower name = lower other ->
     find_property_by_name name self = find_property_by_name other self)
  /\ (forall name v,
        returned <$> find_property_by_name name self = Ok v
        <-> (exists before prop_name rest,
                props = (before ++ (prop_name, v) :: rest)%list
                /\ lower prop_name = lower name
                /\ Forall (fun kv => lower (fst kv) <> lower name) before)
            \/ (v = JNull /\ Forall (fun kv => lower (fst kv) <> lower name) props))
  /\ (Forall (fun kv => snd kv <> JNull) props ->
      forall name,
        returned <$> find_property_by_name name self = Ok JNull
        <-> Forall (fun kv => lower (fst kv) <> lower name) props).
Proof.
  intros Hprops.
  assert (Hfind : forall name,
             find_property_by_name name self = Ok (first_named (lower name) props)).
  { intros name. unfold find_property_by_name, property_items. rewrite Hprops. reflexivity. }
  assert (Hvalue : forall name v,
             returned <$> find_property_by_name name self = Ok v
             <-> (exists before prop_name rest,
                     props = (before ++ (prop_name, v) :: rest)%list
                     /\ lower prop_name = lower name
                     /\ Forall (fun kv => lower (fst kv) <> lower name) before)
                 \/ (v = JNull /\ Forall (fun kv => lower (fst kv) <> lower name) props)).
  { intros name v. rewrite Hfind. simpl. split.
    - destruct (first_named (lower name) props) as [def|] eqn:Efound; simpl; intros [= <-].
      + left. apply first_named_some. exact Efound.
      + right. split; [reflexivity|]. apply first_named_none. exact Efound.
    - intros [(before & prop_name & rest & -> & Hname & Hbefore) | [-> Hnone]].
      + rewrite (first_named_first _ before prop_name v rest Hname Hbefore). reflexivity.
      + apply first_named_none in Hnone. rewrite Hnone. reflexivity. }
  split; [|split; [exact Hvalue|]].
  - intros name other Heq. rewrite !Hfind, Heq. reflexivity.
  - intros Hdefs name. rewrite Hvalue. split.
    + intros [(before & prop_name & rest & -> & _ & _) | [_ Hnone]]; [|exact Hnone].
      apply Forall_app in Hdefs as [_ Hdefs]. apply Forall_cons in Hdefs as [Hdef _].
      contradiction Hdef. reflexivity.
    + intros Hnone. right. split; [reflexivity | exact Hnone].
Qed.

Lemma find_property_by_name_ignores_case_witness :
  let props := [("Name", JObj [("type", JStr "title")]);
                ("Priority", JObj [("type", JStr "select")]);
                ("PRIORITY", JObj [("type", JStr "number")]);
                ("Owner", JNull)] in
  let self := new_schema "db" (JObj [("properties", JObj props)]) in
  let plain := new_schema "db" (JObj [("properties", JObj (take 3 props))]) in
  find_property_by_name "priority" self = find_property_by_name "PrIoRiTy" self
  /\ returned <$> find_property_by_name "priority" self = Ok (JObj [("type", JStr "select")])
  /\ returned <$> find_property_by_name "owner" self = Ok JNull
  /\ returned <$> find_property_by_name "due" self = Ok JNull
  /\ (returned <$> find_property_by_name "owner" plain = Ok JNull
      <-> Forall (fun kv => lower (fst kv) <> lower "owner") (take 3 props)).
Proof.
  intros props self plain.
  pose proof (find_property_by_name_ignores_case self props eq_refl) as (Hcase & Hvalue & _).
  pose proof (find_property_by_name_ignores_case plain (take 3 props) eq_refl)
    as (_ & _ & Hnone).
  split; [|split; [|split; [|split]]].
  - apply Hcase. reflexivity.
  - apply Hvalue. left.
    exists [("Name", JObj [("type", JStr "title")])], "Priority",
           [("PRIORITY", JObj [("type", JStr "number")]); ("Owner", JNull)].
    repeat split. constructor; [discriminate | constructor].
  - apply Hvalue. left.
    exists (take 3 props), "Owner", []. repeat split.
    repeat (constructor; [discriminate|]). constructor.
  - apply Hvalue. right. split; [reflexivity|].
    repeat (constructor; [discriminate|]). constructor.
  - apply Hnone. repeat (constructor; [discriminate|]). constructor.
Defined.

(** X10. The tag options of a property the schema does not have are the
    empty list, not an error; so are those of a property that has no
    [multi_select] entry, such as a property of another type. *)
Theorem tag_options_of_other_properties_are_empty self props tag_property :
  properties self = Ok (JObj props) ->
  (dict_lookup props tag_property = None -> get_tag_options tag_property self = Ok [])
  /\ (forall def, dict_lookup props tag_property = Some (JObj def) ->
        dict_lookup def "multi_select" = None ->
        get_tag_options tag_property self = Ok []).
Proof.
  intros Hprops. unfold get_tag_options, declared_options, option_names.
  rewrite Hprops. simpl. unfold dict_get_default. split.
  - intros ->. reflexivity.
  - intros def -> Hdef. simpl. unfold dict_get_default. rewrite Hdef. reflexivity.
Qed.

Lemma tag_options_of_other_properties_are_empty_witness :
  let props := [("Name", JObj [("type", JStr "title")]);
                ("Stage", JObj [("type", JStr "status");
                                ("status", JObj [("options", JArr [JObj [("name", JStr "Todo")]])])])] in
  let self := new_schema "db" (JObj [("properties", JObj props)]) in
  get_tag_options "Tags" self = Ok [] /\ get_tag_options "Stage" self = Ok [].
Proof.
  intros props self.
  pose proof (tag_options_of_other_properties_are_empty self props) as H.
  split.
  - exact (proj1 (H "Tags" eq_refl) eq_refl).
  - exact (proj2 (H "Stage" eq_refl) _ eq_refl eq_refl).
Defined.

(** ** More of the schema cache *)
Section cache_more.

Variable service : Type.
Variable get_database : string -> service -> result json * service.

#[local] Abbreviation resolve := (get_database_schema service get_database).

(** X11. A fetch that fails caches nothing and makes no object: the request
    has gone out and that is all, so the next resolution of the identifier
    fetches again. *)
Theorem failed_fetch_caches_nothing id (w : world service) e s' :
  cache_get service id w = None ->
  get_database id (remote service w) = (Raise e, s') ->
  fst (resolve id w) = Raise e
  /\ heap service (snd (resolve id w)) = heap service w
  /\ _schemas service (snd (resolve id w)) = _schemas service w
  /\ requests service (snd (resolve id w)) = (requests service w ++ [GetDatabase id])%list
  /\ fetches id (snd (resolve id (snd (resolve id w)))) = fetches id w + 2.
Proof.
  intros Hcache Hfetch.
  pose proof (resolve_miss service get_database id w Hcache) as Hmiss.
  rewrite Hfetch in Hmiss. rewrite Hmiss. simpl. repeat split.
  set (w1 := mkWorld service _ _ _ _).
  assert (Hcache1 : cache_get service id w1 = None) by exact Hcache.
  pose proof (resolve_miss service get_database id w1 Hcache1) as Hmiss1.
  assert (Hw1 : fetches id w1 = fetches id w + 1).
  { unfold w1. rewrite fetches_app. simpl. rewrite String.eqb_refl. reflexivity. }
  destruct (get_database id (remote service w1)) as [[data|e1] s1]; rewrite Hmiss1;
    cbn [snd]; rewrite fetches_app; simpl; rewrite String.eqb_refl; lia.
Qed.

(** A resolution adds to the objects, it never changes or removes one. *)
Lemma resolve_keeps_objects id (w : world service) a self :
  heap service w !! a = Some self ->
  heap service (snd (resolve id w)) !! a = Some self.
Proof.
  intros Ha. destruct (cache_get service id w) as [c|] eqn:Ecache.
  - rewrite (resolve_hit service get_database id c w Ecache). exact Ha.
  - pose proof (resolve_miss service get_database id w Ecache) as Hmiss.
    destruct (get_database id (remote service w)) as [[data|e] s']; rewrite Hmiss; simpl.
    + rewrite lookup_app_l; [exact Ha | apply lookup_lt_Some in Ha; exact Ha].
    + exact Ha.
Qed.

Lemma resolve_sound id (w : world service) :
  cache_sound w -> cache_sound (snd (resolve id w)).
Proof.
  intros Hsound. destruct (cache_get service id w) as [c|] eqn:Ecache.
  - rewrite (resolve_hit service get_database id c w Ecache). exact Hsound.
  - pose proof (resolve_miss service get_database id w Ecache) as Hmiss.
    destruct (get_database id (remote service w)) as [[data|e] s']; rewrite Hmiss; simpl;
      [|exact Hsound].
    intros id' a. unfold cache_get. simpl.
    destruct (decide (id = id')) as [<-|Hne].
    + rewrite lookup_insert_eq. intros [= <-].
      exists (new_schema id data). split; [|reflexivity].
      rewrite lookup_app_r by lia. rewrite Nat.sub_diag. reflexivity.
    + rewrite lookup_insert_ne by exact Hne. intros Ha.
      destruct (Hsound id' a Ha) as (self & Hself & Hid).
      exists self. split; [|exact Hid].
      rewrite lookup_app_l; [exact Hself | apply lookup_lt_Some in Hself; exact Hself].
Qed.

Lemma resolve_caches id (w : world service) a :
  fst (resolve id w) = Ok a -> cache_get service id (snd (resolve id w)) = Some a.
Proof.
  destruct (cache_get service id w) as [c|] eqn:Ecache.
  - rewrite (resolve_hit service get_database id c w Ecache). simpl. intros [= <-]. exact Ecache.
  - pose proof (resolve_miss service get_database id w Ecache) as Hmiss.
    destruct (get_database id (remote service w)) as [[data|e] s']; rewrite Hmiss; simpl;
      [|discriminate].
    intros [= <-]. unfold cache_get. simpl. apply lookup_insert_eq.
Qed.

Lemma resolve_each_sound ids : forall w : world service,
  cache_sound w ->
  cache_sound (snd (resolve_each get_database ids w))
  /\ (forall i id a,
        ids !! i = Some id ->
        fst (resolve_each get_database ids w) !! i = Some (Ok a) ->
        cache_get service id (snd (resolve_each get_database ids w)) = Some a).
Proof.
  induction ids as [|id' ids IH]; intros w Hsound.
  - split; [exact Hsound|]. intros i id a Hi. destruct i; discriminate.
  - cbn [resolve_each].
    pose proof (resolve_sound id' w Hsound) as Hsound1.
    pose proof (resolve_caches id' w) as Hcaches.
    destruct (resolve id' w) as [r w1]. simpl in Hsound1, Hcaches.
    specialize (IH w1 Hsound1) as [IHsound IHresults].
    pose proof (fun a H => proj1 (resolve_each_cached service get_database id' a ids w1 H))
      as Hkept.
    destruct (resolve_each get_database ids w1) as [rs w2]. simpl in *.
    split; [exact IHsound|].
    intros [|i] id a Hi Hr; simpl in *.
    + injection Hi as <-. injection Hr as ->. apply Hkept, Hcaches. reflexivity.
    + exact (IHresults i id a Hi Hr).
Qed.

(** X12. Through any run of resolutions from the start of a process, the
    cache leads only to objects of the identifier asked for: the address a
    resolution of an identifier returns holds, in the end, an object whose
    [database_id] is that identifier, and it is the address the cache keeps
    for it. *)
Theorem resolution_gives_the_schema_of_its_identifier (s : service) ids i id a :
  ids !! i = Some id ->
  fst (resolve_each get_database ids (start service s)) !! i = Some (Ok a) ->
  let w := snd (resolve_each get_database ids (start service s)) in
  cache_get service id w = Some a
  /\ exists self, heap service w !! a = Some self /\ database_id self = id.
Proof.
  intros Hi Hr w.
  assert (Hstart : cache_sound (start service s)).
  { intros id' a' H. unfold cache_get in H. simpl in H. rewrite lookup_empty in H.
    discriminate. }
  destruct (resolve_each_sound ids (start service s) Hstart) as [Hsound Hresults].
  pose proof (Hresults i id a Hi Hr) as Hcache.
  split; [exact Hcache|]. exact (Hsound id a Hcache).
Qed.

(** X13. [clear] forgets the objects without touching them.  The next
    resolution of an identifier resolved before fetches again and, when the
    fetch succeeds, makes a second object for the identifier beside the
    first. *)
Theorem clear_then_resolve_makes_a_second_object id (w : world service) a self data s' :
  cache_get service id w = Some a ->
  heap service w !! a = Some self ->
  get_database id (remote service w) = (Ok data, s') ->
  let w1 := snd (resolve id (snd (cache_clear service w))) in
  fst (resolve id (snd (cache_clear service w))) = Ok (length (heap service w))
  /\ fetches id w1 = fetches id w + 1
  /\ heap service w1 !! a = Some self
  /\ heap service w1 !! length (heap service w) = Some (new_schema id data)
  /\ a <> length (heap service w).
Proof.
  intros Hcache Hself Hfetch w1.
  set (w0 := snd (cache_clear service w)) in *.
  pose proof (resolve_miss service get_database id w0 (lookup_empty id)) as Hmiss.
  change (remote service w0) with (remote service w) in Hmiss. rewrite Hfetch in Hmiss.
  unfold w1. rewrite Hmiss. simpl.
  pose proof (lookup_lt_Some _ _ _ Hself) as Hlt.
  split; [reflexivity|]. split; [|split; [|split]].
  - unfold fetches. simpl. rewrite List.filter_app, length_app. simpl.
    rewrite String.eqb_refl. reflexivity.
  - rewrite lookup_app_l by exact Hlt. exact Hself.
  - rewrite lookup_app_r by lia. rewrite Nat.sub_diag. reflexivity.
  - lia.
Qed.

End cache_more.

Lemma failed_fetch_caches_nothing_witness :
  let w := start nat 0 in
  let e := NotionAPIError "Could not find database" (Some 404%Z) in
  fst (get_database_schema nat (serve_database JNull) "other" w) = Raise e
  /\ heap nat (snd (get_database_schema nat (serve_database JNull) "other" w)) = []
  /\ fetches "other"
       (snd (get_database_schema nat (serve_database JNull) "other"
               (snd (get_database_schema nat (serve_database JNull) "other" w)))) = 2.
Proof.
  intros w e.
  pose proof (failed_fetch_caches_nothing nat (serve_database JNull) "other" w e 1
                eq_refl eq_refl) as (Hr & Hheap & _ & _ & Hfetches).
  split; [exact Hr|]. split; [exact Hheap | exact Hfetches].
Defined.

Lemma resolution_gives_the_schema_of_its_identifier_witness :
  let data := JObj [("object", JStr "database"); ("properties", JObj [])] in
  let ids := ["db"; "other"; "db"] in
  let w := snd (resolve_each (serve_database data) ids (start nat 0)) in
  cache_get nat "db" w = Some 0
  /\ exists self, heap nat w !! 0 = Some self /\ database_id self = "db".
Proof.
  intros data ids w.
  exact (resolution_gives_the_schema_of_its_identifier nat (serve_database data) 0 ids 2 "db" 0
           eq_refl eq_refl).
Defined.

Lemma clear_then_resolve_makes_a_second_object_witness :
  let data := JObj [("object", JStr "database"); ("properties", JObj [])] in
  let w := snd (get_database_schema nat (serve_database data) "db" (start nat 0)) in
  let w1 := snd (get_database_schema nat (serve_database data) "db" (snd (cache_clear nat w))) in
  fetches "db" w1 = 2
  /\ heap nat w1 = [new_schema "db" data; new_schema "db" data].
Proof.
  intros data w w1.
  pose proof (clear_then_resolve_makes_a_second_object nat (serve_database data) "db" w 0
                (new_schema "db" data) data 2 eq_refl eq_refl eq_refl)
    as (_ & Hfetches & _ & _ & _).
  split; [exact Hfetches | reflexivity].
Defined.

(** ** The commands *)

Lemma report_error_envelope e : envelope (report_error e).
Proof.
  right. destruct e; simpl; do 2 eexists; (split; [reflexivity|]); reflexivity.
Qed.

Lemma no_status_property_envelope : envelope no_status_property.
Proof. right. do 2 eexists. split; reflexivity. Qed.

Section commands_more.

Variable isoformat : string -> option string.
Variable service : Type.
Variable get_database : string -> service -> result json * service.
Variable update_page : string -> json -> service -> result json * service.
Variable get_page : string -> service -> result json * service.
Variable query_database : string -> json -> service -> result json * service.

#[local] Abbreviation resolve := (get_database_schema service get_database).
#[local] Abbreviation update_status := (Cli.update_status service get_database update_page).
#[local] Abbreviation list_status := (Commands.list_status service get_database).
#[local] Abbreviation list_tags := (Commands.list_tags service get_database).
#[local] Abbreviation read := (Commands.read isoformat service get_page).
#[local] Abbreviation query := (Commands.query isoformat service get_database query_database).

(** A method call on an object that is there. *)
Lemma on_object_at {A} a (method : prog DatabaseSchema A) (w : world service) self :
  heap service w !! a = Some self ->
  on_object service a method w = (fst (method self), put_object w a (snd (method self))).
Proof.
  intros Hself. unfold on_object. rewrite (list_lookup_total_correct _ _ _ Hself).
  destruct (method self); reflexivity.
Qed.

Lemma put_object_at (w : world service) a self self' :
  heap service w !! a = Some self ->
  heap service (put_object w a self') !! a = Some self'.
Proof.
  intros Hself. unfold put_object. simpl.
  apply list_lookup_insert_eq. apply lookup_lt_Some in Hself. exact Hself.
Qed.

(** A method call sends nothing and leaves the cache and the service. *)
Lemma on_object_frame {A} a (method : prog DatabaseSchema A) (w : world service) :
  requests service (snd (on_object service a method w)) = requests service w
  /\ remote service (snd (on_object service a method w)) = remote service w
  /\ _schemas service (snd (on_object service a method w)) = _schemas service w.
Proof. unfold on_object. destruct (method _). repeat split. Qed.

Ltac answered :=
  do 2 eexists; split; [reflexivity|];
  first [ apply report_error_envelope
        | apply no_status_property_envelope
        | left; eexists; reflexivity
        | right; do 2 eexists; split; reflexivity ].

(** X14. Once its client is made, no command lets an exception out:
    whatever the service answers and whatever the schema or the page holds,
    the bodies of [update_status], [list_status], [list_tags], [read] and
    [query] each end with a response, and the response is an envelope, with
    [data] on success and an [error] that has a [message] otherwise. *)
Theorem commands_always_answer (w : world service) database item_id status :
  (exists response w', update_status database item_id status w = (Ok response, w')
                       /\ envelope response)
  /\ (exists response w', list_status database w = (Ok response, w') /\ envelope response)
  /\ (exists response w', list_tags database w = (Ok response, w') /\ envelope response)
  /\ (exists response w', read database item_id w = (Ok response, w') /\ envelope response)
  /\ (forall for_status tags filter limit,
        exists response w',
          query database for_status tags filter limit w = (Ok response, w')
          /\ envelope response).
Proof.
  repeat split.
  - unfold Cli.update_status, try_except, mbind, prog_bind, mret, prog_ret.
    destruct (resolve database w) as [[a|e] w1]; [|answered].
    destruct (on_object service a get_status_property_name w1) as [[[name|]|e] w2];
      [|answered|answered].
    destruct (name_truthy (Some name)); [|answered].
    destruct (on_object service a get_status_options w2) as [[options|e] w3]; [|answered].
    destruct (list_truthy options && negb (str_in status options)); [answered|].
    destruct (client_update_page service update_page item_id _ w3) as [[r|e] w4]; answered.
  - unfold Commands.list_status, try_except, mbind, prog_bind, mret, prog_ret.
    destruct (resolve database w) as [[a|e] w1]; [|answered].
    destruct (on_object service a get_status_options w1) as [[options|e] w2]; [|answered].
    destruct (list_truthy options); [|answered].
    destruct (on_object service a get_status_property_name w2) as [[name|e] w3]; answered.
  - unfold Commands.list_tags, try_except, mbind, prog_bind, mret, prog_ret.
    destruct (resolve database w) as [[a|e] w1]; [|answered].
    destruct (on_object service a get_tag_property_names w1) as [[tag_props|e] w2]; [|answered].
    destruct (list_truthy tag_props); [|answered].
    destruct (on_object service a _ w2) as [[tags|e] w3]; answered.
  - unfold Commands.read, try_except, mbind, prog_bind, mret, prog_ret, finish.
    destruct (client_get_page service get_page item_id w) as [[page|e] w1]; [|answered].
    destruct (page_view isoformat page); answered.
  - intros for_status tags filter limit.
    unfold Commands.query, try_except, mbind, prog_bind, mret, prog_ret, finish.
    destruct (resolve database w) as [[a|e] w1]; [|answered].
    destruct (on_object service a _ w1) as [[filter_obj|e] w2]; [|answered].
    destruct (client_query_database service query_database database _ _ w2)
      as [[answer|e] w3]; [|answered].
    destruct (query_data isoformat answer); answered.
Qed.

(** X15. A command whose schema resolution fails reports that failure and
    does nothing else: the response is the error of the resolution, with
    the status code when the service gave one, and the process is left as
    the resolution left it. *)
Theorem failed_resolution_is_reported (w w1 : world service) database e :
  resolve database w = (Raise e, w1) ->
  (forall item_id status, update_status database item_id status w = (Ok (report_error e), w1))
  /\ list_status database w = (Ok (report_error e), w1)
  /\ list_tags database w = (Ok (report_error e), w1)
  /\ (forall status tags filter limit,
        query database status tags filter limit w = (Ok (report_error e), w1))
  /\ (forall message code,
        e = NotionAPIError message (Some code) ->
        report_error e
        = output_json false JNull
            (JObj [("message", JStr message); ("status_code", JNum code)])).
Proof.
  intros Hresolve. repeat split.
  - intros item_id status.
    unfold Cli.update_status, try_except, mbind, prog_bind. rewrite Hresolve. reflexivity.
  - unfold Commands.list_status, try_except, mbind, prog_bind. rewrite Hresolve. reflexivity.
  - unfold Commands.list_tags, try_except, mbind, prog_bind. rewrite Hresolve. reflexivity.
  - intros status tags filter limit.
    unfold Commands.query, try_except, mbind, prog_bind. rewrite Hresolve. reflexivity.
  - intros message code ->. reflexivity.
Qed.

(** What a command sends after another. *)
Lemma sent_by_trans (w w1 w2 : world service) sent sent' :
  sent_by w w1 sent -> sent_by w1 w2 sent' -> sent_by w w2 (sent ++ sent')%list.
Proof. unfold sent_by. intros H1 H2. rewrite H2, H1, app_assoc. reflexivity. Qed.

Lemma sent_by_nothing (w w' : world service) :
  requests service w' = requests service w -> sent_by w w' [].
Proof. unfold sent_by. intros ->. rewrite app_nil_r. reflexivity. Qed.

Lemma resolve_sends id (w : world service) :
  sent_by w (snd (resolve id w)) [] \/ sent_by w (snd (resolve id w)) [GetDatabase id].
Proof.
  destruct (resolve_requests service get_database id w) as [H|H].
  - left. apply sent_by_nothing. exact H.
  - right. exact H.
Qed.

Lemma on_object_sends {A} a (method : prog DatabaseSchema A) (w : world service) :
  sent_by w (snd (on_object service a method w)) [].
Proof. apply sent_by_nothing. apply on_object_frame. Qed.

Lemma client_update_page_requests page_id props (w : world service) :
  requests service (snd (client_update_page service update_page page_id props w))
  = (requests service w ++ [UpdatePage page_id props])%list.
Proof. unfold client_update_page. destruct (update_page _ _ _). reflexivity. Qed.

Lemma client_get_page_requests page_id (w : world service) :
  requests service (snd (client_get_page service get_page page_id w)) = requests service w.
Proof. unfold client_get_page. destruct (get_page _ _). reflexivity. Qed.

Lemma client_query_database_requests id filter_obj page_size (w : world service) :
  requests service
    (snd (client_query_database service query_database id filter_obj page_size w))
  = requests service w.
Proof. unfold client_query_database. destruct (query_database _ _ _). reflexivity. Qed.

(** The requests of the states passed through, put together. *)
Ltac requests_so_far :=
  unfold sent_by in *; simpl in *;
  repeat match goal with
  | H : requests service ?w' = _ |- context [requests service ?w'] => rewrite H
  end;
  rewrite <- ?app_assoc, ?app_nil_r.

Ltac sends_one_of database item_id :=
  first
    [ exists []; split; [requests_so_far; reflexivity | auto]
    | exists [GetDatabase database]; split; [requests_so_far; reflexivity | auto]
    | eexists [UpdatePage item_id _]; split; [requests_so_far; reflexivity | eauto 6]
    | eexists [GetDatabase database; UpdatePage item_id _];
      split; [requests_so_far; reflexivity | eauto 6] ].

(** X16. [update_status] sends at most one schema fetch and after it at
    most one update, which is for the item given; [list_status],
    [list_tags], [read] and [query] send no update: at most the schema
    fetch. *)
Theorem commands_send_little (w : world service) database item_id status :
  (exists sent,
      sent_by w (snd (update_status database item_id status w)) sent
      /\ (sent = [] \/ sent = [GetDatabase database]
          \/ (exists props, sent = [UpdatePage item_id props])
          \/ (exists props, sent = [GetDatabase database; UpdatePage item_id props])))
  /\ (forall w',
        w' = snd (list_status database w) \/ w' = snd (list_tags database w)
        \/ w' = snd (read database item_id w)
        \/ (exists for_status tags filter limit,
              w' = snd (query database for_status tags filter limit w)) ->
        sent_by w w' [] \/ sent_by w w' [GetDatabase database]).
Proof.
  pose proof (resolve_requests service get_database database w) as Hresolve.
  split.
  - unfold Cli.update_status, try_except, mbind, prog_bind, mret, prog_ret.
    destruct (resolve database w) as [[a|e] w1]; simpl in Hresolve.
    2: destruct Hresolve as [H|H]; sends_one_of database item_id.
    pose proof (proj1 (on_object_frame a get_status_property_name w1)) as H2.
    destruct (on_object service a get_status_property_name w1) as [[[name|]|e] w2];
      simpl in H2.
    2,3: destruct Hresolve as [H|H]; sends_one_of database item_id.
    destruct (name_truthy (Some name)).
    2: destruct Hresolve as [H|H]; sends_one_of database item_id.
    pose proof (proj1 (on_object_frame a get_status_options w2)) as H3.
    destruct (on_object service a get_status_options w2) as [[options|e] w3]; simpl in H3.
    2: destruct Hresolve as [H|H]; sends_one_of database item_id.
    destruct (list_truthy options && negb (str_in status options)).
    { destruct Hresolve as [H|H]; sends_one_of database item_id. }
    match goal with
    | |- context [client_update_page service update_page item_id ?props w3] =>
        pose proof (client_update_page_requests item_id props w3) as H4;
        destruct (client_update_page service update_page item_id props w3) as [[r|e] w4]
    end; simpl in H4;
      destruct Hresolve as [H|H]; sends_one_of database item_id.
  - intros w' [-> | [-> | [-> | (for_status & tags & filter & limit & ->)]]].
    + unfold Commands.list_status, try_except, mbind, prog_bind, mret, prog_ret.
      destruct (resolve database w) as [[a|e] w1]; simpl in Hresolve.
      2: { destruct Hresolve as [H|H]; [left|right]; requests_so_far; reflexivity. }
      pose proof (proj1 (on_object_frame a get_status_options w1)) as H2.
      destruct (on_object service a get_status_options w1) as [[options|e] w2]; simpl in H2.
      2: { destruct Hresolve as [H|H]; [left|right]; requests_so_far; reflexivity. }
      destruct (list_truthy options).
      2: { destruct Hresolve as [H|H]; [left|right]; requests_so_far; reflexivity. }
      pose proof (proj1 (on_object_frame a get_status_property_name w2)) as H3.
      destruct (on_object service a get_status_property_name w2) as [[name|e] w3];
        simpl in H3;
        destruct Hresolve as [H|H]; [left|right|left|right]; requests_so_far; reflexivity.
    + unfold Commands.list_tags, try_except, mbind, prog_bind, mret, prog_ret.
      destruct (resolve database w) as [[a|e] w1]; simpl in Hresolve.
      2: { destruct Hresolve as [H|H]; [left|right]; requests_so_far; reflexivity. }
      pose proof (proj1 (on_object_frame a get_tag_property_names w1)) as H2.
      destruct (on_object service a get_tag_property_names w1) as [[tag_props|e] w2];
        simpl in H2.
      2: { destruct Hresolve as [H|H]; [left|right]; requests_so_far; reflexivity. }
      destruct (list_truthy tag_props).
      2: { destruct Hresolve as [H|H]; [left|right]; requests_so_far; reflexivity. }
      match goal with
      | |- context [on_object service a ?m w2] =>
          pose proof (proj1 (on_object_frame a m w2)) as H3;
          destruct (on_object service a m w2) as [[tags|e] w3]
      end; simpl in H3;
        destruct Hresolve as [H|H]; [left|right|left|right]; requests_so_far; reflexivity.
    + left. unfold Commands.read, try_except, mbind, prog_bind, mret, prog_ret, finish.
      pose proof (client_get_page_requests item_id w) as H1.
      destruct (client_get_page service get_page item_id w) as [[page|e] w1]; simpl in H1.
      * destruct (page_view isoformat page); requests_so_far; reflexivity.
      * requests_so_far; reflexivity.
    + unfold Commands.query, try_except, mbind, prog_bind, mret, prog_ret, finish.
      destruct (resolve database w) as [[a|e] w1]; simpl in Hresolve.
      2: { destruct Hresolve as [H|H]; [left|right]; requests_so_far; reflexivity. }
      match goal with
      | |- context [on_object service a ?m w1] =>
          pose proof (proj1 (on_object_frame a m w1)) as H2;
          destruct (on_object service a m w1) as [[filter_obj|e] w2]
      end; simpl in H2.
      2: { destruct Hresolve as [H|H]; [left|right]; requests_so_far; reflexivity. }
      match goal with
      | |- context [client_query_database service query_database database ?f ?p w2] =>
          pose proof (client_query_database_requests database f p w2) as H3;
          destruct (client_query_database service query_database database f p w2)
            as [[answer|e] w3]
      end; simpl in H3.
      * destruct (query_data isoformat answer);
          destruct Hresolve as [H|H]; [left|right|left|right]; requests_so_far; reflexivity.
      * destruct Hresolve as [H|H]; [left|right]; requests_so_far; reflexivity.
Qed.

Lemma get_status_options_data self :
  schema_data (snd (get_status_options self)) = schema_data self.
Proof.
  rewrite get_status_options_unfold.
  pose proof (get_status_property_name_data self) as H.
  destruct (get_status_property_name self) as [[[name|]|e] self']; simpl in *; try exact H.
  destruct (negb (String.eqb name "")); exact H.
Qed.

(** On a consistent object, the status options are the named options the
    status property declares, or none when there is no such property. *)
Lemma get_status_options_of_consistent self :
  consistent self = true ->
  fst (get_status_options self)
  = match scan_status self with
    | Ok (Some name) =>
        if negb (String.eqb name "") then declared_options "status" name self else Ok []
    | Ok None => Ok []
    | Raise e => Raise e
    end.
Proof.
  intros Hcons. rewrite get_status_options_unfold.
  pose proof (get_status_property_name_scan self Hcons) as Hfst.
  pose proof (get_status_property_name_data self) as Hdata.
  destruct (get_status_property_name self) as [r self']. simpl in Hfst, Hdata.
  rewrite Hfst. destruct (scan_status self) as [[name|]|e]; try reflexivity.
  destruct (negb (String.eqb name "")); [|reflexivity].
  simpl. apply declared_options_data. exact Hdata.
Qed.

(** The two lookups [update_status] makes on the schema it resolved. *)
Lemma update_status_lookups (w1 : world service) a self :
  heap service w1 !! a = Some self ->
  consistent self = true ->
  exists self1 self2,
    on_object service a get_status_property_name w1 = (scan_status self, put_object w1 a self1)
    /\ on_object service a get_status_options (put_object w1 a self1)
       = (fst (get_status_options self), put_object (put_object w1 a self1) a self2).
Proof.
  intros Hself Hcons.
  exists (snd (get_status_property_name self)),
         (snd (get_status_options (snd (get_status_property_name self)))).
  split.
  - rewrite (on_object_at a _ w1 self Hself).
    rewrite (get_status_property_name_scan self Hcons). reflexivity.
  - rewrite (on_object_at a _ _ _ (put_object_at w1 a self _ Hself)).
    f_equal.
    rewrite (get_status_options_of_consistent _ (get_status_property_name_consistent self Hcons)).
    rewrite (get_status_options_of_consistent self Hcons).
    rewrite (scan_status_data _ self (get_status_property_name_data self)).
    destruct (scan_status self) as [[name|]|e]; try reflexivity.
    destruct (negb (String.eqb name "")); [|reflexivity].
    apply declared_options_data. apply get_status_property_name_data.
Qed.

(** X17. A status the schema accepts is sent: when the status is among the
    declared option names, or the status property declares no named option
    at all, [update_status] sends one update that sets the status property
    to the status given, and answers with the outcome of that update:
    success, or the error the service raised. *)
Theorem accepted_status_is_sent (w w1 : world service) database item_id status
    a self name options :
  resolve database w = (Ok a, w1) ->
  heap service w1 !! a = Some self ->
  consistent self = true ->
  scan_status self = Ok (Some name) ->
  name <> "" ->
  declared_options "status" name self = Ok options ->
  options = [] \/ str_in status options = true ->
  let props := JObj [(name, JObj [("status", JObj [("name", JStr status)])])] in
  let outcome := update_page item_id props (remote service w1) in
  exists w2,
    update_status database item_id status w
    = (Ok match fst outcome with
          | Ok _ => status_updated item_id status name
          | Raise e => report_error e
          end, w2)
    /\ requests service w2 = (requests service w1 ++ [UpdatePage item_id props])%list
    /\ remote service w2 = snd outcome.
Proof.
  intros Hresolve Hself Hcons Hscan Hname Hoptions Haccepted props outcome.
  destruct (update_status_lookups w1 a self Hself Hcons) as (self1 & self2 & Hfirst & Hsecond).
  rewrite (get_status_options_of_consistent self Hcons), Hscan in Hsecond.
  apply String.eqb_neq in Hname. rewrite Hname, Hoptions in Hsecond. simpl in Hsecond.
  unfold Cli.update_status, try_except, mbind, prog_bind. rewrite Hresolve, Hfirst, Hscan.
  simpl. rewrite Hname. simpl. rewrite Hsecond.
  assert (Hcheck : list_truthy options && negb (str_in status options) = false).
  { destruct Haccepted as [-> | H]; [reflexivity|]. rewrite H. apply andb_false_r. }
  rewrite Hcheck. unfold client_update_page. simpl.
  fold props. fold outcome. destruct outcome as [[r|e] s']; simpl;
    eexists; (split; [reflexivity|]); simpl; split; reflexivity.
Qed.

(** X18. Without a status property, [update_status] answers that the
    database has none and sends nothing after the resolution; a status
    property whose name is the empty text counts as none. *)
Theorem no_status_property_no_update (w w1 : world service) database item_id status a self :
  resolve database w = (Ok a, w1) ->
  heap service w1 !! a = Some self ->
  consistent self = true ->
  scan_status self = Ok None \/ scan_status self = Ok (Some "") ->
  exists w2,
    update_status database item_id status w
    = (Ok (output_json false JNull
             (JObj [("message", JStr "No status property found in database")])), w2)
    /\ requests service w2 = requests service w1
    /\ remote service w2 = remote service w1.
Proof.
  intros Hresolve Hself Hcons Hscan.
  destruct (update_status_lookups w1 a self Hself Hcons) as (self1 & self2 & Hfirst & _).
  unfold Cli.update_status, try_except, mbind, prog_bind. rewrite Hresolve, Hfirst.
  destruct Hscan as [-> | ->]; simpl; eexists; (split; [reflexivity|]); split; reflexivity.
Qed.

(** X19. [list_status] answers with the name of the status property and its
    named options; when the property declares no named option, it answers
    that the database has no status property, as it does when there is
    none. *)
Theorem list_status_needs_named_options (w w1 : world service) database a self :
  resolve database w = (Ok a, w1) ->
  heap service w1 !! a = Some self ->
  consistent self = true ->
  (forall name options,
      scan_status self = Ok (Some name) -> name <> "" ->
      declared_options "status" name self = Ok options -> options <> [] ->
      fst (list_status database w)
      = Ok (output_json true
              (JObj [("property_name", JStr name); ("options", JArr options)]) JNull))
  /\ (forall name,
        scan_status self = Ok (Some name) ->
        name = "" \/ declared_options "status" name self = Ok [] ->
        fst (list_status database w) = Ok no_status_property)
  /\ (scan_status self = Ok None -> fst (list_status database w) = Ok no_status_property).
Proof.
  intros Hresolve Hself Hcons.
  pose proof (get_status_options_of_consistent self Hcons) as Hoptions.
  assert (Hfirst : on_object service a get_status_options w1
                   = (fst (get_status_options self),
                      put_object w1 a (snd (get_status_options self)))).
  { apply on_object_at. exact Hself. }
  assert (Hcons1 : consistent (snd (get_status_options self)) = true).
  { rewrite get_status_options_unfold.
    pose proof (get_status_property_name_consistent self Hcons) as H1.
    destruct (get_status_property_name self) as [[[n|]|e] self']; simpl in *; try exact H1.
    destruct (negb (String.eqb n "")); exact H1. }
  assert (Hsecond : on_object service a get_status_property_name
                      (put_object w1 a (snd (get_status_options self)))
                    = (scan_status self,
                       put_object (put_object w1 a (snd (get_status_options self))) a
                         (snd (get_status_property_name (snd (get_status_options self)))))).
  { rewrite (on_object_at a _ _ _ (put_object_at w1 a self _ Hself)).
    rewrite (get_status_property_name_scan _ Hcons1).
    rewrite (scan_status_data _ self (get_status_options_data self)). reflexivity. }
  unfold Commands.list_status, try_except, mbind, prog_bind.
  rewrite Hresolve, Hfirst, Hoptions. repeat split.
  - intros name options Hscan Hname Hdeclared Hsome. rewrite Hscan.
    apply String.eqb_neq in Hname. rewrite Hname. simpl. rewrite Hdeclared.
    destruct options as [|o options]; [contradiction|]. simpl.
    rewrite Hsecond, Hscan. reflexivity.
  - intros name Hscan [-> | Hdeclared]; rewrite Hscan; simpl; [reflexivity|].
    destruct (negb (String.eqb name "")); [rewrite Hdeclared|]; reflexivity.
  - intros ->. reflexivity.
Qed.

(** [read] does not use the database it is given: it resolves no schema
    and leaves the objects and the cache as they are; its answer is the
    view of the page the service returned, or the error of the service or
    of the view. *)
Lemma read_ignores_the_database (w : world service) database item_id :
  read database item_id w
  = (Ok match fst (get_page item_id (remote service w)) ≫= page_view isoformat with
        | Ok data => output_json true data JNull
        | Raise e => report_error e
        end,
     with_remote service w (snd (get_page item_id (remote service w))))
  /\ (forall other, read other item_id w = read database item_id w).
Proof.
  split; [|reflexivity].
  unfold Commands.read, try_except, mbind, prog_bind, finish, client_get_page.
  destruct (get_page item_id (remote service w)) as [[page|e] s']; simpl; [|reflexivity].
  destruct (page_view isoformat page); reflexivity.
Qed.

Lemma dict_set_fresh m k v :
  Forall (fun kv => fst kv <> k) m -> dict_set m k v = (m ++ [(k, v)])%list.
Proof.
  induction 1 as [|[k' x] m Hk _ IH]; [reflexivity|]. simpl in *.
  apply String.eqb_neq in Hk. rewrite Hk, IH. reflexivity.
Qed.

Lemma tags_into_data tags_by_property tag_props a b :
  schema_data a = schema_data b ->
  tags_into tags_by_property tag_props a = tags_into tags_by_property tag_props b.
Proof.
  intros Hdata. revert tags_by_property.
  induction tag_props as [|n tag_props IH]; intros acc; [reflexivity|]. simpl.
  unfold get_tag_options. rewrite (declared_options_data _ n a b Hdata).
  destruct (declared_options "multi_select" n b); simpl; [apply IH | reflexivity].
Qed.

Lemma tags_into_fresh self tag_props : forall lists acc,
  NoDup tag_props ->
  Forall (fun kv => fst kv ∉ tag_props) acc ->
  mapM (fun n => get_tag_options n self) tag_props = Ok lists ->
  tags_into acc tag_props self = Ok (acc ++ zip tag_props (map JArr lists))%list.
Proof.
  induction tag_props as [|n tag_props IH]; intros lists acc Hnodup Hacc; simpl.
  - intros [= <-]. rewrite app_nil_r. reflexivity.
  - apply NoDup_cons in Hnodup as [Hn Hnodup].
    destruct (get_tag_options n self) as [options|e]; simpl; [|discriminate].
    destruct (mapM (fun n => get_tag_options n self) tag_props) as [rest|e] eqn:Erest;
      simpl; [|discriminate].
    intros [= <-]. rewrite dict_set_fresh.
    + rewrite (IH rest _ Hnodup); [|  | reflexivity].
      * rewrite <- app_assoc. reflexivity.
      * apply Forall_app. split.
        -- eapply Forall_impl; [exact Hacc|]. intros kv Hkv Hin. apply Hkv. right. exact Hin.
        -- constructor; [exact Hn | constructor].
    + eapply Forall_impl; [exact Hacc|]. intros kv Hkv Heq. apply Hkv. rewrite Heq. left.
Qed.

(** X20. [list_tags] answers with the names of the [multi_select]
    properties in the schema's order and, under each name, the named
    options of that property; without such a property it answers that the
    database has no tag property. *)
Theorem list_tags_lists_every_tag_property (w w1 : world service) database a self tag_props :
  resolve database w = (Ok a, w1) ->
  heap service w1 !! a = Some self ->
  consistent self = true ->
  scan_tags self = Ok tag_props ->
  (forall lists,
      tag_props <> [] -> NoDup tag_props ->
      mapM (fun n => get_tag_options n self) tag_props = Ok lists ->
      fst (list_tags database w)
      = Ok (output_json true
              (JObj [("properties", JArr (map JStr tag_props));
                     ("tags_by_property", JObj (zip tag_props (map JArr lists)))]) JNull))
  /\ (tag_props = [] ->
      fst (list_tags database w)
      = Ok (output_json false JNull
              (JObj [("message", JStr "No tag properties found in database")]))).
Proof.
  intros Hresolve Hself Hcons Hscan.
  assert (Hfirst : on_object service a get_tag_property_names w1
                   = (Ok tag_props, put_object w1 a (snd (get_tag_property_names self)))).
  { rewrite (on_object_at a _ w1 self Hself).
    rewrite (get_tag_property_names_scan self Hcons), Hscan. reflexivity. }
  unfold Commands.list_tags, try_except, mbind, prog_bind. rewrite Hresolve, Hfirst.
  split.
  - intros lists Hsome Hnodup Hlists.
    destruct tag_props as [|n tag_props]; [contradiction|].
    cbn [list_truthy].
    rewrite (on_object_at a _ _ _ (put_object_at w1 a self _ Hself)).
    unfold Prog.read. cbn [fst snd].
    rewrite (tags_into_data [] (n :: tag_props) _ self (get_tag_property_names_data self)).
    rewrite (tags_into_fresh self (n :: tag_props) lists [] Hnodup (Forall_nil_2 _) Hlists).
    reflexivity.
  - intros ->. reflexivity.
Qed.

(** The body [query] posts: the filter when there is one, and the page size
    when a limit is given, be it zero. *)
Lemma query_body_of filter_obj limit :
  query_body filter_obj JNull JNull (int_json limit)
  = JObj (match filter_obj with JNull => [] | _ => [("filter", filter_obj)] end
          ++ match limit with Some n => [("page_size", JNum n)] | None => [] end)%list.
Proof. destruct filter_obj, limit; reflexivity. Qed.

(** X21. [query] posts one query for the database, whose body holds the
    filter built from its arguments, under [filter], when that filter is
    not [None], and the limit, under [page_size], when a limit is given,
    zero included; nothing else.  Its answer is made from the answer of the
    service, or is the error raised. *)
Theorem query_posts_the_filter (w w1 : world service) database status tags filter limit
    a self filter_obj self' :
  resolve database w = (Ok a, w1) ->
  heap service w1 !! a = Some self ->
  build_filter status tags filter self = (Ok filter_obj, self') ->
  let body :=
    JObj (match filter_obj with JNull => [] | _ => [("filter", filter_obj)] end
          ++ match limit with Some n => [("page_size", JNum n)] | None => [] end)%list in
  let outcome := query_database database body (remote service w1) in
  query database status tags filter limit w
  = (Ok match fst outcome ≫= query_data isoformat with
        | Ok data => output_json true data JNull
        | Raise e => report_error e
        end,
     with_remote service (put_object w1 a self') (snd outcome)).
Proof.
  intros Hresolve Hself Hfilter body outcome.
  unfold Commands.query, try_except, mbind at 1 2 3 4, prog_bind, finish.
  rewrite Hresolve, (on_object_at a _ w1 self Hself), Hfilter. cbn [fst snd].
  unfold client_query_database. rewrite query_body_of. fold body.
  change (remote service (put_object w1 a self')) with (remote service w1). fold outcome.
  destruct outcome as [[answer|e] s']; simpl; [|reflexivity].
  destruct (query_data isoformat answer); reflexivity.
Qed.

(** X22. A custom filter that does not resolve, given alone, makes [query]
    ask for everything: the command is the command without any filter. *)
Theorem unresolved_filter_queries_everything (w w1 : world service) database f limit a self :
  resolve database w = (Ok a, w1) ->
  heap service w1 !! a = Some self ->
  contains_char "=" f = false \/ find_property_by_name (filter_key f) self = Ok None ->
  query database None None (Some f) limit w = query database None None None limit w.
Proof.
  intros Hresolve Hself Hinert.
  assert (Hsame : build_filter None None (Some f) self = build_filter None None None self).
  { rewrite !build_filter_unfold. unfold filter_by_status, filter_by_tags, mret, prog_ret.
    rewrite (filter_by_custom_inert f JNull self Hinert). reflexivity. }
  unfold Commands.query, try_except, mbind at 1 2 3 4 5 6 7 8, prog_bind.
  rewrite Hresolve, !(on_object_at a _ w1 self Hself), Hsame. reflexivity.
Qed.

End commands_more.

(** ** The views, and the filter again *)

Lemma listed_options_dicts kind def k (os : list (list (string * json))) :
  dict_lookup def kind = Some (JObj k) ->
  dict_lookup k "options" = Some (JArr (map JObj os)) ->
  listed_options kind (JObj def) = Ok (JArr (map (fun o => dict_get o "name") os)).
Proof.
  intros Hkind Hoptions. unfold listed_options. simpl.
  unfold dict_get_default. rewrite Hkind. simpl.
  unfold dict_get_default. rewrite Hoptions. simpl.
  rewrite get_each_dicts. reflexivity.
Qed.

(** X23. The [schema] command lists every declared option of a [select],
    [multi_select] or [status] property, by name, with [None] for an option
    without a name and the empty text for one so named: it does not leave
    out the unnamed options that the option lists of [list_status] and
    [list_tags] leave out.  A property of another type gets its type
    only. *)
Theorem schema_command_keeps_unnamed_options def :
  (forall ty k (os : list (list (string * json))),
      ty = "select" \/ ty = "multi_select" \/ ty = "status" ->
      dict_get def "type" = JStr ty ->
      dict_lookup def ty = Some (JObj k) ->
      dict_lookup k "options" = Some (JArr (map JObj os)) ->
      simplify_property (JObj def)
      = Ok (JObj [("type", JStr ty);
                  ("options", JArr (map (fun o => dict_get o "name") os))])
      /\ option_names ty (JObj def)
         = Ok (filter (fun n => truthy n = true) (map (fun o => dict_get o "name") os)))
  /\ (py_eq_str (dict_get def "type") "select" = false ->
      py_eq_str (dict_get def "type") "multi_select" = false ->
      py_eq_str (dict_get def "type") "status" = false ->
      simplify_property (JObj def) = Ok (JObj [("type", dict_get def "type")])).
Proof.
  split.
  - intros ty k os Hty Htype Hkind Hoptions. split.
    + unfold simplify_property. simpl. rewrite Htype.
      destruct Hty as [-> | [-> | ->]]; simpl;
        rewrite (listed_options_dicts _ def k os Hkind Hoptions); reflexivity.
    + unfold option_names. simpl. unfold dict_get_default. rewrite Hkind. simpl.
      unfold dict_get_default. rewrite Hoptions. simpl. apply names_of_options_dicts.
  - intros H1 H2 H3. unfold simplify_property. simpl. rewrite H1, H2, H3. reflexivity.
Qed.

Lemma schema_command_keeps_unnamed_options_witness :
  let os := [[("name", JStr "Todo")]; [("name", JStr "")]; [("id", JStr "x")]] in
  let def := [("type", JStr "status"); ("status", JObj [("options", JArr (map JObj os))])] in
  simplify_property (JObj def)
  = Ok (JObj [("type", JStr "status"); ("options", JArr [JStr "Todo"; JStr ""; JNull])])
  /\ option_names "status" (JObj def) = Ok [JStr "Todo"].
Proof.
  intros os def.
  exact (proj1 (schema_command_keeps_unnamed_options def) "status"
           [("options", JArr (map JObj os))] os
           (or_intror (or_intror eq_refl)) eq_refl eq_refl eq_refl).
Defined.

Section views_more.

Variable isoformat : string -> option string.

Lemma transform_into_fresh (items : list (string * json)) : forall values acc,
  NoDup (map fst items) ->
  Forall (fun kv => fst kv ∉ map fst items) acc ->
  Forall2 (fun kv v => transform_property_value isoformat (snd kv) = Ok v) items values ->
  transform_into isoformat acc items = Ok (acc ++ zip (map fst items) values)%list.
Proof.
  induction items as [|[n d] items IH]; intros values acc Hnodup Hacc Hvalues.
  - inversion Hvalues; subst. simpl. rewrite app_nil_r. reflexivity.
  - inversion Hvalues as [|? v ? rest Hv Hrest]; subst. simpl in *.
    apply NoDup_cons in Hnodup as [Hn Hnodup].
    rewrite Hv. simpl. rewrite dict_set_fresh.
    + rewrite (IH rest _ Hnodup); [| | exact Hrest].
      * rewrite <- app_assoc. reflexivity.
      * apply Forall_app. split.
        -- eapply Forall_impl; [exact Hacc|]. intros kv Hkv Hin. apply Hkv. right. exact Hin.
        -- constructor; [exact Hn | constructor].
    + eapply Forall_impl; [exact Hacc|]. intros kv Hkv Heq. apply Hkv. rewrite Heq. left.
Qed.

Lemma transform_into_fails (items : list (string * json)) : forall acc,
  Exists (fun kv => is_ok (transform_property_value isoformat (snd kv)) = false) items ->
  is_ok (transform_into isoformat acc items) = false.
Proof.
  induction items as [|[n d] items IH]; intros acc Hbad; [inversion Hbad|].
  simpl. destruct (transform_property_value isoformat d) as [v|e] eqn:E; [|reflexivity].
  simpl. apply IH. inversion Hbad as [? ? H|]; subst; [|assumption].
  simpl in H. rewrite E in H. discriminate.
Qed.

Lemma well_formed_values (items : list (string * json)) :
  Forall (fun kv => well_formed (snd kv) = true) items ->
  exists values,
    Forall2 (fun kv v => transform_property_value isoformat (snd kv) = Ok v) items values.
Proof.
  induction 1 as [|kv items Hkv _ [values IH]].
  - exists []. constructor.
  - destruct (transform_total isoformat _ Hkv) as [v Hv].
    exists (v :: values). constructor; assumption.
Qed.

(** X24. The view of a page keeps every property, under its name and in
    the page's order, with its normalized value, beside the page's [id],
    times, [archived] and [url].  On a page whose property values have the
    documented shape the view is made; and if one property value cannot be
    normalized there is no view at all. *)
Theorem page_view_keeps_every_property m (props : list (string * json)) :
  dict_lookup m "properties" = Some (JObj props) ->
  NoDup (map fst props) ->
  (Forall (fun kv => well_formed (snd kv) = true) props ->
   exists values,
     Forall2 (fun kv v => transform_property_value isoformat (snd kv) = Ok v) props values
     /\ page_view isoformat (JObj m)
        = Ok (JObj [("id", dict_get m "id");
                    ("created_time", dict_get m "created_time");
                    ("last_edited_time", dict_get m "last_edited_time");
                    ("archived", dict_get m "archived");
                    ("properties", JObj (zip (map fst props) values));
                    ("url", dict_get m "url")]))
  /\ (Exists (fun kv => is_ok (transform_property_value isoformat (snd kv)) = false) props ->
      is_ok (page_view isoformat (JObj m)) = false).
Proof.
  intros Hprops Hnodup. split.
  - intros Hwf. destruct (well_formed_values props Hwf) as [values Hvalues].
    exists values. split; [exact Hvalues|].
    unfold page_view. simpl. unfold dict_get_default. rewrite Hprops. simpl.
    rewrite (transform_into_fresh props values [] Hnodup (Forall_nil_2 _) Hvalues).
    reflexivity.
  - intros Hbad. unfold page_view. simpl. unfold dict_get_default. rewrite Hprops. simpl.
    pose proof (transform_into_fails props [] Hbad) as Hfails.
    destruct (transform_into isoformat [] props); [discriminate | reflexivity].
Qed.

Lemma mapM_views pages views :
  Forall2 (fun page view => page_view isoformat page = Ok view) pages views ->
  mapM (page_view isoformat) pages = Ok views.
Proof.
  induction 1 as [|page view pages views Hview _ IH]; [reflexivity|].
  simpl. rewrite Hview. simpl. rewrite IH. reflexivity.
Qed.

(** X25. What [query] returns holds one item for each page of the answer,
    in the answer's order, each the view of its page, and hands on the
    answer's [next_cursor] and [has_more] as they are; an answer without
    [results] gives no item. *)
Theorem query_data_follows_the_pages m pages views :
  dict_get_default m "results" (JArr []) = JArr pages ->
  Forall2 (fun page view => page_view isoformat page = Ok view) pages views ->
  query_data isoformat (JObj m)
  = Ok (JObj [("items", JArr views);
              ("next_cursor", dict_get m "next_cursor");
              ("has_more", dict_get m "has_more")])
  /\ length views = length pages.
Proof.
  intros Hresults Hviews. split.
  - unfold query_data. simpl. rewrite Hresults. simpl.
    rewrite (mapM_views pages views Hviews). reflexivity.
  - symmetry. exact (Forall2_length _ _ _ Hviews).
Qed.

End views_more.

Lemma page_view_keeps_every_property_witness :
  let props := [("Name", JObj [("type", JStr "title");
                               ("title", JArr [JObj [("plain_text", JStr "Fix login")]])]);
                ("Stage", JObj [("type", JStr "status"); ("status", JObj [("name", JStr "Todo")])]);
                ("Due", JObj [("type", JStr "date"); ("date", JNull)])] in
  let m := [("object", JStr "page"); ("id", JStr "p1"); ("archived", JBool false);
            ("properties", JObj props); ("url", JStr "https://www.notion.so/p1")] in
  let broken := [("id", JStr "p2");
                 ("properties", JObj [("Tags", JObj [("type", JStr "multi_select");
                                                     ("multi_select", JNull)])])] in
  page_view isoformat_date (JObj m)
  = Ok (JObj [("id", JStr "p1"); ("created_time", JNull); ("last_edited_time", JNull);
              ("archived", JBool false);
              ("properties",
               JObj [("Name", JStr "Fix login"); ("Stage", JStr "Todo"); ("Due", JNull)]);
              ("url", JStr "https://www.notion.so/p1")])
  /\ is_ok (page_view isoformat_date (JObj broken)) = false.
Proof.
  intros props m broken. split.
  - assert (Hnodup : NoDup (map fst props)).
    { apply NoDup_ListNoDup. repeat constructor; simpl; intuition discriminate. }
    destruct (proj1 (page_view_keeps_every_property isoformat_date m props eq_refl Hnodup))
      as (values & Hvalues & Hview).
    { repeat constructor. }
    rewrite Hview.
    inversion Hvalues as [|? v1 ? r1 H1 Hr1]; subst.
    inversion Hr1 as [|? v2 ? r2 H2 Hr2]; subst.
    inversion Hr2 as [|? v3 ? r3 H3 Hr3]; subst.
    inversion Hr3; subst.
    vm_compute in H1, H2, H3.
    injection H1 as <-. injection H2 as <-. injection H3 as <-. reflexivity.
  - apply (page_view_keeps_every_property isoformat_date broken
             [("Tags", JObj [("type", JStr "multi_select"); ("multi_select", JNull)])] eq_refl).
    + apply NoDup_ListNoDup. repeat constructor. simpl. intuition.
    + constructor. reflexivity.
Defined.

Lemma query_data_follows_the_pages_witness :
  let page id := JObj [("id", JStr id); ("properties", JObj [])] in
  let view id := JObj [("id", JStr id); ("created_time", JNull); ("last_edited_time", JNull);
                       ("archived", JNull); ("properties", JObj []); ("url", JNull)] in
  let m := [("object", JStr "list"); ("results", JArr [page "p1"; page "p2"]);
            ("next_cursor", JStr "c2"); ("has_more", JBool true)] in
  query_data isoformat_date (JObj m)
  = Ok (JObj [("items", JArr [view "p1"; view "p2"]);
              ("next_cursor", JStr "c2"); ("has_more", JBool true)]).
Proof.
  intros page view m.
  apply (query_data_follows_the_pages isoformat_date m [page "p1"; page "p2"]
           [view "p1"; view "p2"] eq_refl).
  repeat constructor.
Defined.

(** X26. The key a client is made with is never the empty text.  A key
    given that is not empty is the key; otherwise the key is the one of the
    environment; and making the client fails, with [ValueError], exactly
    when neither gives a key that is not empty. *)
Theorem client_key_is_never_empty api_key env :
  (forall key, client_api_key api_key env = Ok key -> key <> "")
  /\ (forall given, given <> "" -> client_api_key (Some given) env = Ok given)
  /\ (name_truthy api_key = false -> client_api_key api_key env = get_api_key env)
  /\ (client_api_key api_key env = Raise (ValueError key_not_set)
      <-> name_truthy api_key = false /\ name_truthy env = false).
Proof.
  assert (Henv : forall key, get_api_key env = Ok key -> key <> "").
  { unfold get_api_key. destruct env as [k|]; [|discriminate].
    destruct (name_truthy (Some k)) eqn:E; [|discriminate].
    intros key [= <-]. simpl in E. apply negb_true_iff in E. apply String.eqb_neq. exact E. }
  split; [|split; [|split]].
  - intros key. unfold client_api_key. destruct api_key as [g|]; [|apply Henv].
    destruct (name_truthy (Some g)) eqn:E; [|apply Henv].
    intros [= <-]. simpl in E. apply negb_true_iff in E. apply String.eqb_neq. exact E.
  - intros given Hgiven. unfold client_api_key. simpl.
    apply String.eqb_neq in Hgiven. rewrite Hgiven. reflexivity.
  - intros H. unfold client_api_key. destruct api_key as [g|]; [|reflexivity].
    rewrite H. reflexivity.
  - unfold client_api_key, get_api_key.
    destruct api_key as [g|]; [destruct (name_truthy (Some g))|];
      (destruct env as [k|]; [destruct (name_truthy (Some k))|]);
      simpl; split; try discriminate; intuition discriminate.
Qed.

Lemma client_key_is_never_empty_witness :
  client_api_key (Some "secret_a") (Some "secret_b") = Ok "secret_a"
  /\ client_api_key (Some "") (Some "secret_b") = Ok "secret_b"
  /\ client_api_key (Some "") (Some "") = Raise (ValueError key_not_set).
Proof.
  split; [|split].
  - apply (client_key_is_never_empty (Some "secret_a") (Some "secret_b")). discriminate.
  - rewrite (proj1 (proj2 (proj2 (client_key_is_never_empty (Some "") (Some "secret_b"))))
               eq_refl).
    reflexivity.
  - apply (client_key_is_never_empty (Some "") (Some "")). split; reflexivity.
Defined.

Lemma first_named_of_items name_lower defs def :
  first_named name_lower (as_items defs) = Some def -> is_dict def = true.
Proof.
  induction defs as [|[n d] defs IH]; simpl; [discriminate|].
  destruct (String.eqb (lower n) name_lower); [|exact IH].
  intros [= <-]. reflexivity.
Qed.

(** X27. Building the filter raises nothing on a schema whose property
    definitions are objects, whatever the arguments hold and whatever the
    object has stored: an argument that leads nowhere is passed over. *)
Theorem build_filter_returns self defs status tags filter :
  properties self = Ok (JObj (as_items defs)) ->
  exists filter_obj self', build_filter status tags filter self = (Ok filter_obj, self').
Proof.
  intros Hprops.
  assert (Hstatus : is_ok (scan_status self) = true).
  { unfold scan_status, property_items. rewrite Hprops. simpl.
    rewrite first_of_type_dicts. reflexivity. }
  assert (Htags : is_ok (scan_tags self) = true).
  { unfold scan_tags, property_items. rewrite Hprops. simpl.
    rewrite all_of_type_dicts. reflexivity. }
  rewrite build_filter_unfold.
  destruct (filter_by_status_returns status JNull self Hstatus) as (by_status & self1 & E1).
  pose proof (filter_by_status_data status JNull self) as Hdata.
  rewrite E1 in Hdata |- *. simpl in Hdata.
  destruct (filter_by_tags_returns tags by_status self1) as (by_tags & self2 & E2).
  { rewrite (scan_tags_data self1 self Hdata). exact Htags. }
  rewrite E2.
  assert (Hcustom : exists filter_obj, filter_by_custom filter by_tags self = Ok filter_obj).
  { unfold filter_by_custom. destruct filter as [f|]; [|eauto].
    destruct (name_truthy (Some f)); [|eauto].
    destruct (contains_char "=" f) eqn:Hcontains; [|eauto].
    destruct (split_once_cut "=" f Hcontains) as (k & v & -> & _).
    unfold find_property_by_name, property_items. rewrite Hprops. simpl.
    destruct (first_named (lower (strip k)) (as_items defs)) as [def|] eqn:Efound; [|eauto].
    apply first_named_of_items in Efound.
    destruct def; try discriminate. simpl. destruct fields; eauto. }
  destruct Hcustom as [filter_obj ->]. eauto.
Qed.

Lemma build_filter_returns_witness :
  let defs := [("Name", [("type", JStr "title")]); ("Stage", [("type", JStr "status")])] in
  let self := new_schema "db" (JObj [("properties", JObj (as_items defs))]) in
  exists filter_obj self',
    build_filter (Some "Todo") (Some "a,b") (Some "=") self = (Ok filter_obj, self').
Proof.
  intros defs self.
  exact (build_filter_returns self defs (Some "Todo") (Some "a,b") (Some "=") eq_refl).
Defined.

Lemma get_tag_property_names_after_status self :
  fst (get_tag_property_names (snd (get_status_property_name self)))
  = fst (get_tag_property_names self).
Proof.
  unfold get_status_property_name.
  destruct (_status_property_name self); [reflexivity|].
  destruct (scan_status self) as [[name|]|e]; try reflexivity.
  unfold get_tag_property_names. simpl.
  rewrite (scan_tags_data (set_status_property_name self name) self eq_refl). 
  destruct (_tag_property_names self); [|reflexivity].
  destruct (scan_tags self); reflexivity.
Qed.

(** X28. Tags overwrite the status: with tags given, on a schema that has a
    [multi_select] property, the filter is the one the tags give, and the
    status argument changes nothing in it. *)
Theorem tags_overwrite_status self status ts filter tag_prop_name more :
  ts <> "" ->
  is_ok (scan_status self) = true ->
  fst (get_tag_property_names self) = Ok (tag_prop_name :: more) ->
  fst (build_filter status (Some ts) filter self)
  = fst (build_filter None (Some ts) filter self).
Proof.
  intros Hts Hstatus Htags.
  assert (Htruthy : name_truthy (Some ts) = true).
  { simpl. apply String.eqb_neq in Hts. rewrite Hts. reflexivity. }
  assert (Hby_tags : forall filter_obj self1,
             fst (get_tag_property_names self1) = Ok (tag_prop_name :: more) ->
             exists self2,
               filter_by_tags (Some ts) filter_obj self1
               = (fst (filter_by_tags (Some ts) JNull self), self2)).
  { intros filter_obj self1 H1. unfold filter_by_tags. rewrite Htruthy.
    unfold mbind, prog_bind.
    destruct (get_tag_property_names self1) as [r1 s1]. simpl in H1. subst r1.
    destruct (get_tag_property_names self) as [r s0]. simpl in Htags. subst r.
    destruct (map strip (split "," ts)) as [|t [|t' tokens]]; eexists; reflexivity. }
  rewrite !build_filter_unfold.
  destruct (filter_by_status_returns status JNull self Hstatus) as (by_status & self1 & E1).
  assert (Hself1 : fst (get_tag_property_names self1) = Ok (tag_prop_name :: more)).
  { destruct status as [st|]; [|injection E1 as <- <-; exact Htags].
    unfold filter_by_status in E1. destruct (name_truthy (Some st));
      [|injection E1 as <- <-; exact Htags].
    unfold mbind, prog_bind in E1.
    pose proof (get_tag_property_names_after_status self) as Hafter.
    destruct (get_status_property_name self) as [[[name|]|e] s1]; simpl in Hafter;
      [| |discriminate].
    - destruct (name_truthy (Some name)); injection E1 as <- <-; congruence.
    - injection E1 as <- <-. congruence. }
  rewrite E1.
  destruct (Hby_tags by_status self1 Hself1) as [self2 ->].
  unfold filter_by_status at 1. unfold mret, prog_ret.
  destruct (Hby_tags JNull self Htags) as [self3 ->].
  cbn [fst]. destruct (fst (filter_by_tags (Some ts) JNull self)); reflexivity.
Qed.

Lemma tags_overwrite_status_witness :
  let props := [("Stage", JObj [("type", JStr "status")]);
                ("Tags", JObj [("type", JStr "multi_select")])] in
  let self := new_schema "db" (JObj [("properties", JObj props)]) in
  fst (build_filter (Some "Todo") (Some "urgent") None self)
  = Ok (multi_select_contains "Tags" "urgent").
Proof.
  intros props self.
  rewrite (tags_overwrite_status self (Some "Todo") "urgent" None "Tags" []
             ltac:(discriminate) eq_refl eq_refl).
  reflexivity.
Defined.

(** X29. The custom filter is cut at its first [=] and only there: the key
    holds no [=], the key, an [=] and the value make up the filter again,
    and so unpacking the two parts never fails: the custom branch raises
    no [ValueError]. *)
Theorem custom_filter_is_cut_once f :
  contains_char "=" f = true ->
  (exists key value,
      split_once "=" f = [key; value]
      /\ f = key ++ "=" ++ value
      /\ contains_char "=" key = false
      /\ filter_key f = strip key /\ filter_value f = strip value)
  /\ (forall filter_obj self message,
        filter_by_custom (Some f) filter_obj self <> Raise (ValueError message)).
Proof.
  intros Hcontains.
  destruct (split_once_cut "=" f Hcontains) as (k & v & Hsplit & Hf & Hk).
  split.
  - exists k, v. unfold filter_key, filter_value. rewrite Hsplit. repeat split; assumption.
  - intros filter_obj self message. unfold filter_by_custom.
    destruct (name_truthy (Some f)); [|discriminate].
    rewrite Hcontains, Hsplit.
    unfold find_property_by_name, property_items, properties.
    destruct (py_get_default (schema_data self) "properties" (JObj [])) as [props|e] eqn:E1.
    + simpl. destruct props; simpl; try discriminate.
      destruct (first_named _ _) as [def|]; [|discriminate].
      destruct (truthy def); [|discriminate].
      destruct def; simpl; discriminate.
    + simpl. destruct (schema_data self); simpl in E1; try discriminate;
        injection E1 as <-; discriminate.
Qed.

Lemma custom_filter_is_cut_once_witness :
  exists key value,
    split_once "=" "note = a=b" = [key; value]
    /\ "note = a=b" = key ++ "=" ++ value
    /\ contains_char "=" key = false
    /\ filter_key "note = a=b" = "note" /\ filter_value "note = a=b" = "a=b".
Proof.
  destruct (proj1 (custom_filter_is_cut_once "note = a=b" eq_refl))
    as (key & value & Hsplit & Hf & Hkey & Hk & Hv).
  exists key, value. injection Hsplit as <- <-. repeat split.
Defined.

(** ** The commands on a small database *)

Lemma failed_resolution_is_reported_witness :
  let w := start nat 0 in
  let answer :=
    Ok (output_json false JNull
          (JObj [("message", JStr "Could not find database"); ("status_code", JNum 404)])) in
  fst (Cli.update_status nat (serve_database JNull) serve_update "other" "p1" "Done" w) = answer
  /\ fst (Commands.list_status nat (serve_database JNull) "other" w) = answer
  /\ fst (Commands.list_tags nat (serve_database JNull) "other" w) = answer.
Proof.
  intros w answer.
  pose proof (failed_resolution_is_reported isoformat_date nat (serve_database JNull)
                serve_update (serve_query []) w
                (snd (get_database_schema nat (serve_database JNull) "other" w)) "other"
                (NotionAPIError "Could not find database" (Some 404%Z)) eq_refl)
    as (Hupdate & Hstatus & Htags & _ & _).
  split; [|split].
  - rewrite Hupdate. reflexivity.
  - rewrite Hstatus. reflexivity.
  - rewrite Htags. reflexivity.
Defined.

Lemma accepted_status_is_sent_witness :
  let option name := JObj [("id", JStr "o"); ("name", JStr name)] in
  let status_def :=
    JObj [("type", JStr "status");
          ("status", JObj [("options", JArr [option "Todo"; option "Done"])])] in
  let data := JObj [("properties", JObj [("Stage", status_def)])] in
  let props := JObj [("Stage", JObj [("status", JObj [("name", JStr "Done")])])] in
  exists w2,
    Cli.update_status nat (serve_database data) serve_update "db" "p1" "Done" (start nat 0)
    = (Ok (status_updated "p1" "Done" "Stage"), w2)
    /\ requests nat w2 = [GetDatabase "db"; UpdatePage "p1" props]
    /\ remote nat w2 = 2.
Proof.
  intros option status_def data props.
  exact (accepted_status_is_sent nat (serve_database data) serve_update (start nat 0)
           (snd (get_database_schema nat (serve_database data) "db" (start nat 0)))
           "db" "p1" "Done" 0 (new_schema "db" data) "Stage" [JStr "Todo"; JStr "Done"]
           eq_refl eq_refl eq_refl eq_refl ltac:(discriminate) eq_refl (or_intror eq_refl)).
Defined.

Lemma no_status_property_no_update_witness :
  let data := JObj [("properties", JObj [("Name", JObj [("type", JStr "title")])])] in
  exists w2,
    Cli.update_status nat (serve_database data) serve_update "db" "p1" "Done" (start nat 0)
    = (Ok (output_json false JNull
             (JObj [("message", JStr "No status property found in database")])), w2)
    /\ requests nat w2 = [GetDatabase "db"]
    /\ remote nat w2 = 1.
Proof.
  intros data.
  exact (no_status_property_no_update nat (serve_database data) serve_update (start nat 0)
           (snd (get_database_schema nat (serve_database data) "db" (start nat 0)))
           "db" "p1" "Done" 0 (new_schema "db" data) eq_refl eq_refl eq_refl
           (or_introl eq_refl)).
Defined.

Lemma list_status_needs_named_options_witness :
  let with_options options :=
    JObj [("properties",
           JObj [("Stage", JObj [("type", JStr "status");
                                 ("status", JObj [("options", JArr options)])])])] in
  let named := with_options [JObj [("name", JStr "Todo")]; JObj [("name", JStr "Done")]] in
  let unnamed := with_options [JObj [("name", JStr "")]] in
  fst (Commands.list_status nat (serve_database named) "db" (start nat 0))
  = Ok (output_json true
          (JObj [("property_name", JStr "Stage");
                 ("options", JArr [JStr "Todo"; JStr "Done"])]) JNull)
  /\ fst (Commands.list_status nat (serve_database unnamed) "db" (start nat 0))
     = Ok no_status_property.
Proof.
  intros with_options named unnamed. split.
  - pose proof (list_status_needs_named_options nat (serve_database named) (start nat 0)
                  (snd (get_database_schema nat (serve_database named) "db" (start nat 0)))
                  "db" 0 (new_schema "db" named) eq_refl eq_refl eq_refl) as (H & _ & _).
    apply (H "Stage" [JStr "Todo"; JStr "Done"]); [reflexivity | discriminate | reflexivity |
                                                    discriminate].
  - pose proof (list_status_needs_named_options nat (serve_database unnamed) (start nat 0)
                  (snd (get_database_schema nat (serve_database unnamed) "db" (start nat 0)))
                  "db" 0 (new_schema "db" unnamed) eq_refl eq_refl eq_refl) as (_ & H & _).
    apply (H "Stage"); [reflexivity | right; reflexivity].
Defined.

Lemma list_tags_lists_every_tag_property_witness :
  let tags options := JObj [("type", JStr "multi_select");
                            ("multi_select", JObj [("options", JArr options)])] in
  let data :=
    JObj [("properties",
           JObj [("Name", JObj [("type", JStr "title")]);
                 ("Tags", tags [JObj [("name", JStr "bug")]; JObj [("name", JStr "")]]);
                 ("Areas", tags [])])] in
  fst (Commands.list_tags nat (serve_database data) "db" (start nat 0))
  = Ok (output_json true
          (JObj [("properties", JArr [JStr "Tags"; JStr "Areas"]);
                 ("tags_by_property",
                  JObj [("Tags", JArr [JStr "bug"]); ("Areas", JArr [])])]) JNull).
Proof.
  intros tags data.
  pose proof (list_tags_lists_every_tag_property nat (serve_database data) (start nat 0)
                (snd (get_database_schema nat (serve_database data) "db" (start nat 0)))
                "db" 0 (new_schema "db" data) ["Tags"; "Areas"] eq_refl eq_refl eq_refl eq_refl)
    as [H _].
  apply (H [[JStr "bug"]; []]); [discriminate | | reflexivity].
  apply NoDup_ListNoDup. repeat constructor; simpl; intuition discriminate.
Defined.

Lemma query_posts_the_filter_witness :
  let data := JObj [("properties", JObj [("Stage", JObj [("type", JStr "status")])])] in
  let filter_obj := status_equals "Stage" "Todo" in
  let body := JObj [("filter", filter_obj); ("page_size", JNum 0)] in
  fst (Commands.query isoformat_date nat (serve_database data) (serve_query [])
         "db" (Some "Todo") None None (Some 0%Z) (start nat 0))
  = Ok (output_json true
          (JObj [("items", JArr []); ("next_cursor", JNull); ("has_more", JBool false)]) JNull)
  /\ fst (serve_query [] "db" body 1)
     = Ok (JObj [("results", JArr []); ("next_cursor", JNull); ("has_more", JBool false);
                 ("request", body)]).
Proof.
  intros data filter_obj body. split; [|reflexivity].
  rewrite (query_posts_the_filter isoformat_date nat (serve_database data) (serve_query [])
             (start nat 0)
             (snd (get_database_schema nat (serve_database data) "db" (start nat 0)))
             "db" (Some "Todo") None None (Some 0%Z) 0 (new_schema "db" data) filter_obj
             (set_status_property_name (new_schema "db" data) "Stage")
             eq_refl eq_refl eq_refl).
  reflexivity.
Defined.

Lemma unresolved_filter_queries_everything_witness :
  let data := JObj [("properties", JObj [("Stage", JObj [("type", JStr "status")])])] in
  Commands.query isoformat_date nat (serve_database data) (serve_query [])
    "db" None None (Some "owner=me") None (start nat 0)
  = Commands.query isoformat_date nat (serve_database data) (serve_query [])
      "db" None None None None (start nat 0).
Proof.
  intros data.
  exact (unresolved_filter_queries_everything isoformat_date nat (serve_database data)
           (serve_query []) (start nat 0)
           (snd (get_database_schema nat (serve_database data) "db" (start nat 0)))
           "db" "owner=me" None 0 (new_schema "db" data) eq_refl eq_refl
           (or_intror eq_refl)).
Defined.
